(** * BackendAPIClient: retry loop, endpoint wrappers and batch fetch

    A shallow embedding of [api_client.py] and of the part of [config.py]
    it reads, followed by its callers: the health check and the connection
    test of [app.py], and the visitor and heatmap tools of [tools.py] with
    their formatters.  Python values are a small inductive type, exceptions
    are values of an error monad, and the outside world (the backend, the
    clock, the request log) is an explicit state threaded through every
    call. *)

From Stdlib Require Import ZArith NArith Nnat List String Ascii Bool Lia.
From Stdlib Require Import DecimalString.
From Stdlib Require Decimal DecimalFacts DecimalPos DecimalZ.
Import ListNotations.

Local Open Scope string_scope.
Local Open Scope Z_scope.

(** ** Python values *)

(** What [response.json()] can produce, which is also everything the
    client hands to its callers.  A float is kept as its IEEE-754 binary64
    bit pattern; a dict keeps insertion order. *)
#[warnings="-register-all"]
Inductive Value : Type :=
| VNone
| VBool (b : bool)
| VInt (z : Z)
| VFloat (bits : Z)
| VStr (s : string)
| VList (items : list Value)
| VDict (entries : list (string * Value)).

(** Truth value of an object, as [or] tests it. *)
Definition truthy (v : Value) : bool :=
  match v with
  | VNone => false
  | VBool b => b
  | VInt z => negb (z =? 0)
  | VFloat bits => negb (Z.land bits 0x7FFFFFFFFFFFFFFF =? 0)
  | VStr s => negb (String.eqb s "")
  | VList items => match items with [] => false | _ => true end
  | VDict entries => match entries with [] => false | _ => true end
  end.

(** [a or b] *)
Definition py_or (a b : Value) : Value := if truthy a then a else b.

(** [str(n)] for an int. *)
Definition str_of_int (n : Z) : string := NilZero.string_of_int (Z.to_int n).

(** [range(n)] *)
Definition range (n : Z) : list Z := map Z.of_nat (seq 0 (Z.to_nat n)).

Definition Dict : Type := list (string * string).

Fixpoint dict_get {A : Type} (d : list (string * A)) (k : string) : option A :=
  match d with
  | [] => None
  | (k', v) :: rest => if String.eqb k' k then Some v else dict_get rest k
  end.

(** [d[k] = v]: the value of an existing key is replaced in place, a new
    key goes to the end. *)
Fixpoint dict_set {A : Type} (d : list (string * A)) (k : string) (v : A)
  : list (string * A) :=
  match d with
  | [] => [(k, v)]
  | (k', v') :: rest =>
      if String.eqb k' k then (k', v) :: rest else (k', v') :: dict_set rest k v
  end.

(** [d.update(other)] *)
Definition dict_update {A : Type} (d other : list (string * A))
  : list (string * A) :=
  fold_left (fun acc kv => dict_set acc (fst kv) (snd kv)) other d.

(** ** Exceptions *)

(** The exception classes the client can meet: the builtins it raises or
    lets through, and the hierarchy of [requests.exceptions]. *)
Inductive ExcClass : Type :=
| E_Exception
| E_ValueError
| E_KeyError
| E_OverflowError
| E_KeyboardInterrupt
| E_RequestException
| E_Timeout
| E_ConnectTimeout
| E_ReadTimeout
| E_ConnectionError
| E_HTTPError
| E_JSONDecodeError
| E_HTTPStatusError
| E_Other (qualname : string).

Record PyExc : Type := mkExc { exc_class : ExcClass; exc_str : string }.

(** [isinstance(e, requests.exceptions.Timeout)]; [ConnectTimeout] inherits
    from both [ConnectionError] and [Timeout]. *)
Definition is_Timeout (c : ExcClass) : bool :=
  match c with
  | E_Timeout | E_ConnectTimeout | E_ReadTimeout => true
  | _ => false
  end.

(** [isinstance(e, requests.exceptions.RequestException)] *)
Definition is_RequestException (c : ExcClass) : bool :=
  match c with
  | E_RequestException | E_Timeout | E_ConnectTimeout | E_ReadTimeout
  | E_ConnectionError | E_HTTPError | E_JSONDecodeError => true
  | _ => false
  end.

(** [isinstance(e, Exception)]: everything but the [BaseException]-only
    classes. *)
Definition is_Exception (c : ExcClass) : bool :=
  match c with
  | E_KeyboardInterrupt => false
  | _ => true
  end.

(** ** The world outside the client *)

(** A request as it leaves the process. *)
Record Request : Type := mkRequest {
  req_method : string;
  req_url : string;
  req_query : option Dict;
  req_json : option Dict;
  req_headers : Dict;
  req_timeout : Z
}.

Inductive Res (A : Type) : Type :=
| Return (a : A)
| Raise (e : PyExc).
Arguments Return {A} a.
Arguments Raise {A} e.

(** A response object: its status line and what [.json()] does on it. *)
Record Response : Type := mkResponse {
  status_code : Z;
  reason : string;
  resp_url : string;
  json : Res Value
}.

(** What one call into the HTTP library ends in. *)
Inductive Outcome : Type :=
| Raises (e : PyExc)
| Responds (r : Response).

(** The backend and the network in front of it: the outcome of a request
    may depend on how many requests were sent before it. *)
Definition Transport : Type := nat -> Request -> Outcome.

Inductive Coroutine : Type :=
| CoSleep (delay : Z).

(** A naive [datetime]. *)
Record DateTime : Type := mkDateTime {
  year : Z; month : Z; day : Z;
  hour : Z; minute : Z; second : Z; microsecond : Z
}.

Record World : Type := mkWorld {
  now : DateTime;              (* what datetime.now() reads *)
  sent : list Request;         (* requests sent so far, oldest first *)
  slept : Z;                   (* seconds spent in completed sleeps *)
  coroutines : list Coroutine; (* coroutine objects created and not awaited *)
  stdout : list string         (* lines printed, oldest first *)
}.

(** ** config.py *)

Record Settings : Type := mkSettings {
  BACKEND_API_URL : string;
  MAX_RETRIES : Z;
  REQUEST_TIMEOUT : Z
}.

(** The values [Settings] takes when the environment sets none of them. *)
Definition default_settings : Settings :=
  {| BACKEND_API_URL := "http://localhost:8000";
     MAX_RETRIES := 3;
     REQUEST_TIMEOUT := 30 |}.

Definition API_ENDPOINTS : Dict :=
  [ ("health", "/health");
    ("visitors_current", "/api/visitors/current");
    ("visitors_sections", "/api/visitors/sections");
    ("cashier_current", "/api/cashier/current");
    ("cashier_history", "/api/cashier/history");
    ("cashier_wait_time", "/api/cashier/wait-time");
    ("heatmap", "/api/heatmap/");
    ("predictions", "/api/predictions/");
    ("daily_analytics", "/api/visitors/analytics/daily") ].

(** ** api_client.py: state *)

Record Session : Type := mkSession { headers : Dict }.

Record BackendAPIClient : Type := mkClient {
  base_url : string;
  timeout : Z;
  max_retries : Z;
  _session : option Session
}.

(** The module-level [api_client] and the world it talks to. *)
Record State : Type := mkState {
  api_client : BackendAPIClient;
  world : World
}.

(** Computations that read and update the state and may raise. *)
Definition Py (A : Type) : Type := State -> Res A * State.

Definition ret {A : Type} (a : A) : Py A := fun st => (Return a, st).

Definition raise {A : Type} (e : PyExc) : Py A := fun st => (Raise e, st).

Definition bind {A B : Type} (m : Py A) (k : A -> Py B) : Py B :=
  fun st =>
    match m st with
    | (Return a, st') => k a st'
    | (Raise e, st') => (Raise e, st')
    end.

(** [try: body  except ...: handler]; a handler that matches no clause
    re-raises. *)
Definition try_except {A : Type} (body : Py A) (handler : PyExc -> Py A)
  : Py A :=
  fun st =>
    match body st with
    | (Return a, st') => (Return a, st')
    | (Raise e, st') => handler e st'
    end.

Definition get_self : Py BackendAPIClient := fun st => (Return (api_client st), st).

Declare Scope py_scope.
Delimit Scope py_scope with py.
Notation "x <- m ;; k" := (bind m (fun x => k))
  (at level 100, m at next level, right associativity) : py_scope.
Notation "m ;;; k" := (bind m (fun _ => k))
  (at level 100, right associativity) : py_scope.
Local Open Scope py_scope.

(** [settings.API_ENDPOINTS[key]] *)
Definition endpoint_of (key : string) : Py string :=
  match dict_get API_ENDPOINTS key with
  | Some path => ret path
  | None => raise (mkExc E_KeyError ("'" ++ key ++ "'"))
  end.

(** ** The HTTP libraries *)

(** What the installed libraries contribute and the source does not fix:
    the backend behind the network, and the strings the two HTTP
    libraries put into their default headers. *)
Record Env : Type := mkEnv {
  transport : Transport;
  requests_version : string;
  httpx_version : string;
  accept_encoding : string
}.

(** [requests.utils.default_headers()], the headers of a fresh
    [requests.Session()]. *)
Definition requests_default_headers (env : Env) : Dict :=
  [ ("User-Agent", "python-requests/" ++ requests_version env);
    ("Accept-Encoding", accept_encoding env);
    ("Accept", "*/*");
    ("Connection", "keep-alive") ].

(** The headers of an [httpx.AsyncClient] built without [headers=]. *)
Definition httpx_default_headers (env : Env) : Dict :=
  [ ("Accept", "*/*");
    ("Accept-Encoding", accept_encoding env);
    ("Connection", "keep-alive");
    ("User-Agent", "python-httpx/" ++ httpx_version env) ].

(** [requests.Session()] *)
Definition requests_Session (env : Env) : Session :=
  {| headers := requests_default_headers env |}.

(** [Response.raise_for_status()] of requests: an [HTTPError] for a 4xx or
    5xx status, nothing otherwise. *)
Definition raise_for_status (r : Response) : Py unit :=
  if (400 <=? status_code r) && (status_code r <? 500) then
    raise (mkExc E_HTTPError
             (str_of_int (status_code r) ++ " Client Error: " ++ reason r
                ++ " for url: " ++ resp_url r))
  else if (500 <=? status_code r) && (status_code r <? 600) then
    raise (mkExc E_HTTPError
             (str_of_int (status_code r) ++ " Server Error: " ++ reason r
                ++ " for url: " ++ resp_url r))
  else ret tt.

(** [Response.raise_for_status()] of httpx: an [HTTPStatusError] for every
    status outside 2xx.  Of the library's message only the first line is
    kept. *)
Definition httpx_raise_for_status (r : Response) : Py unit :=
  if (200 <=? status_code r) && (status_code r <=? 299) then ret tt
  else
    let error_type :=
      match status_code r / 100 with
      | 1 => "Informational response"
      | 3 => "Redirect response"
      | 4 => "Client error"
      | 5 => "Server error"
      | _ => "Invalid status code"
      end in
    raise (mkExc E_HTTPStatusError
             (error_type ++ " '" ++ str_of_int (status_code r) ++ " "
                ++ reason r ++ "' for url '" ++ resp_url r ++ "'")).

(** [response.json()] *)
Definition response_json (r : Response) : Py Value :=
  match json r with
  | Return v => ret v
  | Raise e => raise e
  end.

Definition log_request (req : Request) (w : World) : World :=
  {| now := now w; sent := sent w ++ [req]; slept := slept w;
     coroutines := coroutines w; stdout := stdout w |}.

(** One request on the wire: it is logged, and the backend decides what
    comes back. *)
Definition send (env : Env) (req : Request) : Py Response :=
  fun st =>
    let w := world st in
    let st' := {| api_client := api_client st; world := log_request req w |} in
    match transport env (List.length (sent w)) req with
    | Raises e => (Raise e, st')
    | Responds r => (Return r, st')
    end.

(** [session.get(url, params=params, timeout=timeout)] *)
Definition session_get (env : Env) (s : Session) (url : string)
  (params : option Dict) (tmo : Z) : Py Response :=
  send env {| req_method := "GET"; req_url := url; req_query := params;
              req_json := None; req_headers := headers s; req_timeout := tmo |}.

(** [session.post(url, json=params, timeout=timeout)] *)
Definition session_post (env : Env) (s : Session) (url : string)
  (params : option Dict) (tmo : Z) : Py Response :=
  send env {| req_method := "POST"; req_url := url; req_query := None;
              req_json := params; req_headers := headers s; req_timeout := tmo |}.

(** [asyncio.sleep(delay)]: calling the coroutine function builds a
    coroutine object and returns at once. *)
Definition asyncio_sleep (delay : Z) : Py Coroutine :=
  fun st =>
    let w := world st in
    (Return (CoSleep delay),
     {| api_client := api_client st;
        world := {| now := now w; sent := sent w; slept := slept w;
                    coroutines := coroutines w ++ [CoSleep delay];
                    stdout := stdout w |} |}).

(** Forgets the first object equal to [c]. *)
Fixpoint forget (c : Coroutine) (l : list Coroutine) : list Coroutine :=
  match l with
  | [] => []
  | CoSleep d :: rest =>
      match c with
      | CoSleep delay => if d =? delay then rest else CoSleep d :: forget c rest
      end
  end.

(** [await c]: only here does the delay of a sleep coroutine elapse. *)
Definition await_ (c : Coroutine) : Py unit :=
  fun st =>
    let w := world st in
    match c with
    | CoSleep delay =>
        (Return tt,
         {| api_client := api_client st;
            world := {| now := now w; sent := sent w;
                        slept := slept w + Z.max 0 delay;
                        coroutines := forget c (coroutines w);
                        stdout := stdout w |} |})
    end.

(** [print(line)] *)
Definition print (line : string) : Py unit :=
  fun st =>
    let w := world st in
    (Return tt,
     {| api_client := api_client st;
        world := {| now := now w; sent := sent w; slept := slept w;
                    coroutines := coroutines w;
                    stdout := stdout w ++ [line] |} |}).

(** ** api_client.py: BackendAPIClient *)

(** [BackendAPIClient.__init__]: the three settings are copied, nothing is
    checked. *)
Definition BackendAPIClient_init (settings : Settings) : Res BackendAPIClient :=
  Return {| base_url := BACKEND_API_URL settings;
            timeout := REQUEST_TIMEOUT settings;
            max_retries := MAX_RETRIES settings;
            _session := None |}.

Definition session_headers : Dict :=
  [ ("User-Agent", "Retail-Chatbot/1.0"); ("Accept", "application/json") ].

(** The [session] property. *)
Definition session (env : Env) : Py Session :=
  fun st =>
    let self := api_client st in
    match _session self with
    | None =>
        let s := {| headers := dict_update (headers (requests_Session env))
                                 session_headers |} in
        (Return s,
         {| api_client := {| base_url := base_url self; timeout := timeout self;
                             max_retries := max_retries self;
                             _session := Some s |};
            world := world st |})
    | Some s => (Return s, st)
    end.

(** The [try] block of [_make_request]. *)
Definition request_once (env : Env) (url : string) (params : option Dict)
  (method : string) : Py Value :=
  self <- get_self ;;
  s <- session env ;;
  response <- (if String.eqb method "GET"
               then session_get env s url params (timeout self)
               else session_post env s url params (timeout self)) ;;
  raise_for_status response ;;;
  response_json response.

(** The two [except] clauses of [_make_request]: [None] stands for falling
    through to the next iteration. *)
Definition on_failure (endpoint : string) (attempt : Z) (e : PyExc)
  : Py (option Value) :=
  self <- get_self ;;
  if is_Timeout (exc_class e) then
    if attempt =? max_retries self - 1 then
      raise (mkExc E_Exception
               ("Request to " ++ endpoint ++ " timed out after "
                  ++ str_of_int (max_retries self) ++ " attempts"))
    else
      asyncio_sleep (1 * (attempt + 1)) ;;; ret None
  else if is_RequestException (exc_class e) then
    if attempt =? max_retries self - 1 then
      raise (mkExc E_Exception
               ("Failed to call " ++ endpoint ++ ": " ++ exc_str e))
    else
      asyncio_sleep (1 * (attempt + 1)) ;;; ret None
  else raise e.

(** The [for attempt in ...] loop of [_make_request] over the attempts
    still to run, and the [return None] behind it. *)
Fixpoint retry_loop (env : Env) (endpoint url : string) (params : option Dict)
  (method : string) (attempts : list Z) : Py Value :=
  match attempts with
  | [] => ret VNone
  | attempt :: rest =>
      r <- try_except
             (v <- request_once env url params method ;; ret (Some v))
             (on_failure endpoint attempt) ;;
      match r with
      | Some v => ret v
      | None => retry_loop env endpoint url params method rest
      end
  end.

Definition _make_request (env : Env) (endpoint : string) (params : option Dict)
  (method : string) : Py Value :=
  self <- get_self ;;
  let url := base_url self ++ endpoint in
  retry_loop env endpoint url params method (range (max_retries self)).

(** [_make_async_request]: one attempt through a fresh [httpx.AsyncClient];
    whatever goes wrong is printed and turned into [None]. *)
Definition httpx_get (env : Env) (url : string) (params : option Dict) (tmo : Z)
  : Py Response :=
  send env {| req_method := "GET"; req_url := url; req_query := params;
              req_json := None; req_headers := httpx_default_headers env;
              req_timeout := tmo |}.

Definition _make_async_request (env : Env) (endpoint : string)
  (params : option Dict) : Py Value :=
  self <- get_self ;;
  let url := base_url self ++ endpoint in
  try_except
    (response <- httpx_get env url params (timeout self) ;;
     httpx_raise_for_status response ;;;
     response_json response)
    (fun e =>
       if is_Exception (exc_class e) then
         print ("Async request failed: " ++ exc_str e) ;;; ret VNone
       else raise e).

(** [check_backend_health] *)
Definition check_backend_health (env : Env) : Py Value :=
  try_except
    (endpoint <- endpoint_of "health" ;;
     _make_request env endpoint None "GET")
    (fun e =>
       if is_Exception (exc_class e) then
         ret (VDict [("status", VStr "unhealthy"); ("error", VStr (exc_str e))])
       else raise e).

(** The shape shared by the wrappers: [self._make_request(endpoint) or
    default]. *)
Definition fetch_or (env : Env) (endpoint : string) (params : option Dict)
  (default : Value) : Py Value :=
  r <- _make_request env endpoint params "GET" ;;
  ret (py_or r default).

Definition get_current_visitors (env : Env) : Py Value :=
  endpoint <- endpoint_of "visitors_current" ;;
  fetch_or env endpoint None (VDict []).

Definition get_section_traffic (env : Env) : Py Value :=
  endpoint <- endpoint_of "visitors_sections" ;;
  fetch_or env endpoint None (VList []).

Definition get_daily_analytics (env : Env) : Py Value :=
  endpoint <- endpoint_of "daily_analytics" ;;
  fetch_or env endpoint None (VDict []).

Definition get_cashier_status (env : Env) : Py Value :=
  endpoint <- endpoint_of "cashier_current" ;;
  fetch_or env endpoint None (VDict []).

Definition get_queue_history (env : Env) (hours : Z) : Py Value :=
  endpoint <- endpoint_of "cashier_history" ;;
  fetch_or env (endpoint ++ "?hours=" ++ str_of_int hours) None (VList []).

Definition get_wait_time (env : Env) : Py Value :=
  endpoint <- endpoint_of "cashier_wait_time" ;;
  fetch_or env endpoint None (VDict []).

Definition get_heatmap_data (env : Env) : Py Value :=
  endpoint <- endpoint_of "heatmap" ;;
  fetch_or env endpoint None (VList []).

Definition get_density_analysis (env : Env) : Py Value :=
  endpoint <- endpoint_of "heatmap" ;;
  fetch_or env (endpoint ++ "analysis") None (VDict []).

Definition get_predictions (env : Env) : Py Value :=
  endpoint <- endpoint_of "predictions" ;;
  fetch_or env endpoint None (VList []).

Definition get_traffic_forecast (env : Env) : Py Value :=
  endpoint <- endpoint_of "predictions" ;;
  fetch_or env (endpoint ++ "traffic/forecast") None (VDict []).

Definition get_metric_prediction (env : Env) (metric_type horizon : string)
  : Py Value :=
  endpoint <- endpoint_of "predictions" ;;
  fetch_or env (endpoint ++ "metric/" ++ metric_type ++ "?horizon=" ++ horizon)
    None (VDict []).

(** ** Batch fetch *)

(** [asyncio.gather] over the tasks.  Each fetch is taken as one step of the event
    loop (its request together with its response); [order] is the order in
    which the loop happens to run them, and a task [order] leaves out runs
    after those it names.  The results come back by position, whatever the
    order was; the first exception a task lets through ends the gather. *)
Definition is_pending {A : Type} (results : list (option A)) (i : nat) : bool :=
  match nth_error results i with
  | Some None => true
  | _ => false
  end.

Fixpoint set_nth {A : Type} (l : list A) (i : nat) (a : A) : list A :=
  match l, i with
  | [], _ => []
  | _ :: rest, O => a :: rest
  | x :: rest, S j => x :: set_nth rest j a
  end.

Fixpoint run_tasks (tasks : list (Py Value)) (order : list nat)
  (results : list (option Value)) : Py (list (option Value)) :=
  match order with
  | [] => ret results
  | i :: rest =>
      match nth_error tasks i, is_pending results i with
      | Some task, true =>
          v <- task ;;
          run_tasks tasks rest (set_nth results i (Some v))
      | _, _ => run_tasks tasks rest results
      end
  end.

Definition gather (order : list nat) (tasks : list (Py Value))
  : Py (list Value) :=
  let n := List.length tasks in
  results <- run_tasks tasks (order ++ seq 0 n)%list (repeat None n) ;;
  ret (map (fun r => match r with Some v => v | None => VNone end) results).

(** [results[i]] *)
Definition getitem (results : list Value) (i : nat) : Py Value :=
  match nth_error results i with
  | Some v => ret v
  | None => raise (mkExc (E_Other "IndexError") "list index out of range")
  end.

Definition get_multiple_metrics (env : Env) (order : list nat) : Py Value :=
  e0 <- endpoint_of "visitors_current" ;;
  e1 <- endpoint_of "cashier_current" ;;
  e2 <- endpoint_of "heatmap" ;;
  let endpoints := [e0; e1; e2] in
  let tasks := map (fun endpoint => _make_async_request env endpoint None)
                 endpoints in
  results <- gather order tasks ;;
  r0 <- getitem results 0 ;;
  r1 <- getitem results 1 ;;
  r2 <- getitem results 2 ;;
  ret (VDict [("visitors", r0); ("cashier", r1); ("heatmap", r2)]).

(** ** datetime *)

(** The calendar arithmetic of the standard library's [datetime] module:
    proleptic Gregorian ordinals, day 1 being 0001-01-01. *)
Definition MINYEAR : Z := 1.
Definition MAXYEAR : Z := 9999.
Definition _MAXORDINAL : Z := 3652059.

Definition _DAYS_IN_MONTH : list Z :=
  [-1; 31; 28; 31; 30; 31; 30; 31; 31; 30; 31; 30; 31].

Definition _DAYS_BEFORE_MONTH : list Z :=
  [-1; 0; 31; 59; 90; 120; 151; 181; 212; 243; 273; 304; 334].

Definition table (t : list Z) (i : Z) : Z := nth (Z.to_nat i) t 0.

Definition _is_leap (y : Z) : bool :=
  (y mod 4 =? 0) && (negb (y mod 100 =? 0) || (y mod 400 =? 0)).

Definition _days_before_year (y : Z) : Z :=
  let y := y - 1 in
  y * 365 + y / 4 - y / 100 + y / 400.

Definition _days_in_month (y m : Z) : Z :=
  if (m =? 2) && _is_leap y then 29 else table _DAYS_IN_MONTH m.

Definition _days_before_month (y m : Z) : Z :=
  table _DAYS_BEFORE_MONTH m + (if (2 <? m) && _is_leap y then 1 else 0).

Definition _ymd2ord (y m d : Z) : Z :=
  _days_before_year y + _days_before_month y m + d.

Definition _DI400Y : Z := Eval compute in _days_before_year 401.
Definition _DI100Y : Z := Eval compute in _days_before_year 101.
Definition _DI4Y : Z := Eval compute in _days_before_year 5.

(** The month and the day of the month of the [n]-th day (from 0) of a
    year: the tail of [_ord2ymd]. *)
Definition month_day (leapyear : bool) (n : Z) : Z * Z :=
  let month := Z.shiftr (n + 50) 5 in
  let preceding :=
    table _DAYS_BEFORE_MONTH month
    + (if (2 <? month) && leapyear then 1 else 0) in
  if n <? preceding then
    let month := month - 1 in
    let preceding :=
      preceding - (table _DAYS_IN_MONTH month
                   + (if (month =? 2) && leapyear then 1 else 0)) in
    (month, n - preceding + 1)
  else (month, n - preceding + 1).

Definition _ord2ymd (n : Z) : Z * Z * Z :=
  let n := n - 1 in
  let n400 := n / _DI400Y in
  let n := n mod _DI400Y in
  let year := n400 * 400 + 1 in
  let n100 := n / _DI100Y in
  let n := n mod _DI100Y in
  let n4 := n / _DI4Y in
  let n := n mod _DI4Y in
  let n1 := n / 365 in
  let n := n mod 365 in
  let year := year + n100 * 100 + n4 * 4 + n1 in
  if (n1 =? 4) || (n100 =? 4) then (year - 1, 12, 31)
  else
    let leapyear := (n1 =? 3) && (negb (n4 =? 24) || (n100 =? 3)) in
    let '(month, day) := month_day leapyear n in
    (year, month, day).

(** [timedelta]: normalised days, seconds and microseconds. *)
Record TimeDelta : Type := mkTimeDelta {
  td_days : Z; td_seconds : Z; td_microseconds : Z
}.

Definition res_bind {A B : Type} (r : Res A) (k : A -> Res B) : Res B :=
  match r with
  | Return a => k a
  | Raise e => Raise e
  end.

(** [timedelta(days=, hours=, minutes=, seconds=, microseconds=)] on ints. *)
Definition timedelta (days hours minutes seconds microseconds : Z)
  : Res TimeDelta :=
  let s := seconds + minutes * 60 + hours * 3600 in
  let s := s + microseconds / 1000000 in
  let us := microseconds mod 1000000 in
  let d := days + s / 86400 in
  let s := s mod 86400 in
  if 999999999 <? Z.abs d then
    Raise (mkExc E_OverflowError
             ("days=" ++ str_of_int d ++ "; must have magnitude <= 999999999"))
  else Return {| td_days := d; td_seconds := s; td_microseconds := us |}.

Definition timedelta_neg (t : TimeDelta) : Res TimeDelta :=
  timedelta (- td_days t) 0 0 (- td_seconds t) (- td_microseconds t).

Definition timedelta_add (a b : TimeDelta) : Res TimeDelta :=
  timedelta (td_days a + td_days b) 0 0 (td_seconds a + td_seconds b)
    (td_microseconds a + td_microseconds b).

Definition toordinal (d : DateTime) : Z := _ymd2ord (year d) (month d) (day d).

(** [datetime + timedelta] *)
Definition datetime_add (self : DateTime) (other : TimeDelta) : Res DateTime :=
  res_bind (timedelta (toordinal self) (hour self) (minute self) (second self)
              (microsecond self)) (fun delta =>
  res_bind (timedelta_add delta other) (fun delta =>
  let hour := td_seconds delta / 3600 in
  let rem := td_seconds delta mod 3600 in
  let minute := rem / 60 in
  let second := rem mod 60 in
  if (0 <? td_days delta) && (td_days delta <=? _MAXORDINAL) then
    let '(y, m, d) := _ord2ymd (td_days delta) in
    Return {| year := y; month := m; day := d; hour := hour; minute := minute;
              second := second; microsecond := td_microseconds delta |}
  else Raise (mkExc E_OverflowError "date value out of range"))).

(** [datetime - timedelta] *)
Definition datetime_sub (self : DateTime) (other : TimeDelta) : Res DateTime :=
  res_bind (timedelta_neg other) (datetime_add self).

Fixpoint zeros (k : nat) : string :=
  match k with
  | O => ""
  | S k' => String "0" (zeros k')
  end.

(** ["%0<width>d" % n] for [n >= 0] *)
Definition zfill (width : nat) (n : Z) : string :=
  let s := str_of_int n in
  zeros (width - String.length s) ++ s.

(** [datetime.isoformat()] *)
Definition isoformat (d : DateTime) : string :=
  zfill 4 (year d) ++ "-" ++ zfill 2 (month d) ++ "-" ++ zfill 2 (day d)
  ++ "T" ++ zfill 2 (hour d) ++ ":" ++ zfill 2 (minute d) ++ ":"
  ++ zfill 2 (second d)
  ++ (if microsecond d =? 0 then "" else "." ++ zfill 6 (microsecond d)).

(** [datetime.now()] *)
Definition datetime_now : Py DateTime := fun st => (Return (now (world st)), st).

Definition lift {A : Type} (r : Res A) : Py A := fun st => (r, st).

Definition get_visitor_trend (env : Env) (hours : Z) : Py Value :=
  end_time <- datetime_now ;;
  delta <- lift (timedelta 0 hours 0 0 0) ;;
  start_time <- lift (datetime_sub end_time delta) ;;
  let params := [ ("start_time", isoformat start_time);
                  ("end_time", isoformat end_time) ] in
  fetch_or env "/api/visitors/range" (Some params) (VList []).

(** A [datetime] object the library can build. *)
Definition valid_datetime (d : DateTime) : Prop :=
  MINYEAR <= year d <= MAXYEAR /\ 1 <= month d <= 12
  /\ 1 <= day d <= _days_in_month (year d) (month d)
  /\ 0 <= hour d < 24 /\ 0 <= minute d < 60 /\ 0 <= second d < 60
  /\ 0 <= microsecond d < 1000000.

(** The place of a [datetime] on the time line, in microseconds. *)
Definition to_microseconds (d : DateTime) : Z :=
  (((toordinal d * 24 + hour d) * 60 + minute d) * 60 + second d) * 1000000
  + microsecond d.

(** ** Reading a timestamp back *)

(** The character of a decimal digit. *)
Definition digit_char (d : Z) : ascii := ascii_of_nat (48 + Z.to_nat d).

(** The [width] decimal digits of [n], most significant first. *)
Fixpoint digit_string (width : nat) (n : Z) : string :=
  match width with
  | O => ""
  | S w =>
      String (digit_char (n / 10 ^ Z.of_nat w))
        (digit_string w (n mod 10 ^ Z.of_nat w))
  end.

Definition digit_of_char (c : ascii) : option Z :=
  let k := Z.of_nat (nat_of_ascii c) in
  if (48 <=? k) && (k <=? 57) then Some (k - 48) else None.

(** Reads exactly [width] digits off the front of [s]. *)
Fixpoint parse_digits (width : nat) (s : string) (acc : Z)
  : option (Z * string) :=
  match width with
  | O => Some (acc, s)
  | S w =>
      match s with
      | String c rest =>
          match digit_of_char c with
          | Some d => parse_digits w rest (acc * 10 + d)
          | None => None
          end
      | EmptyString => None
      end
  end.

Definition expect (c : ascii) (s : string) : option string :=
  match s with
  | String c' rest => if Ascii.eqb c c' then Some rest else None
  | EmptyString => None
  end.

Definition obind {A B : Type} (o : option A) (k : A -> option B) : option B :=
  match o with
  | Some a => k a
  | None => None
  end.

(** Nothing, or a point and six digits of microseconds. *)
Definition parse_fraction (s : string) : option Z :=
  match s with
  | EmptyString => Some 0
  | String c rest =>
      if Ascii.eqb c "." then
        match parse_digits 6 rest 0 with
        | Some (us, EmptyString) => Some us
        | _ => None
        end
      else None
  end.

Definition valid_datetimeb (d : DateTime) : bool :=
  (MINYEAR <=? year d) && (year d <=? MAXYEAR)
  && (1 <=? month d) && (month d <=? 12)
  && (1 <=? day d) && (day d <=? _days_in_month (year d) (month d))
  && (0 <=? hour d) && (hour d <? 24)
  && (0 <=? minute d) && (minute d <? 60)
  && (0 <=? second d) && (second d <? 60)
  && (0 <=? microsecond d) && (microsecond d <? 1000000).

(** The reading of a timestamp of the form [YYYY-MM-DDTHH:MM:SS[.ffffff]],
    the form [isoformat] writes: the datetime it denotes, if it is well
    formed and denotes one.  On such strings this is what
    [datetime.fromisoformat] computes. *)
Definition parse_isoformat (s : string) : option DateTime :=
  obind (parse_digits 4 s 0) (fun '(y, s) =>
  obind (expect "-" s) (fun s =>
  obind (parse_digits 2 s 0) (fun '(m, s) =>
  obind (expect "-" s) (fun s =>
  obind (parse_digits 2 s 0) (fun '(d, s) =>
  obind (expect "T" s) (fun s =>
  obind (parse_digits 2 s 0) (fun '(hh, s) =>
  obind (expect ":" s) (fun s =>
  obind (parse_digits 2 s 0) (fun '(mm, s) =>
  obind (expect ":" s) (fun s =>
  obind (parse_digits 2 s 0) (fun '(ss, s) =>
  obind (parse_fraction s) (fun us =>
  let t := {| year := y; month := m; day := d; hour := hh; minute := mm;
              second := ss; microsecond := us |} in
  if valid_datetimeb t then Some t else None)))))))))))).

(** A digit as a constructor of the library's decimal numbers. *)
Definition dcons (k : Z) (u : Decimal.uint) : Decimal.uint :=
  match k with
  | 0 => Decimal.D0 u | 1 => Decimal.D1 u | 2 => Decimal.D2 u
  | 3 => Decimal.D3 u | 4 => Decimal.D4 u | 5 => Decimal.D5 u
  | 6 => Decimal.D6 u | 7 => Decimal.D7 u | 8 => Decimal.D8 u
  | _ => Decimal.D9 u
  end.

(** [digit_string] as a decimal number of the library. *)
Fixpoint udigits (width : nat) (n : Z) : Decimal.uint :=
  match width with
  | O => Decimal.Nil
  | S w => dcons (n / 10 ^ Z.of_nat w) (udigits w (n mod 10 ^ Z.of_nat w))
  end.

(** * Specification vocabulary *)

(** ** What one attempt does *)

Definition attempts (st : State) : nat := List.length (sent (world st)).

(** The session a client uses: the one it has, or the one the [session]
    property makes on first use. *)
Definition ensure_session (env : Env) (self : BackendAPIClient) : Session :=
  match _session self with
  | Some s => s
  | None => {| headers := dict_update (headers (requests_Session env))
                            session_headers |}
  end.

Definition with_session (env : Env) (self : BackendAPIClient)
  : BackendAPIClient :=
  {| base_url := base_url self; timeout := timeout self;
     max_retries := max_retries self;
     _session := Some (ensure_session env self) |}.

(** The request an attempt of [_make_request] puts on the wire. *)
Definition built_request (env : Env) (self : BackendAPIClient) (url : string)
  (params : option Dict) (method : string) : Request :=
  if String.eqb method "GET" then
    {| req_method := "GET"; req_url := url; req_query := params;
       req_json := None; req_headers := headers (ensure_session env self);
       req_timeout := timeout self |}
  else
    {| req_method := "POST"; req_url := url; req_query := None;
       req_json := params; req_headers := headers (ensure_session env self);
       req_timeout := timeout self |}.

(** What the [try] block makes of the outcome of its request. *)
Definition result_of (o : Outcome) : Res Value :=
  match o with
  | Raises e => Raise e
  | Responds r =>
      if (400 <=? status_code r) && (status_code r <? 500) then
        Raise (mkExc E_HTTPError
                 (str_of_int (status_code r) ++ " Client Error: " ++ reason r
                    ++ " for url: " ++ resp_url r))
      else if (500 <=? status_code r) && (status_code r <? 600) then
        Raise (mkExc E_HTTPError
                 (str_of_int (status_code r) ++ " Server Error: " ++ reason r
                    ++ " for url: " ++ resp_url r))
      else json r
  end.

(** An attempt that fails the way the retry policy covers: the library
    raised a [RequestException] (a timeout, a connection error), or the
    backend answered with a 4xx or 5xx status. *)
Definition fails (o : Outcome) : bool :=
  match o with
  | Raises e => is_RequestException (exc_class e)
  | Responds r => (400 <=? status_code r) && (status_code r <? 600)
  end.

Definition always_fails (env : Env) : Prop :=
  forall k req, fails (transport env k req) = true.

(** The exception [_make_request] raises when its last attempt failed with
    [cause]. *)
Definition terminal_error (endpoint : string) (n : Z) (cause : PyExc) : PyExc :=
  if is_Timeout (exc_class cause) then
    mkExc E_Exception
      ("Request to " ++ endpoint ++ " timed out after " ++ str_of_int n
         ++ " attempts")
  else
    mkExc E_Exception ("Failed to call " ++ endpoint ++ ": " ++ exc_str cause).

(** The coroutine objects a run of [k] failed attempts starting at attempt
    [a] leaves behind. *)
Definition backoff_coroutines (a k : nat) : list Coroutine :=
  map (fun i => CoSleep (1 * (Z.of_nat i + 1))) (seq a k).

Definition add_coroutine (c : Coroutine) (st : State) : State :=
  {| api_client := api_client st;
     world := {| now := now (world st); sent := sent (world st);
                 slept := slept (world st);
                 coroutines := coroutines (world st) ++ [c];
                 stdout := stdout (world st) |} |}.

(** The state one attempt leaves behind. *)
Definition after_attempt (env : Env) (url : string) (params : option Dict)
  (method : string) (st : State) : State :=
  {| api_client := with_session env (api_client st);
     world := log_request (built_request env (api_client st) url params method)
                (world st) |}.

(** The last cause of failure in a run where every attempt fails: the
    exception the [try] block raised on the attempt numbered [k] of the
    process. *)
Definition cause_at (env : Env) (k : nat) (req : Request) : PyExc :=
  match result_of (transport env k req) with
  | Raise e => e
  | Return _ => mkExc E_Exception ""
  end.

(** [month_day] checked against the two tables on one day of a year. *)
Definition month_day_ok (leapyear : bool) (n : Z) : bool :=
  let '(m, d) := month_day leapyear n in
  (1 <=? m) && (m <=? 12) && (1 <=? d)
  && (d <=? (if (m =? 2) && leapyear then 29 else table _DAYS_IN_MONTH m))
  && (table _DAYS_BEFORE_MONTH m + (if (2 <? m) && leapyear then 1 else 0) + d
      =? n + 1).

(** The length of a [timedelta], in microseconds. *)
Definition td_total (t : TimeDelta) : Z :=
  td_days t * 86400000000 + td_seconds t * 1000000 + td_microseconds t.

(** [datetime.min] *)
Definition datetime_min : DateTime :=
  {| year := 1; month := 1; day := 1; hour := 0; minute := 0; second := 0;
     microsecond := 0 |}.

(** ** The wrappers as a family *)

(** A call of one of the wrappers that answer with a default; the health
    check is not among them. *)
Inductive Wrapper : Type :=
| W_current_visitors
| W_section_traffic
| W_daily_analytics
| W_visitor_trend (hours : Z)
| W_cashier_status
| W_queue_history (hours : Z)
| W_wait_time
| W_heatmap_data
| W_density_analysis
| W_predictions
| W_traffic_forecast
| W_metric_prediction (metric_type horizon : string).

Definition call_wrapper (env : Env) (w : Wrapper) : Py Value :=
  match w with
  | W_current_visitors => get_current_visitors env
  | W_section_traffic => get_section_traffic env
  | W_daily_analytics => get_daily_analytics env
  | W_visitor_trend hours => get_visitor_trend env hours
  | W_cashier_status => get_cashier_status env
  | W_queue_history hours => get_queue_history env hours
  | W_wait_time => get_wait_time env
  | W_heatmap_data => get_heatmap_data env
  | W_density_analysis => get_density_analysis env
  | W_predictions => get_predictions env
  | W_traffic_forecast => get_traffic_forecast env
  | W_metric_prediction metric_type horizon =>
      get_metric_prediction env metric_type horizon
  end.

(** The default on the right of the wrapper's [or]. *)
Definition empty_default (w : Wrapper) : Value :=
  match w with
  | W_section_traffic | W_visitor_trend _ | W_queue_history _
  | W_heatmap_data | W_predictions => VList []
  | _ => VDict []
  end.

(** The time window of [get_visitor_trend]: its start, or the exception
    the computation raises. *)
Definition time_window (end_time : DateTime) (hours : Z) : Res DateTime :=
  res_bind (timedelta 0 hours 0 0 0) (datetime_sub end_time).

(** ** Concrete runs *)

Definition fresh_world (clock : DateTime) : World :=
  {| now := clock; sent := []; slept := 0; coroutines := []; stdout := [] |}.

(** The process right after [api_client = BackendAPIClient()]. *)
Definition state_of (settings : Settings) (clock : DateTime) : State :=
  {| api_client := {| base_url := BACKEND_API_URL settings;
                      timeout := REQUEST_TIMEOUT settings;
                      max_retries := MAX_RETRIES settings;
                      _session := None |};
     world := fresh_world clock |}.

Definition test_now : DateTime :=
  {| year := 2026; month := 11; day := 4; hour := 12; minute := 0;
     second := 0; microsecond := 0 |}.

Definition env_of (t : Transport) : Env :=
  {| transport := t; requests_version := "2.31.0"; httpx_version := "0.27.0";
     accept_encoding := "gzip, deflate" |}.

(** A backend that never answers in time. *)
Definition timeout_transport : Transport :=
  fun _ _ => Raises (mkExc E_ReadTimeout "Read timed out. (read timeout=30)").

(** An unreachable host. *)
Definition refused_transport : Transport :=
  fun _ _ => Raises (mkExc E_ConnectionError "Connection refused").

Definition sample_payload : Value :=
  VDict [ ("current_visitors", VInt 42);
          ("timestamp", VStr "2024-01-01T00:00:00") ].

Definition ok_response (url : string) (v : Value) : Response :=
  {| status_code := 200; reason := "OK"; resp_url := url; json := Return v |}.

(** A healthy backend that answers every request with the sample payload. *)
Definition healthy_transport : Transport :=
  fun _ req => Responds (ok_response (req_url req) sample_payload).

(** A backend whose first answer is a 503 and which is healthy after. *)
Definition flaky_transport : Transport :=
  fun k req =>
    match k with
    | O => Responds {| status_code := 503; reason := "Service Unavailable";
                       resp_url := req_url req; json := Return VNone |}
    | S _ => Responds (ok_response (req_url req) sample_payload)
    end.

Definition sample_cashier : Value :=
  VDict [ ("queue_length", VInt 5); ("estimated_wait_time", VInt 3) ].

(** A backend on which only the heatmap endpoint is broken. *)
Definition heatmap_down_transport : Transport :=
  fun _ req =>
    if String.eqb (req_url req) "http://localhost:8000/api/heatmap/" then
      Responds {| status_code := 500; reason := "Internal Server Error";
                  resp_url := req_url req; json := Return VNone |}
    else if String.eqb (req_url req) "http://localhost:8000/api/cashier/current"
    then Responds (ok_response (req_url req) sample_cashier)
    else Responds (ok_response (req_url req) sample_payload).

Definition zero_retries : Settings :=
  {| BACKEND_API_URL := "http://localhost:8000"; MAX_RETRIES := 0;
     REQUEST_TIMEOUT := 30 |}.

(** The endpoint a wrapper asks for and the parameters it passes, once its
    arguments are worked out. *)
Definition wrapper_endpoint (w : Wrapper) : string :=
  match w with
  | W_current_visitors => "/api/visitors/current"
  | W_section_traffic => "/api/visitors/sections"
  | W_daily_analytics => "/api/visitors/analytics/daily"
  | W_visitor_trend _ => "/api/visitors/range"
  | W_cashier_status => "/api/cashier/current"
  | W_queue_history hours => "/api/cashier/history?hours=" ++ str_of_int hours
  | W_wait_time => "/api/cashier/wait-time"
  | W_heatmap_data => "/api/heatmap/"
  | W_density_analysis => "/api/heatmap/analysis"
  | W_predictions => "/api/predictions/"
  | W_traffic_forecast => "/api/predictions/traffic/forecast"
  | W_metric_prediction metric_type horizon =>
      "/api/predictions/metric/" ++ metric_type ++ "?horizon=" ++ horizon
  end.

Definition wrapper_params (w : Wrapper) (clock : DateTime)
  : Res (option Dict) :=
  match w with
  | W_visitor_trend hours =>
      res_bind (time_window clock hours) (fun start_time =>
      Return (Some [ ("start_time", isoformat start_time);
                     ("end_time", isoformat clock) ]))
  | _ => Return None
  end.

(** ** Outcomes on the single-attempt path *)

(** The request [_make_async_request] puts on the wire. *)
Definition async_request (env : Env) (self : BackendAPIClient)
  (endpoint : string) (params : option Dict) : Request :=
  {| req_method := "GET"; req_url := base_url self ++ endpoint;
     req_query := params; req_json := None;
     req_headers := httpx_default_headers env; req_timeout := timeout self |}.

(** What the [try] block of [_make_async_request] makes of an outcome. *)
Definition async_attempt (o : Outcome) : Res Value :=
  match o with
  | Raises e => Raise e
  | Responds r =>
      if (200 <=? status_code r) && (status_code r <=? 299) then json r
      else
        Raise (mkExc E_HTTPStatusError
                 ((match status_code r / 100 with
                   | 1 => "Informational response"
                   | 3 => "Redirect response"
                   | 4 => "Client error"
                   | 5 => "Server error"
                   | _ => "Invalid status code"
                   end) ++ " '" ++ str_of_int (status_code r) ++ " "
                    ++ reason r ++ "' for url '" ++ resp_url r ++ "'"))
  end.

(** A fetch of the batch that fails: the library raised an [Exception],
    the status is not 2xx, or the body does not decode. *)
Definition async_fails (o : Outcome) : bool :=
  match o with
  | Raises e => is_Exception (exc_class e)
  | Responds r =>
      if (200 <=? status_code r) && (status_code r <=? 299) then
        match json r with
        | Return _ => false
        | Raise e => is_Exception (exc_class e)
        end
      else true
  end.

(** A fetch of the batch that succeeds with the decoded value [v]. *)
Definition async_succeeds (o : Outcome) (v : Value) : Prop :=
  exists r, o = Responds r /\ 200 <= status_code r <= 299 /\ json r = Return v.

Definition print_line (line : string) (w : World) : World :=
  {| now := now w; sent := sent w; slept := slept w;
     coroutines := coroutines w; stdout := stdout w ++ [line] |}.

(** The results gathered so far are as many as the tasks and agree with
    the values [vals] the tasks are to return. *)
Definition agree (tasks : list (Py Value)) (vals : list Value)
  (results : list (option Value)) : Prop :=
  List.length results = List.length tasks
  /\ forall i x, nth_error results i = Some (Some x) ->
                 nth_error vals i = Some x.

(** A slot of the batch resolves to [x]: its fetch succeeds with [x]
    whenever it is made, or it fails whenever it is made and [x] is
    [None]. *)
Definition slot_resolves (env : Env) (self : BackendAPIClient)
  (endpoint : string) (x : Value) : Prop :=
  (forall k, async_succeeds
               (transport env k (async_request env self endpoint None)) x)
  \/ (x = VNone
      /\ forall k, async_fails
                     (transport env k (async_request env self endpoint None))
                   = true).

(** ** Further vocabulary for the client *)

(** An outcome the retry loop hands on as it is: a value, or an exception
    outside the [RequestException] family. *)
Definition ends_loop (r : Res Value) : bool :=
  match r with
  | Return _ => true
  | Raise e => negb (is_RequestException (exc_class e))
  end.

(** The headers of the session the [session] property builds. *)
Definition fresh_session_headers (env : Env) : Dict :=
  [ ("User-Agent", "Retail-Chatbot/1.0");
    ("Accept-Encoding", accept_encoding env);
    ("Accept", "application/json");
    ("Connection", "keep-alive") ].

(** The number of tasks that have delivered their result. *)
Definition count_done (results : list (option Value)) : nat :=
  List.length (filter (fun r => match r with Some _ => true | None => false end)
                 results).

(** A backend on the single-attempt path that only fails in ways
    [except Exception] catches. *)
Definition async_well_behaved (env : Env) : Prop :=
  forall k req,
    match async_attempt (transport env k req) with
    | Return _ => True
    | Raise e => is_Exception (exc_class e) = true
    end.

(** The three requests of the batch. *)
Definition batch_requests (env : Env) (self : BackendAPIClient) : list Request :=
  [ async_request env self "/api/visitors/current" None;
    async_request env self "/api/cashier/current" None;
    async_request env self "/api/heatmap/" None ].

(** The keys of a dict, in order. *)
Definition dict_keys (v : Value) : list string :=
  match v with
  | VDict entries => map fst entries
  | _ => []
  end.

(** A backend that refuses the connection twice and then stops answering. *)
Definition refuse_then_timeout_transport : Transport :=
  fun k _ =>
    match k with
    | O | S O => Raises (mkExc E_ConnectionError "Connection refused")
    | _ => Raises (mkExc E_ReadTimeout "Read timed out. (read timeout=30)")
    end.

(** A backend that answers every request with 200 and the body [v]. *)
Definition constant_transport (v : Value) : Transport :=
  fun _ req => Responds (ok_response (req_url req) v).


(** [datetime.max] on the time line, and one microsecond more. *)
Definition end_of_time : Z := (_MAXORDINAL + 1) * 86400000000.

(** ** app.py *)

(** The name of the type of a value, as error messages spell it. *)
Definition type_name (v : Value) : string :=
  match v with
  | VNone => "NoneType"
  | VBool _ => "bool"
  | VInt _ => "int"
  | VFloat _ => "float"
  | VStr _ => "str"
  | VList _ => "list"
  | VDict _ => "dict"
  end.

(** [v.get(key, default)]: the method of a dict; any other value has no
    such attribute. *)
Definition value_get (v : Value) (key : string) (default : Value) : Res Value :=
  match v with
  | VDict entries =>
      Return (match dict_get entries key with
              | Some x => x
              | None => default
              end)
  | _ =>
      Raise (mkExc (E_Other "AttributeError")
               ("'" ++ type_name v ++ "' object has no attribute 'get'"))
  end.

(** What the page is asked to show. *)
Inductive UI : Type :=
| st_spinner (text : string)
| st_info (text : string)
| st_write (text : string).

(** The state of the Streamlit script: the process of the client, the
    entries of [st.session_state] and what went to the page, oldest
    first. *)
Record AppState : Type := mkAppState {
  process : State;
  session_state : list (string * Value);
  page : list UI
}.

Module app.

Definition App (A : Type) : Type := AppState -> Res A * AppState.

Definition ret {A : Type} (a : A) : App A := fun s => (Return a, s).

Definition raise {A : Type} (e : PyExc) : App A := fun s => (Raise e, s).

Definition bind {A B : Type} (m : App A) (k : A -> App B) : App B :=
  fun s =>
    match m s with
    | (Return a, s') => k a s'
    | (Raise e, s') => (Raise e, s')
    end.

(** [try: body  except Exception as e: handler]; what is no [Exception]
    goes on up. *)
Definition try_except_Exception {A : Type} (body : App A)
  (handler : PyExc -> App A) : App A :=
  fun s =>
    match body s with
    | (Return a, s') => (Return a, s')
    | (Raise e, s') =>
        if is_Exception (exc_class e) then handler e s' else (Raise e, s')
    end.

(** A call into the client. *)
Definition call {A : Type} (m : Py A) : App A :=
  fun s =>
    let '(r, st') := m (process s) in
    (r, {| process := st'; session_state := session_state s; page := page s |}).

Definition lift_res {A : Type} (r : Res A) : App A := fun s => (r, s).

Definition show (u : UI) : App unit :=
  fun s =>
    (Return tt,
     {| process := process s; session_state := session_state s;
        page := page s ++ [u] |}).

(** [st.session_state.<key> = v] *)
Definition session_set (key : string) (v : Value) : App unit :=
  fun s =>
    (Return tt,
     {| process := process s;
        session_state := dict_set (session_state s) key v;
        page := page s |}).

(** [if key not in st.session_state: st.session_state.<key> = v] *)
Definition session_default (key : string) (v : Value) : App unit :=
  fun s =>
    match dict_get (session_state s) key with
    | Some _ => (Return tt, s)
    | None => session_set key v s
    end.

Definition initialize_session_state : App unit :=
  bind (session_default "messages" (VList [])) (fun _ =>
  bind (session_default "agent_initialized" (VBool false)) (fun _ =>
  bind (session_default "conversation_started" (VBool false)) (fun _ =>
  session_default "backend_status" (VStr "unknown")))).

Definition check_backend_health (env : Env) : App Value :=
  bind (show (st_spinner "🔍 Checking backend connection...")) (fun _ =>
  try_except_Exception
    (bind (call (check_backend_health env)) (fun health =>
     bind (lift_res (value_get health "status" (VStr "unknown"))) (fun status =>
     bind (session_set "backend_status" status) (fun _ =>
     ret health))))
    (fun e =>
       bind (session_set "backend_status" (VStr "error")) (fun _ =>
       ret (VDict [("status", VStr "error"); ("error", VStr (exc_str e))])))).

(** The body of the loop of [test_connection]: the verdict on one
    endpoint. *)
Definition probe (env : Env) (endpoint : string) : App string :=
  try_except_Exception
    (bind (call (_make_request env endpoint None "GET")) (fun response =>
     ret (if truthy response then "✅ Success" else "❌ No data")))
    (fun e => ret ("❌ Error: " ++ substring 0 50 (exc_str e))).

Fixpoint probe_all (env : Env) (endpoints : list (string * string))
  (test_results : Dict) : App Dict :=
  match endpoints with
  | [] => ret test_results
  | (name, endpoint) :: rest =>
      bind (probe env endpoint) (fun verdict =>
      probe_all env rest (dict_set test_results name verdict))
  end.

Fixpoint write_results (test_results : Dict) : App unit :=
  match test_results with
  | [] => ret tt
  | (name, result) :: rest =>
      bind (show (st_write ("**" ++ name ++ "**: " ++ result))) (fun _ =>
      write_results rest)
  end.

Definition test_connection (env : Env) : App unit :=
  bind (show (st_spinner "Running connection tests...")) (fun _ =>
  bind (probe_all env
          [ ("Health", "/health");
            ("Visitors", "/api/visitors/current");
            ("Cashier", "/api/cashier/current");
            ("Heatmap", "/api/heatmap/") ] []) (fun test_results =>
  bind (show (st_info "### Connection Test Results")) (fun _ =>
  write_results test_results))).

End app.

(** A backend on the retry path that only fails in ways [except Exception]
    catches. *)
Definition sync_well_behaved (env : Env) : Prop :=
  forall k req,
    match result_of (transport env k req) with
    | Return _ => True
    | Raise e => is_Exception (exc_class e) = true
    end.

(** One line of the connection test. *)
Definition is_verdict (r : string) : Prop :=
  r = "✅ Success" \/ r = "❌ No data"
  \/ exists msg, r = "❌ Error: " ++ msg /\ (String.length msg <= 50)%nat.

(** The script when it starts: nothing in the session, nothing on the
    page. *)
Definition fresh_app (st : State) : AppState :=
  {| process := st; session_state := []; page := [] |}.

(** ** Built-in operations on values *)

(** What the interpreter contributes and the source does not fix: the
    [repr] of a float (given its bit pattern) and of a [str], and the
    message of the [TypeError] that [in] raises on an object which is no
    container, given the name of its type. *)
Record Builtins : Type := mkBuiltins {
  float_repr : Z -> string;
  str_repr : string -> string;
  not_a_container : string -> string
}.

Definition nl : string := String (ascii_of_nat 10) "".

Definition TypeError (msg : string) : PyExc := mkExc (E_Other "TypeError") msg.

(** [sep.join(parts)] *)
Fixpoint join (sep : string) (parts : list string) : string :=
  match parts with
  | [] => ""
  | [part] => part
  | part :: rest => part ++ sep ++ join sep rest
  end.

(** [repr(v)] *)
Fixpoint repr (py : Builtins) (v : Value) : string :=
  match v with
  | VNone => "None"
  | VBool b => if b then "True" else "False"
  | VInt z => str_of_int z
  | VFloat bits => float_repr py bits
  | VStr s => str_repr py s
  | VList items => "[" ++ join ", " (map (repr py) items) ++ "]"
  | VDict entries =>
      "{" ++ join ", " (map (fun '(k, x) => str_repr py k ++ ": " ++ repr py x)
                          entries) ++ "}"
  end.

(** [str(v)], which is also what an f-string puts for [{v}]. *)
Definition str (py : Builtins) (v : Value) : string :=
  match v with
  | VStr s => s
  | _ => repr py v
  end.

(** [v == s] for a str [s] *)
Definition eq_str (v : Value) (s : string) : bool :=
  match v with
  | VStr s' => String.eqb s' s
  | _ => false
  end.

(** [needle in hay] on strs *)
Fixpoint is_substring (needle hay : string) : bool :=
  String.prefix needle hay
  || match hay with
     | EmptyString => false
     | String _ rest => is_substring needle rest
     end.

(** [key in data] for a str [key] *)
Definition contains (py : Builtins) (key : string) (data : Value) : Res bool :=
  match data with
  | VDict entries =>
      Return (match dict_get entries key with Some _ => true | None => false end)
  | VList items => Return (existsb (fun x => eq_str x key) items)
  | VStr s => Return (is_substring key s)
  | _ => Raise (TypeError (not_a_container py (type_name data)))
  end.

(** What [for x in data] goes through. *)
Definition iter (data : Value) : Res (list Value) :=
  match data with
  | VList items => Return items
  | VDict entries => Return (map (fun kv => VStr (fst kv)) entries)
  | VStr s => Return (map (fun c => VStr (String c "")) (list_ascii_of_string s))
  | _ => Raise (TypeError ("'" ++ type_name data ++ "' object is not iterable"))
  end.

(** A binary64 against an int, exactly as the interpreter compares them;
    [None] for a NaN. *)
Definition float_compare_int (bits k : Z) : option comparison :=
  let negative := Z.testbit bits 63 in
  let exponent := Z.land (Z.shiftr bits 52) 0x7FF in
  let fraction := Z.land bits 0xFFFFFFFFFFFFF in
  if exponent =? 0x7FF then
    if fraction =? 0 then Some (if negative then Lt else Gt) else None
  else
    let m := if exponent =? 0 then fraction else fraction + 2 ^ 52 in
    let p := if exponent =? 0 then -1074 else exponent - 1075 in
    let sm := if negative then - m else m in
    Some (if 0 <=? p then sm * 2 ^ p ?= k else sm ?= k * 2 ^ (- p)).

(** [v == k] for an int [k] *)
Definition eq_int (v : Value) (k : Z) : bool :=
  match v with
  | VBool b => (if b then 1 else 0) =? k
  | VInt z => z =? k
  | VFloat bits =>
      match float_compare_int bits k with Some Eq => true | _ => false end
  | _ => false
  end.

(** [v < k] for an int [k] *)
Definition lt_int (v : Value) (k : Z) : Res bool :=
  match v with
  | VBool b => Return ((if b then 1 else 0) <? k)
  | VInt z => Return (z <? k)
  | VFloat bits =>
      Return (match float_compare_int bits k with Some Lt => true | _ => false end)
  | _ => Raise (TypeError ("'<' not supported between instances of '"
                           ++ type_name v ++ "' and 'int'"))
  end.

(** ** utils/formatters.py *)

(** [format_visitor_response].  The default of [timestamp] is an argument
    of [.get]: the clock is read whether or not the data has a timestamp. *)
Definition format_visitor_response (py : Builtins) (data : Value) : Py string :=
  absent <- (if negb (truthy data) then ret true
             else present <- lift (contains py "current_visitors" data) ;;
                  ret (negb present)) ;;
  if absent : bool then ret "📭 Current visitor data is unavailable."
  else
    count <- lift (value_get data "current_visitors" (VInt 0)) ;;
    clock <- datetime_now ;;
    timestamp <- lift (value_get data "timestamp" (VStr (isoformat clock))) ;;
    chosen <-
      (if eq_int count 0 then
         ret ("The store is currently empty. Perfect time for restocking! 🛒",
              "🕳️")
       else
         below10 <- lift (lt_int count 10) ;;
         if below10 : bool then
           ret ("It's very quiet. Consider running a promotion? 📢", "😴")
         else
           below30 <- lift (lt_int count 30) ;;
           if below30 : bool then
             ret ("Moderate activity. Normal operations recommended. 👍", "😊")
           else
             below50 <- lift (lt_int count 50) ;;
             if below50 : bool then
               ret ("Busy! Ensure staff are adequately distributed. 👥", "🔥")
             else
               ret ("Very busy! Consider opening additional cashiers. ⚡",
                    "🚀")) ;;
    let '(context, emoji) := chosen in
    ret ("## " ++ emoji ++ " Current Store Status" ++ nl
         ++ nl
         ++ "**Visitors in store**: " ++ str py count ++ " people" ++ nl
         ++ nl
         ++ "**Analysis**: " ++ context ++ nl
         ++ nl
         ++ "*Last updated: " ++ str py timestamp ++ "*" ++ nl).

(** The loop of [format_heatmap_response] over the areas. *)
Fixpoint categorize (data : list Value)
  (high_traffic medium_traffic low_traffic : list Value)
  : Res (list Value * list Value * list Value) :=
  match data with
  | [] => Return (high_traffic, medium_traffic, low_traffic)
  | area :: rest =>
      res_bind (value_get area "section" (VStr "Unknown")) (fun section =>
      res_bind (value_get area "density_level" (VStr "low")) (fun density =>
      if eq_str density "high" then
        categorize rest (high_traffic ++ [section]) medium_traffic low_traffic
      else if eq_str density "medium" then
        categorize rest high_traffic (medium_traffic ++ [section]) low_traffic
      else
        categorize rest high_traffic medium_traffic (low_traffic ++ [section])))
  end.

(** One line per section, each followed by [suffix]. *)
Fixpoint bullets (py : Builtins) (suffix : string) (sections : list Value)
  : string :=
  match sections with
  | [] => ""
  | section :: rest =>
      "- **" ++ str py section ++ "**" ++ suffix ++ nl
      ++ bullets py suffix rest
  end.

(** [len(items)] *)
Definition len (items : list Value) : Z := Z.of_nat (List.length items).

(** The last four lines of the heatmap response. *)
Definition heatmap_summary (total high medium low : Z) : string :=
  "### 📊 Summary" ++ nl
  ++ "- **Total monitored areas**: " ++ str_of_int total ++ nl
  ++ "- **High traffic**: " ++ str_of_int high ++ " areas" ++ nl
  ++ "- **Medium traffic**: " ++ str_of_int medium ++ " areas" ++ nl
  ++ "- **Low traffic**: " ++ str_of_int low ++ " areas" ++ nl.

(** [format_heatmap_response] *)
Definition format_heatmap_response (py : Builtins) (data : Value) : Res string :=
  if negb (truthy data) then
    Return "🌡️ No heatmap data available at the moment."
  else
    res_bind (iter data) (fun areas =>
    res_bind (categorize areas [] [] [])
      (fun '(high_traffic, medium_traffic, low_traffic) =>
    let response := "## 🗺️ Store Heatmap Analysis" ++ nl ++ nl in
    let response :=
      if truthy (VList high_traffic) then
        response ++ "### 🔥 High Traffic Areas" ++ nl
        ++ "Consider adding staff or optimizing layout:" ++ nl
        ++ bullets py "" high_traffic
        ++ nl
      else response in
    let response :=
      if truthy (VList medium_traffic) then
        response ++ "### ⚠️ Medium Traffic Areas" ++ nl
        ++ "Normal operations, monitor for changes:" ++ nl
        ++ bullets py "" medium_traffic
        ++ nl
      else response in
    let response :=
      if truthy (VList low_traffic) then
        response ++ "### ✅ Low Traffic Areas" ++ nl
        ++ "Opportunities for improvement:" ++ nl
        ++ bullets py " (consider promotions or relocation)" low_traffic
        ++ nl
      else response in
    let total_areas :=
      len high_traffic + len medium_traffic + len low_traffic in
    Return (response
            ++ heatmap_summary total_areas (len high_traffic)
                 (len medium_traffic) (len low_traffic)))).

(** ** tools.py *)

Module tools.

(** Each tool takes a [query] it does not look at. *)
Definition get_current_visitors (py : Builtins) (env : Env)
  (query : option string) : Py string :=
  try_except
    (data <- get_current_visitors env ;;
     format_visitor_response py data)
    (fun e =>
       if is_Exception (exc_class e) then
         ret ("❌ Error fetching visitor count: " ++ exc_str e)
       else raise e).

Definition get_heatmap_data (py : Builtins) (env : Env)
  (query : option string) : Py string :=
  try_except
    (heatmap_data <- get_heatmap_data env ;;
     lift (format_heatmap_response py heatmap_data))
    (fun e =>
       if is_Exception (exc_class e) then
         ret ("❌ Error fetching heatmap data: " ++ exc_str e)
       else raise e).

End tools.

(** ** Vocabulary for the formatters and the tools *)

Definition is_dict (v : Value) : bool :=
  match v with
  | VDict _ => true
  | _ => false
  end.

(** An int, a float or a bool: what [<] compares with an int. *)
Definition is_number (v : Value) : bool :=
  match v with
  | VBool _ | VInt _ | VFloat _ => true
  | _ => false
  end.

(** The areas of a heatmap whose [density_level] is the str [level]. *)
Definition count_density (level : string) (areas : list Value) : Z :=
  len (filter (fun area =>
                 match area with
                 | VDict entries =>
                     match dict_get entries "density_level" with
                     | Some density => eq_str density level
                     | None => false
                     end
                 | _ => false
                 end) areas).

(** A result that [except Exception] does not let through. *)
Definition caught {A : Type} (r : Res A) : Prop :=
  match r with
  | Return _ => True
  | Raise e => is_Exception (exc_class e) = true
  end.

(** Some float and str formatting, for runs of the tools. *)
Definition some_builtins : Builtins :=
  {| float_repr := fun _ => "nan";
     str_repr := fun s => "'" ++ s ++ "'";
     not_a_container := fun t => "argument of type '" ++ t
                                 ++ "' is not iterable" |}.

Definition sample_heatmap : list Value :=
  [ VDict [("section", VStr "Produce"); ("density_level", VStr "high")];
    VDict [("section", VStr "Bakery"); ("density_level", VStr "medium")];
    VDict [("section", VStr "Dairy")];
    VDict [("section", VStr "Frozen"); ("density_level", VStr "HIGH")] ].

(** * Proofs *)

(** ** One attempt, one turn of the loop *)

Lemma request_once_eq env url params method st :
  request_once env url params method st =
  (result_of (transport env (attempts st)
                (built_request env (api_client st) url params method)),
   {| api_client := with_session env (api_client st);
      world := log_request
                 (built_request env (api_client st) url params method)
                 (world st) |}).
Proof.
  unfold request_once, bind, get_self, session, built_request, attempts,
    with_session, ensure_session.
  destruct st as [[bu tmo n [s|]] w]; simpl;
    destruct (String.eqb method "GET"); simpl;
    unfold session_get, session_post, send; simpl;
    match goal with
    | |- context [transport env ?k ?r] => destruct (transport env k r) as [e|r0]
    end; simpl; try reflexivity;
    unfold raise_for_status, response_json, raise, ret;
    repeat match goal with
           | |- context [if ?b then _ else _] => destruct b; simpl
           end; try reflexivity;
    match goal with
    | |- context [json ?r] => destruct (json r)
    end; reflexivity.
Qed.

(** One turn of the loop, spelled out. *)
Lemma retry_loop_cons env endpoint url params method attempt rest st :
  retry_loop env endpoint url params method (attempt :: rest) st =
  let st1 := after_attempt env url params method st in
  match result_of (transport env (attempts st)
                     (built_request env (api_client st) url params method)) with
  | Return v => (Return v, st1)
  | Raise e =>
      if is_RequestException (exc_class e) then
        if attempt =? max_retries (api_client st) - 1 then
          (Raise (terminal_error endpoint (max_retries (api_client st)) e), st1)
        else
          retry_loop env endpoint url params method rest
            (add_coroutine (CoSleep (1 * (attempt + 1))) st1)
      else (Raise e, st1)
  end.
Proof.
  cbn [retry_loop]. unfold bind at 1. unfold try_except, bind at 1.
  rewrite request_once_eq. fold (after_attempt env url params method st).
  destruct (result_of _) as [v|e]; [reflexivity|].
  unfold on_failure, bind, get_self, terminal_error, raise, ret, asyncio_sleep.
  cbn [api_client after_attempt with_session max_retries].
  destruct (exc_class e); cbn [is_Timeout is_RequestException];
    try reflexivity;
    destruct (attempt =? max_retries (api_client st) - 1); reflexivity.
Qed.

Lemma built_request_with_session env self url params method :
  built_request env (with_session env self) url params method =
  built_request env self url params method.
Proof.
  unfold built_request, with_session, ensure_session; simpl.
  destruct (String.eqb method "GET"); reflexivity.
Qed.

Lemma with_session_idem env self :
  with_session env (with_session env self) = with_session env self.
Proof. reflexivity. Qed.

Lemma fails_result_of o :
  fails o = true ->
  exists e, result_of o = Raise e /\ is_RequestException (exc_class e) = true.
Proof.
  destruct o as [e|r]; simpl; intros H.
  - exists e; split; [reflexivity|assumption].
  - destruct ((400 <=? status_code r) && (status_code r <? 500)) eqn:H4.
    + eexists; split; reflexivity.
    + destruct ((500 <=? status_code r) && (status_code r <? 600)) eqn:H5.
      * eexists; split; reflexivity.
      * exfalso. apply andb_true_iff in H. destruct H as [Ha Hb].
        rewrite Ha in H4. rewrite Hb in H5. simpl in H4.
        apply Z.ltb_ge in H4.
        rewrite andb_true_r in H5. apply Z.leb_gt in H5. lia.
Qed.

(** A run of [m] attempts, numbered from [a], none of which succeeds. *)
Lemma retry_loop_always_fails env endpoint url params method :
  always_fails env ->
  forall m a st,
    max_retries (api_client st) = Z.of_nat (a + S m) ->
    let req := built_request env (api_client st) url params method in
    retry_loop env endpoint url params method
      (map Z.of_nat (seq a (S m))) st =
    (Raise (terminal_error endpoint (max_retries (api_client st))
              (cause_at env (attempts st + m) req)),
     {| api_client := with_session env (api_client st);
        world := {| now := now (world st);
                    sent := sent (world st) ++ repeat req (S m);
                    slept := slept (world st);
                    coroutines := coroutines (world st)
                                  ++ backoff_coroutines a m;
                    stdout := stdout (world st) |} |}).
Proof.
  intros Hfail m. induction m as [|m IH]; intros a st Hn req.
  - cbn [seq map]. rewrite retry_loop_cons. cbv zeta.
    destruct (fails_result_of _ (Hfail (attempts st) req)) as [e [He Hc]].
    unfold cause_at. rewrite Nat.add_0_r. fold req. rewrite He, Hc.
    replace (Z.of_nat a =? max_retries (api_client st) - 1) with true
      by (symmetry; apply Z.eqb_eq; lia).
    unfold after_attempt, log_request, backoff_coroutines. fold req.
    cbn [seq map repeat]. rewrite app_nil_r. reflexivity.
  - cbn [seq map]. rewrite retry_loop_cons. cbv zeta.
    destruct (fails_result_of _ (Hfail (attempts st) req)) as [e [He Hc]].
    fold req. rewrite He, Hc.
    replace (Z.of_nat a =? max_retries (api_client st) - 1) with false
      by (symmetry; apply Z.eqb_neq; lia).
    specialize (IH (S a)
      (add_coroutine (CoSleep (1 * (Z.of_nat a + 1)))
         (after_attempt env url params method st))).
    cbn [add_coroutine after_attempt api_client with_session max_retries] in IH.
    fold (with_session env (api_client st)) in IH.
    rewrite built_request_with_session in IH. fold req in IH.
    cbn [seq map] in IH |- *. rewrite IH by lia. clear IH.
    f_equal.
    + f_equal. f_equal. f_equal.
      unfold attempts, add_coroutine, after_attempt, log_request.
      cbn [world sent]. rewrite length_app. cbn [List.length]. lia.
    + rewrite with_session_idem. f_equal.
      unfold log_request. cbn [world now sent slept coroutines stdout].
      fold req. unfold backoff_coroutines.
      f_equal; unfold add_coroutine, after_attempt, log_request;
        cbn [world sent coroutines seq map repeat]; fold req;
        rewrite <- app_assoc; reflexivity.
Qed.

(** ** Calendar arithmetic *)

Lemma in_range n k : 0 <= k < n -> In k (range n).
Proof.
  intros H. unfold range. apply in_map_iff. exists (Z.to_nat k). split.
  - lia.
  - apply in_seq. lia.
Qed.

Lemma month_day_ok_all :
  forallb (month_day_ok false) (range 365)
  && forallb (month_day_ok true) (range 366) = true.
Proof. vm_compute. reflexivity. Qed.

Lemma month_day_spec (leapyear : bool) n :
  0 <= n < 365 + (if leapyear then 1 else 0) ->
  month_day_ok leapyear n = true.
Proof.
  intros H. pose proof month_day_ok_all as Hall.
  apply andb_true_iff in Hall. destruct Hall as [H0 H1].
  destruct leapyear.
  - rewrite forallb_forall in H1. apply H1. apply in_range. lia.
  - rewrite forallb_forall in H0. apply H0. apply in_range. lia.
Qed.

(** The year of [_ord2ymd] in terms of its four quotients. *)
Lemma days_before_year_cycles a b c d :
  0 <= a -> 0 <= b <= 3 -> 0 <= c <= 24 -> 0 <= d <= 3 ->
  _days_before_year (a * 400 + 1 + b * 100 + c * 4 + d)
  = a * 146097 + b * 36524 + c * 1461 + d * 365.
Proof.
  intros Ha Hb Hc Hd. unfold _days_before_year.
  replace (a * 400 + 1 + b * 100 + c * 4 + d - 1)
    with (a * 400 + b * 100 + c * 4 + d) by lia.
  assert (H4 : (a * 400 + b * 100 + c * 4 + d) / 4 = a * 100 + b * 25 + c)
    by (symmetry; apply Z.div_unique with (r := d); lia).
  assert (H100 : (a * 400 + b * 100 + c * 4 + d) / 100 = a * 4 + b)
    by (symmetry; apply Z.div_unique with (r := c * 4 + d); lia).
  assert (H400 : (a * 400 + b * 100 + c * 4 + d) / 400 = a)
    by (symmetry; apply Z.div_unique with (r := b * 100 + c * 4 + d); lia).
  rewrite H4, H100, H400. lia.
Qed.

Lemma is_leap_cycles a b c d :
  0 <= a -> 0 <= b <= 3 -> 0 <= c <= 24 -> 0 <= d <= 3 ->
  _is_leap (a * 400 + 1 + b * 100 + c * 4 + d)
  = (d =? 3) && (negb (c =? 24) || (b =? 3)).
Proof.
  intros Ha Hb Hc Hd. unfold _is_leap.
  set (y := a * 400 + 1 + b * 100 + c * 4 + d).
  assert (M4 : y mod 4 = (d + 1) mod 4).
  { unfold y. replace (a * 400 + 1 + b * 100 + c * 4 + d)
      with (d + 1 + (a * 100 + b * 25 + c) * 4) by lia.
    apply Z.mod_add. lia. }
  assert (M100 : y mod 100 = (c * 4 + d + 1) mod 100).
  { unfold y. replace (a * 400 + 1 + b * 100 + c * 4 + d)
      with (c * 4 + d + 1 + (a * 4 + b) * 100) by lia.
    apply Z.mod_add. lia. }
  assert (M400 : y mod 400 = (b * 100 + c * 4 + d + 1) mod 400).
  { unfold y. replace (a * 400 + 1 + b * 100 + c * 4 + d)
      with (b * 100 + c * 4 + d + 1 + a * 400) by lia.
    apply Z.mod_add. lia. }
  rewrite M4, M100, M400.
  destruct (Z.eqb_spec d 3) as [D|D].
  - subst d. change ((3 + 1) mod 4) with 0. cbn [Z.eqb andb].
    destruct (Z.eqb_spec c 24) as [C|C].
    + subst c. cbn [negb orb].
      change (24 * 4 + 3 + 1) with 100. change (100 mod 100) with 0.
      cbn [Z.eqb negb orb].
      replace (b * 100 + 24 * 4 + 3 + 1) with ((b + 1) * 100) by lia.
      destruct (Z.eqb_spec b 3) as [B|B].
      * subst b. reflexivity.
      * assert (Hb' : b = 0 \/ b = 1 \/ b = 2) by lia.
        destruct Hb' as [->|[->| ->]]; reflexivity.
    + cbn [negb orb].
      rewrite (Z.mod_small (c * 4 + 3 + 1) 100) by lia.
      destruct (Z.eqb_spec (c * 4 + 3 + 1) 0); [lia|reflexivity].
  - cbn [andb].
    assert (Hd' : d = 0 \/ d = 1 \/ d = 2) by lia.
    destruct Hd' as [->|[->| ->]]; reflexivity.
Qed.

(** [_ord2ymd] inverts [_ymd2ord] on every ordinal a date can have, and
    lands on a date of the calendar. *)
Lemma ord2ymd_spec n :
  1 <= n <= _MAXORDINAL ->
  let '(y, m, d) := _ord2ymd n in
  MINYEAR <= y <= MAXYEAR /\ 1 <= m <= 12 /\ 1 <= d <= _days_in_month y m
  /\ _ymd2ord y m d = n.
Proof.
  unfold _MAXORDINAL, MINYEAR, MAXYEAR. intros Hn.
  unfold _ord2ymd, _DI400Y, _DI100Y, _DI4Y.
  pose proof (Z.div_mod (n - 1) 146097 ltac:(lia)) as E1.
  pose proof (Z.mod_pos_bound (n - 1) 146097 ltac:(lia)) as B1.
  set (a := (n - 1) / 146097) in *. set (r1 := (n - 1) mod 146097) in *.
  pose proof (Z.div_mod r1 36524 ltac:(lia)) as E2.
  pose proof (Z.mod_pos_bound r1 36524 ltac:(lia)) as B2.
  set (b := r1 / 36524) in *. set (r2 := r1 mod 36524) in *.
  pose proof (Z.div_mod r2 1461 ltac:(lia)) as E3.
  pose proof (Z.mod_pos_bound r2 1461 ltac:(lia)) as B3.
  set (c := r2 / 1461) in *. set (r3 := r2 mod 1461) in *.
  pose proof (Z.div_mod r3 365 ltac:(lia)) as E4.
  pose proof (Z.mod_pos_bound r3 365 ltac:(lia)) as B4.
  set (d1 := r3 / 365) in *. set (r4 := r3 mod 365) in *.
  assert (Ha : 0 <= a <= 24) by lia.
  assert (Hb : 0 <= b <= 4) by lia.
  assert (Hc : 0 <= c <= 24) by lia.
  assert (Hd : 0 <= d1 <= 4) by lia.
  destruct (Z.eqb_spec d1 4) as [D4|D4]; cbn [orb].
  - (* the last day of a leap year that closes a 4-year cycle *)
    assert (Hc' : c <= 23) by lia.
    assert (Hb' : b <= 3) by lia.
    replace (a * 400 + 1 + b * 100 + c * 4 + d1 - 1)
      with (a * 400 + 1 + b * 100 + c * 4 + 3) by lia.
    unfold _ymd2ord, _days_in_month, _days_before_month.
    rewrite is_leap_cycles, days_before_year_cycles by lia.
    replace (c =? 24) with false by (symmetry; apply Z.eqb_neq; lia).
    change (table _DAYS_IN_MONTH 12) with 31.
    change (table _DAYS_BEFORE_MONTH 12) with 334.
    cbn. lia.
  - destruct (Z.eqb_spec b 4) as [Hb4|Hb4].
    + (* the last day of a 400-year cycle *)
      assert (r2 = 0) by lia. assert (c = 0) by lia. assert (d1 = 0) by lia.
      replace (a * 400 + 1 + b * 100 + c * 4 + d1 - 1)
        with (a * 400 + 1 + 3 * 100 + 24 * 4 + 3) by lia.
      unfold _ymd2ord, _days_in_month, _days_before_month.
      rewrite is_leap_cycles, days_before_year_cycles by lia.
      change (table _DAYS_IN_MONTH 12) with 31.
    change (table _DAYS_BEFORE_MONTH 12) with 334.
    cbn. lia.
    + assert (Hb' : b <= 3) by lia. assert (Hd' : d1 <= 3) by lia.
      set (leapyear := (d1 =? 3) && (negb (c =? 24) || (b =? 3))).
      pose proof (month_day_spec leapyear r4) as Hmd.
      unfold month_day_ok in Hmd.
      destruct (month_day leapyear r4) as [m d].
      assert (Hr : 0 <= r4 < 365 + (if leapyear then 1 else 0))
        by (destruct leapyear; lia).
      specialize (Hmd Hr).
      repeat (apply andb_true_iff in Hmd; destruct Hmd as [Hmd ?]).
      unfold _ymd2ord, _days_in_month, _days_before_month.
      rewrite is_leap_cycles, days_before_year_cycles by lia.
      fold leapyear.
      repeat match goal with
             | H : (_ <=? _) = true |- _ => apply Z.leb_le in H
             | H : (_ =? _) = true |- _ => apply Z.eqb_eq in H
             end.
      assert (Hy : a * 400 + 1 + b * 100 + c * 4 + d1 <= 9999) by lia.
      lia.
Qed.

Lemma days_before_year_succ y :
  _days_before_year (y + 1)
  = _days_before_year y + 365 + (if _is_leap y then 1 else 0).
Proof.
  unfold _days_before_year, _is_leap.
  replace (y + 1 - 1) with y by lia.
  destruct (Z.eqb_spec (y mod 4) 0) as [H4|H4];
    destruct (Z.eqb_spec (y mod 100) 0) as [H100|H100];
    destruct (Z.eqb_spec (y mod 400) 0) as [H400|H400];
    cbn [negb andb orb]; Z.div_mod_to_equations; lia.
Qed.

Lemma month_bounds (leapyear : bool) m :
  1 <= m <= 12 ->
  0 <= table _DAYS_BEFORE_MONTH m + (if (2 <? m) && leapyear then 1 else 0)
  /\ table _DAYS_BEFORE_MONTH m + (if (2 <? m) && leapyear then 1 else 0)
     + (if (m =? 2) && leapyear then 29 else table _DAYS_IN_MONTH m)
     <= 365 + (if leapyear then 1 else 0).
Proof.
  intros Hm.
  assert (Hcases : m = 1 \/ m = 2 \/ m = 3 \/ m = 4 \/ m = 5 \/ m = 6 \/ m = 7
                   \/ m = 8 \/ m = 9 \/ m = 10 \/ m = 11 \/ m = 12) by lia.
  destruct leapyear;
    repeat (destruct Hcases as [->|Hcases]; [vm_compute; split; discriminate|]);
    subst m; vm_compute; split; discriminate.
Qed.

(** The ordinal of a date of the calendar is in range. *)
Lemma toordinal_bounds d :
  valid_datetime d -> 1 <= toordinal d <= _MAXORDINAL.
Proof.
  unfold valid_datetime, toordinal, _ymd2ord, _days_in_month,
    _days_before_month, MINYEAR, MAXYEAR, _MAXORDINAL.
  intros (Hy & Hm & Hd & _).
  pose proof (month_bounds (_is_leap (year d)) (month d) Hm) as [Hlo Hhi].
  pose proof (days_before_year_succ (year d)) as Hsucc.
  assert (H0 : 0 <= _days_before_year (year d))
    by (unfold _days_before_year; Z.div_mod_to_equations; lia).
  assert (H1 : _days_before_year (year d + 1) <= 3652059)
    by (unfold _days_before_year; Z.div_mod_to_equations; lia).
  lia.
Qed.

Lemma timedelta_spec d h m s us :
  let total := (((d * 24 + h) * 60 + m) * 60 + s) * 1000000 + us in
  -999999999 * 86400000000 <= total < 1000000000 * 86400000000 ->
  exists t,
    timedelta d h m s us = Return t /\ td_total t = total
    /\ 0 <= td_seconds t < 86400 /\ 0 <= td_microseconds t < 1000000.
Proof.
  intros total Htot. unfold timedelta.
  set (s1 := s + m * 60 + h * 3600 + us / 1000000).
  set (d1 := d + s1 / 86400).
  assert (Hd1 : Z.abs d1 <= 999999999).
  { unfold d1, s1, total in *. Z.div_mod_to_equations. lia. }
  replace (999999999 <? Z.abs d1) with false
    by (symmetry; apply Z.ltb_ge; exact Hd1).
  eexists. split; [reflexivity|]. unfold td_total. cbn [td_days td_seconds td_microseconds].
  unfold d1, s1, total in *. Z.div_mod_to_equations. lia.
Qed.

Lemma to_microseconds_bounds d :
  valid_datetime d ->
  to_microseconds datetime_min <= to_microseconds d
  /\ to_microseconds d < (_MAXORDINAL + 1) * 86400000000.
Proof.
  intros Hv. pose proof (toordinal_bounds d Hv) as Ho.
  destruct Hv as (_ & _ & _ & Hh & Hm & Hs & Hus).
  change (to_microseconds datetime_min) with 86400000000.
  unfold to_microseconds, _MAXORDINAL in *. lia.
Qed.

(** [now - timedelta(hours=hours)] whenever the result is not before
    [datetime.min]: a date of the calendar, exactly [hours] hours back. *)
Lemma window_start now hours :
  valid_datetime now -> 0 < hours ->
  to_microseconds datetime_min <= to_microseconds now - hours * 3600000000 ->
  exists start,
    res_bind (timedelta 0 hours 0 0 0) (datetime_sub now) = Return start
    /\ valid_datetime start
    /\ to_microseconds start = to_microseconds now - hours * 3600000000.
Proof.
  intros Hv Hh Hmin.
  pose proof (to_microseconds_bounds now Hv) as [Hlo Hhi].
  pose proof (toordinal_bounds now Hv) as Ho.
  change (to_microseconds datetime_min) with 86400000000 in *.
  unfold _MAXORDINAL in *.
  destruct (timedelta_spec 0 hours 0 0 0) as (t1 & E1 & T1 & S1 & U1);
    [lia|].
  rewrite E1. cbn [res_bind]. unfold datetime_sub, timedelta_neg.
  destruct (timedelta_spec (- td_days t1) 0 0 (- td_seconds t1)
              (- td_microseconds t1)) as (t2 & E2 & T2 & S2 & U2);
    [unfold td_total in T1; lia|].
  rewrite E2. cbn [res_bind]. unfold datetime_add.
  destruct (timedelta_spec (toordinal now) (hour now) (minute now)
              (second now) (microsecond now)) as (t3 & E3 & T3 & S3 & U3);
    [unfold to_microseconds in *; lia|].
  rewrite E3. cbn [res_bind]. unfold timedelta_add.
  destruct (timedelta_spec (td_days t3 + td_days t2) 0 0
              (td_seconds t3 + td_seconds t2)
              (td_microseconds t3 + td_microseconds t2))
    as (t4 & E4 & T4 & S4 & U4);
    [unfold td_total, to_microseconds in *; lia|].
  rewrite E4. cbn [res_bind].
  assert (HT : td_total t4 = to_microseconds now - hours * 3600000000)
    by (unfold td_total, to_microseconds in *; lia).
  assert (HD : 1 <= td_days t4 <= 3652059)
    by (unfold td_total, to_microseconds in *; lia).
  replace ((0 <? td_days t4) && (td_days t4 <=? _MAXORDINAL)) with true
    by (symmetry; apply andb_true_iff; split;
        [apply Z.ltb_lt|apply Z.leb_le]; unfold _MAXORDINAL; lia).
  pose proof (ord2ymd_spec (td_days t4) HD) as Hord.
  destruct (_ord2ymd (td_days t4)) as [[y m] d].
  destruct Hord as (Hy & Hm & Hd & Hinv).
  eexists. split; [reflexivity|]. split.
  - unfold valid_datetime.
    cbn [year month day hour minute second microsecond].
    repeat split; try tauto; try lia; Z.div_mod_to_equations; lia.
  - unfold to_microseconds at 1, toordinal.
    cbn [year month day hour minute second microsecond].
    rewrite Hinv, <- HT. unfold td_total. Z.div_mod_to_equations. lia.
Qed.

(** ** Formatting and reading timestamps *)

Ltac digit_cases k H :=
  let C := fresh "C" in
  assert (C : k = 0 \/ k = 1 \/ k = 2 \/ k = 3 \/ k = 4 \/ k = 5 \/ k = 6
              \/ k = 7 \/ k = 8 \/ k = 9) by lia;
  clear H;
  repeat (destruct C as [C|C]; [rewrite C|]); [..|rewrite C].

Section Formatting.

Import Decimal DecimalFacts DecimalPos.

Lemma string_of_dcons k u :
  0 <= k <= 9 ->
  NilEmpty.string_of_uint (dcons k u)
  = String (digit_char k) (NilEmpty.string_of_uint u).
Proof. intros H. digit_cases k H; reflexivity. Qed.

Lemma pow10_split w n :
  0 <= n < 10 ^ Z.of_nat (S w) ->
  0 <= n / 10 ^ Z.of_nat w <= 9
  /\ 0 <= n mod 10 ^ Z.of_nat w < 10 ^ Z.of_nat w
  /\ n = n / 10 ^ Z.of_nat w * 10 ^ Z.of_nat w + n mod 10 ^ Z.of_nat w.
Proof.
  intros Hn.
  assert (Hp : 0 < 10 ^ Z.of_nat w) by (apply Z.pow_pos_nonneg; lia).
  rewrite Nat2Z.inj_succ, Z.pow_succ_r in Hn by lia.
  pose proof (Z.div_mod n (10 ^ Z.of_nat w) ltac:(lia)) as E.
  pose proof (Z.mod_pos_bound n (10 ^ Z.of_nat w) Hp) as B.
  assert (0 <= n / 10 ^ Z.of_nat w) by (apply Z.div_pos; lia).
  assert (n / 10 ^ Z.of_nat w < 10) by (apply Z.div_lt_upper_bound; lia).
  repeat split; lia.
Qed.

Lemma string_of_udigits w : forall n,
  0 <= n < 10 ^ Z.of_nat w ->
  NilEmpty.string_of_uint (udigits w n) = digit_string w n.
Proof.
  induction w as [|w IH]; intros n Hn; [reflexivity|].
  destruct (pow10_split w n Hn) as (Hd & Hm & _).
  cbn [udigits digit_string]. rewrite string_of_dcons by exact Hd.
  rewrite IH by exact Hm. reflexivity.
Qed.

Lemma usize_udigits w n : Unsigned.usize (udigits w n) = N.of_nat w.
Proof.
  revert n. induction w as [|w IH]; intros n; [reflexivity|].
  cbn [udigits]. rewrite Nat2N.inj_succ, <- (IH (n mod 10 ^ Z.of_nat w)).
  unfold dcons. destruct (n / 10 ^ Z.of_nat w) as [|p|p]; try reflexivity.
  do 4 (destruct p as [p|p|]; try reflexivity).
Qed.

Lemma of_uint_dcons k u :
  0 <= k <= 9 ->
  Pos.of_uint (dcons k u)
  = (Pos.of_uint u + Z.to_N k * 10 ^ Unsigned.usize u)%N.
Proof.
  intros H. rewrite !Unsigned.of_uint_alt.
  digit_cases k H; unfold dcons, rev; cbn [revapp];
    rewrite Unsigned.of_lu_revapp; cbn [Unsigned.of_lu];
    f_equal; lia.
Qed.

Lemma of_uint_udigits w : forall n,
  0 <= n < 10 ^ Z.of_nat w -> Z.of_uint (udigits w n) = n.
Proof.
  unfold Z.of_uint.
  induction w as [|w IH]; intros n Hn.
  - change (10 ^ Z.of_nat 0) with 1 in Hn. cbn. lia.
  - destruct (pow10_split w n Hn) as (Hd & Hm & E).
    cbn [udigits]. rewrite of_uint_dcons by exact Hd.
    rewrite usize_udigits, N2Z.inj_add, N2Z.inj_mul, N2Z.inj_pow, IH by exact Hm.
    rewrite Z2N.id by lia. rewrite nat_N_Z. change (Z.of_N 10) with 10. lia.
Qed.

Lemma unorm_length_le u :
  u <> Nil ->
  (String.length (NilEmpty.string_of_uint (unorm u))
   <= String.length (NilEmpty.string_of_uint u))%nat.
Proof.
  induction u; intros Hu; try congruence; try (cbn; lia).
  change (unorm (D0 u)) with (unorm u).
  destruct u; try (specialize (IHu ltac:(discriminate)); cbn in *; lia).
  cbn. lia.
Qed.

Lemma pad_unorm u :
  u <> Nil ->
  zeros (String.length (NilEmpty.string_of_uint u)
         - String.length (NilEmpty.string_of_uint (unorm u)))
  ++ NilEmpty.string_of_uint (unorm u)
  = NilEmpty.string_of_uint u.
Proof.
  induction u; intros Hu; try congruence.
  2-10: (cbn [unorm nzhead]; rewrite Nat.sub_diag; reflexivity).
  change (unorm (D0 u)) with (unorm u).
  destruct (uint_eq_dec u Nil) as [->|Hne].
  - reflexivity.
  - pose proof (unorm_length_le u Hne) as Hle.
    cbn [NilEmpty.string_of_uint String.length].
    rewrite Nat.sub_succ_l by exact Hle. cbn [zeros append].
    rewrite IHu by exact Hne. reflexivity.
Qed.

Lemma length_digits w n : String.length (digit_string w n) = w.
Proof.
  revert n. induction w as [|w IH]; intros n; [reflexivity|].
  cbn [digit_string String.length]. rewrite IH. reflexivity.
Qed.

(** ["%0<w>d" % n] is the [w] decimal digits of [n] when [n] has no more
    than [w]. *)
Lemma zfill_digits w n :
  (1 <= w)%nat -> 0 <= n < 10 ^ Z.of_nat w -> zfill w n = digit_string w n.
Proof.
  intros Hw Hn. unfold zfill, str_of_int.
  rewrite <- (of_uint_udigits w n Hn) at 1 2.
  change (Z.of_uint (udigits w n)) with (Z.of_int (Pos (udigits w n))).
  rewrite DecimalZ.to_of. cbn [norm NilZero.string_of_int].
  assert (Hnil : udigits w n <> Nil).
  { destruct w; [lia|]. cbn [udigits]. unfold dcons.
    destruct (n / 10 ^ Z.of_nat w) as [|p|p]; try discriminate.
    do 4 (destruct p as [p|p|]; try discriminate). }
  assert (Hs : NilZero.string_of_uint (unorm (udigits w n))
               = NilEmpty.string_of_uint (unorm (udigits w n))).
  { pose proof (unorm_nonnil (udigits w n)).
    destruct (unorm (udigits w n)); [congruence|reflexivity..]. }
  rewrite Hs. rewrite <- (length_digits w n) at 1.
  rewrite <- (string_of_udigits w n Hn). apply pad_unorm. exact Hnil.
Qed.

End Formatting.

Lemma digit_of_digit_char d :
  0 <= d <= 9 -> digit_of_char (digit_char d) = Some d.
Proof. intros H. digit_cases d H; reflexivity. Qed.

Lemma parse_digits_digits w : forall n acc rest,
  0 <= n < 10 ^ Z.of_nat w ->
  parse_digits w (digit_string w n ++ rest) acc
  = Some (acc * 10 ^ Z.of_nat w + n, rest).
Proof.
  induction w as [|w IH]; intros n acc rest Hn.
  - change (10 ^ Z.of_nat 0) with 1 in *. cbn. f_equal. f_equal. lia.
  - destruct (pow10_split w n Hn) as (Hd & Hm & E).
    cbn [digit_string parse_digits append].
    rewrite digit_of_digit_char by exact Hd. rewrite IH by exact Hm.
    f_equal. f_equal. rewrite Nat2Z.inj_succ, Z.pow_succ_r by lia. lia.
Qed.

Lemma append_empty_r s : s ++ "" = s.
Proof. induction s as [|c s IH]; cbn; [reflexivity|]. rewrite IH. reflexivity. Qed.

Lemma valid_datetimeb_true d : valid_datetime d -> valid_datetimeb d = true.
Proof.
  unfold valid_datetime, valid_datetimeb.
  intros (Hy & Hm & Hd & Hh & Hmi & Hs & Hus).
  repeat (apply andb_true_iff; split);
    first [apply Z.leb_le; lia | apply Z.ltb_lt; lia].
Qed.

Lemma days_in_month_le_31 y m : 1 <= m <= 12 -> _days_in_month y m <= 31.
Proof.
  intros Hm. unfold _days_in_month.
  assert (C : m = 1 \/ m = 2 \/ m = 3 \/ m = 4 \/ m = 5 \/ m = 6 \/ m = 7
              \/ m = 8 \/ m = 9 \/ m = 10 \/ m = 11 \/ m = 12) by lia.
  destruct (_is_leap y);
    repeat (destruct C as [->|C]; [vm_compute; discriminate|]);
    subst m; vm_compute; discriminate.
Qed.

(** Reading back what [isoformat] wrote gives the datetime it was written
    from. *)
Lemma parse_isoformat_isoformat d :
  valid_datetime d -> parse_isoformat (isoformat d) = Some d.
Proof.
  intros Hv. pose proof (valid_datetimeb_true d Hv) as Hb.
  destruct Hv as (Hy & Hm & Hd & Hh & Hmi & Hs & Hus).
  pose proof (days_in_month_le_31 (year d) (month d) Hm) as H31.
  unfold MINYEAR, MAXYEAR in Hy.
  unfold isoformat.
  rewrite (zfill_digits 4 (year d)) by (cbn; lia).
  rewrite (zfill_digits 2 (month d)) by (cbn; lia).
  rewrite (zfill_digits 2 (day d)) by (cbn; lia).
  rewrite (zfill_digits 2 (hour d)) by (cbn; lia).
  rewrite (zfill_digits 2 (minute d)) by (cbn; lia).
  rewrite (zfill_digits 2 (second d)) by (cbn; lia).
  unfold parse_isoformat.
  rewrite parse_digits_digits by (cbn; lia). cbn [obind expect append Ascii.eqb Bool.eqb].
  rewrite parse_digits_digits by (cbn; lia). cbn [obind expect append Ascii.eqb Bool.eqb].
  rewrite parse_digits_digits by (cbn; lia). cbn [obind expect append Ascii.eqb Bool.eqb].
  rewrite parse_digits_digits by (cbn; lia). cbn [obind expect append Ascii.eqb Bool.eqb].
  rewrite parse_digits_digits by (cbn; lia). cbn [obind expect append Ascii.eqb Bool.eqb].
  rewrite parse_digits_digits by (cbn; lia). cbn [obind].
  assert (Hf : parse_fraction
                 (if microsecond d =? 0 then ""
                  else String "." (zfill 6 (microsecond d)))
               = Some (microsecond d)).
  { destruct (Z.eqb_spec (microsecond d) 0) as [E|E].
    - rewrite E. reflexivity.
    - rewrite (zfill_digits 6 (microsecond d)) by (cbn; lia).
      cbn [parse_fraction Ascii.eqb Bool.eqb].
      rewrite <- (append_empty_r (digit_string 6 (microsecond d))).
      rewrite parse_digits_digits by (cbn; lia). reflexivity. }
  rewrite Hf. cbn [obind].
  replace (0 * 10 ^ Z.of_nat 4 + year d) with (year d) by lia.
  replace (0 * 10 ^ Z.of_nat 2 + month d) with (month d) by lia.
  replace (0 * 10 ^ Z.of_nat 2 + day d) with (day d) by lia.
  replace (0 * 10 ^ Z.of_nat 2 + hour d) with (hour d) by lia.
  replace (0 * 10 ^ Z.of_nat 2 + minute d) with (minute d) by lia.
  replace (0 * 10 ^ Z.of_nat 2 + second d) with (second d) by lia.
  destruct d as [y m dd hh mm ss us]. cbn [year month day hour minute second microsecond] in *.
  rewrite Hb. reflexivity.
Qed.

(** ** The retry loop in general *)

(** Whatever the backend does, a run of the loop only adds copies of one
    request to the log and coroutine objects to the heap: it lets no time
    pass, prints nothing and sends at most one request per attempt. *)
Lemma retry_loop_frame env endpoint url params method :
  forall attempts_left st,
    let req := built_request env (api_client st) url params method in
    let st' := snd (retry_loop env endpoint url params method attempts_left st) in
    exists k : nat,
      (k <= List.length attempts_left)%nat
      /\ (attempts_left <> [] -> (1 <= k)%nat)
      /\ sent (world st') = (sent (world st) ++ repeat req k)%list
      /\ slept (world st') = slept (world st)
      /\ now (world st') = now (world st)
      /\ stdout (world st') = stdout (world st)
      /\ max_retries (api_client st') = max_retries (api_client st).
Proof.
  induction attempts_left as [|attempt rest IH]; intros st req st'.
  - exists 0%nat. subst st'. cbn. rewrite app_nil_r.
    repeat split; try reflexivity. congruence.
  - subst st'. rewrite retry_loop_cons. cbv zeta. fold req.
    assert (H1 : exists k : nat,
      (k <= List.length (attempt :: rest))%nat
      /\ (attempt :: rest <> [] -> (1 <= k)%nat)
      /\ sent (world (after_attempt env url params method st))
         = (sent (world st) ++ repeat req k)%list
      /\ slept (world (after_attempt env url params method st))
         = slept (world st)
      /\ now (world (after_attempt env url params method st)) = now (world st)
      /\ stdout (world (after_attempt env url params method st))
         = stdout (world st)
      /\ max_retries (api_client (after_attempt env url params method st))
         = max_retries (api_client st)).
    { exists 1%nat. cbn. repeat split; try reflexivity; lia. }
    destruct (result_of _) as [v|e]; [exact H1|].
    destruct (is_RequestException (exc_class e)); [|exact H1].
    destruct (attempt =? max_retries (api_client st) - 1); [exact H1|].
    clear H1.
    set (st2 := add_coroutine (CoSleep (1 * (attempt + 1)))
                  (after_attempt env url params method st)).
    specialize (IH st2). cbv zeta in IH.
    assert (Ec : api_client st2 = with_session env (api_client st))
      by reflexivity.
    assert (Es : sent (world st2) = (sent (world st) ++ [req])%list)
      by reflexivity.
    assert (El : slept (world st2) = slept (world st)) by reflexivity.
    assert (En : now (world st2) = now (world st)) by reflexivity.
    assert (Eo : stdout (world st2) = stdout (world st)) by reflexivity.
    rewrite Ec, built_request_with_session, Es, El, En, Eo in IH.
    fold req in IH.
    destruct IH as (k & Hk & _ & Hs & Hsl & Hn & Ho & Hm).
    exists (S k). cbn [List.length repeat].
    repeat split; try lia; try assumption.
    rewrite Hs, <- app_assoc. reflexivity.
Qed.

(** [k] failed attempts and then one that goes through. *)
Lemma retry_loop_succeeds env endpoint url params method v :
  forall k m a st,
    (k < m)%nat ->
    max_retries (api_client st) = Z.of_nat (a + m) ->
    let req := built_request env (api_client st) url params method in
    (forall j, (j < k)%nat ->
               fails (transport env (attempts st + j)%nat req) = true) ->
    result_of (transport env (attempts st + k)%nat req) = Return v ->
    retry_loop env endpoint url params method (map Z.of_nat (seq a m)) st =
    (Return v,
     {| api_client := with_session env (api_client st);
        world := {| now := now (world st);
                    sent := sent (world st) ++ repeat req (S k);
                    slept := slept (world st);
                    coroutines := coroutines (world st)
                                  ++ backoff_coroutines a k;
                    stdout := stdout (world st) |} |}).
Proof.
  induction k as [|k IH]; intros m a st Hkm Hn req Hfail Hok.
  - destruct m as [|m]; [lia|]. cbn [seq map]. rewrite retry_loop_cons.
    cbv zeta. fold req. rewrite Nat.add_0_r in Hok. rewrite Hok.
    unfold after_attempt, log_request, backoff_coroutines. fold req.
    cbn [seq map repeat]. rewrite app_nil_r. reflexivity.
  - destruct m as [|m]; [lia|]. cbn [seq map]. rewrite retry_loop_cons.
    cbv zeta. fold req.
    pose proof (Hfail 0%nat ltac:(lia)) as H0. rewrite Nat.add_0_r in H0.
    destruct (fails_result_of _ H0) as [e [He Hc]]. rewrite He, Hc.
    replace (Z.of_nat a =? max_retries (api_client st) - 1) with false
      by (symmetry; apply Z.eqb_neq; lia).
    set (st2 := add_coroutine (CoSleep (1 * (Z.of_nat a + 1)))
                  (after_attempt env url params method st)).
    assert (Ec : api_client st2 = with_session env (api_client st))
      by reflexivity.
    assert (Hat : attempts st2 = S (attempts st)).
    { unfold attempts, st2, add_coroutine, after_attempt, log_request.
      cbn [world sent]. rewrite length_app. cbn [List.length]. lia. }
    specialize (IH m (S a) st2). cbv zeta in IH.
    rewrite Ec, built_request_with_session, Hat in IH. fold req in IH.
    rewrite IH; clear IH.
    + rewrite with_session_idem. f_equal. f_equal.
      change (sent (world st2)) with (sent (world st) ++ [req])%list.
      change (coroutines (world st2))
        with (coroutines (world st) ++ [CoSleep (1 * (Z.of_nat a + 1))])%list.
      unfold backoff_coroutines. cbn [seq map repeat].
      f_equal; try reflexivity; rewrite <- app_assoc; reflexivity.
    + lia.
    + cbn [with_session max_retries]. lia.
    + intros j Hj.
      replace (S (attempts st) + j)%nat with (attempts st + S j)%nat by lia.
      apply Hfail. lia.
    + replace (S (attempts st) + k)%nat with (attempts st + S k)%nat by lia.
      exact Hok.
Qed.

(** ** [_make_request] *)

Lemma terminal_error_class endpoint n cause :
  exc_class (terminal_error endpoint n cause) = E_Exception.
Proof. unfold terminal_error. destruct (is_Timeout _); reflexivity. Qed.

Lemma terminal_error_str endpoint n cause :
  exc_str (terminal_error endpoint n cause) <> "".
Proof.
  unfold terminal_error. destruct (is_Timeout _); cbn; discriminate.
Qed.

(** Every attempt fails: [max_retries] requests, then the terminal error. *)
Lemma make_request_always_fails env endpoint params method st :
  1 <= max_retries (api_client st) ->
  always_fails env ->
  let n := Z.to_nat (max_retries (api_client st)) in
  let req := built_request env (api_client st)
               (base_url (api_client st) ++ endpoint) params method in
  _make_request env endpoint params method st =
  (Raise (terminal_error endpoint (max_retries (api_client st))
            (cause_at env (attempts st + (n - 1)) req)),
   {| api_client := with_session env (api_client st);
      world := {| now := now (world st);
                  sent := sent (world st) ++ repeat req n;
                  slept := slept (world st);
                  coroutines := coroutines (world st)
                                ++ backoff_coroutines 0 (n - 1);
                  stdout := stdout (world st) |} |}).
Proof.
  intros Hn Hfail n req. unfold _make_request, bind, get_self, range.
  fold n. destruct n as [|m] eqn:En; [lia|].
  rewrite (retry_loop_always_fails env endpoint _ params method Hfail m 0 st)
    by lia.
  replace (S m - 1)%nat with m by lia. reflexivity.
Qed.

(** No attempt is allowed: nothing is sent and [None] comes back. *)
Lemma make_request_no_attempts env endpoint params method st :
  max_retries (api_client st) <= 0 ->
  _make_request env endpoint params method st = (Return VNone, st).
Proof.
  intros Hn. unfold _make_request, bind, get_self, range.
  replace (Z.to_nat (max_retries (api_client st))) with 0%nat by lia.
  reflexivity.
Qed.

(** [k] failed attempts followed by a good one, within the budget. *)
Lemma make_request_succeeds env endpoint params method st v (k : nat) :
  Z.of_nat k < max_retries (api_client st) ->
  let req := built_request env (api_client st)
               (base_url (api_client st) ++ endpoint) params method in
  (forall j, (j < k)%nat ->
             fails (transport env (attempts st + j)%nat req) = true) ->
  result_of (transport env (attempts st + k)%nat req) = Return v ->
  _make_request env endpoint params method st =
  (Return v,
   {| api_client := with_session env (api_client st);
      world := {| now := now (world st);
                  sent := sent (world st) ++ repeat req (S k);
                  slept := slept (world st);
                  coroutines := coroutines (world st)
                                ++ backoff_coroutines 0 k;
                  stdout := stdout (world st) |} |}).
Proof.
  intros Hk req Hfail Hok. unfold _make_request, bind, get_self, range.
  apply (retry_loop_succeeds env endpoint _ params method v k
           (Z.to_nat (max_retries (api_client st))) 0 st); try assumption; lia.
Qed.

(** Whatever the backend does, [_make_request] lets no time pass, and when
    it may try at all it sends between one and [max_retries] copies of one
    request. *)
Lemma make_request_frame env endpoint params method st :
  let req := built_request env (api_client st)
               (base_url (api_client st) ++ endpoint) params method in
  let st' := snd (_make_request env endpoint params method st) in
  exists k : nat,
    Z.of_nat k <= Z.max 0 (max_retries (api_client st))
    /\ (1 <= max_retries (api_client st) -> (1 <= k)%nat)
    /\ sent (world st') = (sent (world st) ++ repeat req k)%list
    /\ slept (world st') = slept (world st)
    /\ now (world st') = now (world st)
    /\ stdout (world st') = stdout (world st)
    /\ max_retries (api_client st') = max_retries (api_client st).
Proof.
  intros req st'. subst st'. unfold _make_request, bind, get_self.
  destruct (retry_loop_frame env endpoint
              (base_url (api_client st) ++ endpoint) params method
              (range (max_retries (api_client st))) st)
    as (k & Hk & H1 & Hrest).
  exists k. unfold range in Hk, H1. rewrite length_map, length_seq in Hk.
  split; [lia|]. split; [|exact Hrest].
  intros Hn. apply H1.
  destruct (Z.to_nat (max_retries (api_client st))) eqn:E; [lia|].
  cbn. discriminate.
Qed.

(** ** The retry policy *)

(** C1. With [max_retries = N >= 1] and every attempt failing (a timeout, a
    connection error, or a 4xx/5xx answer, which [raise_for_status] turns
    into an exception of the same family), [_make_request] sends the
    request exactly [N] times and then raises its terminal [Exception]. *)
Theorem make_request_exhausts_exactly_max_retries
  env endpoint params method st :
  1 <= max_retries (api_client st) ->
  always_fails env ->
  exists e st',
    _make_request env endpoint params method st = (Raise e, st')
    /\ exc_class e = E_Exception
    /\ sent (world st')
       = (sent (world st)
          ++ repeat (built_request env (api_client st)
                       (base_url (api_client st) ++ endpoint) params method)
               (Z.to_nat (max_retries (api_client st))))%list
    /\ Z.of_nat (attempts st')
       = Z.of_nat (attempts st) + max_retries (api_client st).
Proof.
  intros Hn Hfail.
  rewrite (make_request_always_fails env endpoint params method st Hn Hfail).
  eexists. eexists. split; [reflexivity|].
  split; [apply terminal_error_class|]. split; [reflexivity|].
  unfold attempts. cbn [world sent].
  rewrite length_app, repeat_length. lia.
Qed.

Lemma make_request_exhausts_exactly_max_retries_witness :
  exists e st',
    _make_request (env_of timeout_transport) "/health" None "GET"
      (state_of default_settings test_now) = (Raise e, st')
    /\ exc_class e = E_Exception
    /\ sent (world st')
       = (sent (world (state_of default_settings test_now))
          ++ repeat (built_request (env_of timeout_transport)
                       (api_client (state_of default_settings test_now))
                       (base_url (api_client (state_of default_settings test_now))
                          ++ "/health") None "GET")
               (Z.to_nat (max_retries
                            (api_client (state_of default_settings test_now)))))%list
    /\ Z.of_nat (attempts st')
       = Z.of_nat (attempts (state_of default_settings test_now))
         + max_retries (api_client (state_of default_settings test_now)).
Proof.
  apply (make_request_exhausts_exactly_max_retries
           (env_of timeout_transport) "/health" None "GET"
           (state_of default_settings test_now)).
  - simpl. lia.
  - intros k req. reflexivity.
Defined.

(** C3. The backoff the claim describes never takes place.  After the
    failed attempt [k] the loop calls [asyncio.sleep] with delay [1 * k] but
    does not await the coroutine it gets: in a run of [N] failed attempts
    the [N - 1] coroutine objects with delays 1, 2, ... are left behind and
    the time spent sleeping stays what it was. *)
Theorem backoff_sleep_never_elapses env endpoint params method st :
  1 <= max_retries (api_client st) ->
  always_fails env ->
  let st' := snd (_make_request env endpoint params method st) in
  slept (world st') = slept (world st)
  /\ coroutines (world st')
     = (coroutines (world st)
        ++ backoff_coroutines 0 (Z.to_nat (max_retries (api_client st)) - 1))%list
  /\ attempts st'
     = (attempts st + Z.to_nat (max_retries (api_client st)))%nat.
Proof.
  intros Hn Hfail.
  rewrite (make_request_always_fails env endpoint params method st Hn Hfail).
  cbn [snd world slept coroutines]. split; [reflexivity|].
  split; [reflexivity|].
  unfold attempts. cbn [world sent]. rewrite length_app, repeat_length.
  reflexivity.
Qed.

Lemma backoff_sleep_never_elapses_witness :
  let st' := snd (_make_request (env_of timeout_transport)
                    "/api/visitors/current" None "GET"
                    (state_of default_settings test_now)) in
  slept (world st') = 0
  /\ coroutines (world st') = [CoSleep 1; CoSleep 2]
  /\ attempts st' = 3%nat.
Proof.
  apply (backoff_sleep_never_elapses (env_of timeout_transport)
           "/api/visitors/current" None "GET"
           (state_of default_settings test_now)).
  - simpl. lia.
  - intros k req. reflexivity.
Defined.

(** ** The health check *)

(** C5. When every attempt against the backend fails and [max_retries >= 1],
    [check_backend_health] raises nothing: it returns the dict with
    ["status"] set to ["unhealthy"] and ["error"] set to a non-empty
    string. *)
Theorem check_backend_health_reports_unhealthy env st :
  1 <= max_retries (api_client st) ->
  always_fails env ->
  exists msg st',
    check_backend_health env st
    = (Return (VDict [("status", VStr "unhealthy"); ("error", VStr msg)]), st')
    /\ msg <> "".
Proof.
  intros Hn Hfail. unfold check_backend_health, try_except, endpoint_of.
  cbn [dict_get API_ENDPOINTS String.eqb Ascii.eqb Bool.eqb]. unfold bind at 1, ret at 1.
  rewrite (make_request_always_fails env "/health" None "GET" st Hn Hfail).
  rewrite terminal_error_class. cbn [is_Exception]. unfold ret.
  eexists. eexists. split; [reflexivity|]. apply terminal_error_str.
Qed.

Lemma check_backend_health_reports_unhealthy_witness :
  exists msg st',
    check_backend_health (env_of refused_transport)
      (state_of default_settings test_now)
    = (Return (VDict [("status", VStr "unhealthy"); ("error", VStr msg)]), st')
    /\ msg <> "".
Proof.
  apply (check_backend_health_reports_unhealthy (env_of refused_transport)
           (state_of default_settings test_now)).
  - simpl. lia.
  - intros k req. reflexivity.
Defined.

(** ** Successful fetches *)

(** A 2xx answer goes through [raise_for_status] untouched. *)
Lemma result_of_success r v :
  200 <= status_code r < 300 -> json r = Return v ->
  result_of (Responds r) = Return v.
Proof.
  intros Hs Hj. cbn [result_of].
  replace ((400 <=? status_code r) && (status_code r <? 500)) with false
    by (symmetry; apply andb_false_iff; left; apply Z.leb_gt; lia).
  replace ((500 <=? status_code r) && (status_code r <? 600)) with false
    by (symmetry; apply andb_false_iff; left; apply Z.leb_gt; lia).
  exact Hj.
Qed.

(** A wrapper hands on whatever truthy value [_make_request] returns. *)
Lemma fetch_or_succeeds env endpoint params default st v (k : nat) :
  Z.of_nat k < max_retries (api_client st) ->
  let req := built_request env (api_client st)
               (base_url (api_client st) ++ endpoint) params "GET" in
  (forall j, (j < k)%nat ->
             fails (transport env (attempts st + j)%nat req) = true) ->
  result_of (transport env (attempts st + k)%nat req) = Return v ->
  truthy v = true ->
  fst (fetch_or env endpoint params default st) = Return v.
Proof.
  intros Hk req Hfail Hok Ht. unfold fetch_or, bind.
  rewrite (make_request_succeeds env endpoint params "GET" st v k Hk Hfail Hok).
  unfold ret, py_or. rewrite Ht. reflexivity.
Qed.

(** C7. A fetch that succeeds within the retry budget, possibly after
    failed attempts, with a 2xx answer whose body decodes to
    [{"current_visitors": 42, "timestamp": "2024-01-01T00:00:00"}]:
    [get_current_visitors] returns exactly that value. *)
Theorem get_current_visitors_returns_payload_unmodified env st (k : nat) :
  Z.of_nat k < max_retries (api_client st) ->
  let req := built_request env (api_client st)
               (base_url (api_client st) ++ "/api/visitors/current")
               None "GET" in
  (forall j, (j < k)%nat ->
             fails (transport env (attempts st + j)%nat req) = true) ->
  (exists r, transport env (attempts st + k)%nat req = Responds r
             /\ 200 <= status_code r < 300
             /\ json r = Return sample_payload) ->
  fst (get_current_visitors env st) = Return sample_payload.
Proof.
  intros Hk req Hfail (r & Hr & Hs & Hj).
  unfold get_current_visitors, endpoint_of.
  cbn [dict_get API_ENDPOINTS String.eqb Ascii.eqb Bool.eqb].
  unfold bind at 1, ret at 1.
  apply (fetch_or_succeeds env "/api/visitors/current" None (VDict []) st
           sample_payload k Hk Hfail).
  - fold req. rewrite Hr. apply result_of_success; assumption.
  - reflexivity.
Qed.

Lemma get_current_visitors_returns_payload_unmodified_witness :
  fst (get_current_visitors (env_of flaky_transport)
         (state_of default_settings test_now)) = Return sample_payload.
Proof.
  apply (get_current_visitors_returns_payload_unmodified
           (env_of flaky_transport) (state_of default_settings test_now) 1).
  - simpl. lia.
  - intros j Hj. assert (j = 0%nat) by lia. subst j. reflexivity.
  - eexists. split; [reflexivity|]. split; [simpl; lia|reflexivity].
Defined.

(** ** Wrappers when the backend is down *)

Lemma fetch_or_always_fails env endpoint params default st :
  1 <= max_retries (api_client st) ->
  always_fails env ->
  exists e st',
    fetch_or env endpoint params default st = (Raise e, st')
    /\ exc_class e = E_Exception
    /\ Z.of_nat (attempts st')
       = Z.of_nat (attempts st) + max_retries (api_client st).
Proof.
  intros Hn Hfail. unfold fetch_or, bind.
  rewrite (make_request_always_fails env endpoint params "GET" st Hn Hfail).
  eexists. eexists. split; [reflexivity|].
  split; [apply terminal_error_class|].
  unfold attempts. cbn [world sent]. rewrite length_app, repeat_length. lia.
Qed.

Lemma timedelta_raises d h m s us e :
  timedelta d h m s us = Raise e -> exc_class e = E_OverflowError.
Proof.
  unfold timedelta. destruct (999999999 <? _); intros H; inversion H.
  reflexivity.
Qed.

Lemma datetime_sub_raises self other e :
  datetime_sub self other = Raise e -> exc_class e = E_OverflowError.
Proof.
  unfold datetime_sub, timedelta_neg, datetime_add, timedelta_add.
  destruct (timedelta (- td_days other) _ _ _ _) as [t1|e1] eqn:E1;
    cbn [res_bind]; [|intros H; inversion H; subst; eauto using timedelta_raises].
  destruct (timedelta (toordinal self) _ _ _ _) as [t2|e2] eqn:E2;
    cbn [res_bind]; [|intros H; inversion H; subst; eauto using timedelta_raises].
  destruct (timedelta (td_days t2 + td_days t1) _ _ _ _) as [t3|e3] eqn:E3;
    cbn [res_bind]; [|intros H; inversion H; subst; eauto using timedelta_raises].
  destruct ((0 <? td_days t3) && (td_days t3 <=? _MAXORDINAL)).
  - destruct (_ord2ymd (td_days t3)) as [[y m] d]. discriminate.
  - intros H; inversion H. reflexivity.
Qed.

Lemma time_window_raises end_time hours e :
  time_window end_time hours = Raise e -> exc_class e = E_OverflowError.
Proof.
  unfold time_window.
  destruct (timedelta 0 hours 0 0 0) as [t|e1] eqn:E1; cbn [res_bind].
  - apply datetime_sub_raises.
  - intros H; inversion H; subst. eauto using timedelta_raises.
Qed.

(** [get_visitor_trend] first computes its window, and only then fetches. *)
Lemma get_visitor_trend_eq env hours st :
  get_visitor_trend env hours st =
  match time_window (now (world st)) hours with
  | Return start_time =>
      fetch_or env "/api/visitors/range"
        (Some [ ("start_time", isoformat start_time);
                ("end_time", isoformat (now (world st))) ])
        (VList []) st
  | Raise e => (Raise e, st)
  end.
Proof.
  unfold get_visitor_trend, time_window, bind, datetime_now, lift.
  destruct (timedelta 0 hours 0 0 0) as [t|e]; cbn [res_bind]; [|reflexivity].
  destruct (datetime_sub (now (world st)) t); reflexivity.
Qed.

(** Every wrapper is one [fetch_or], behind the computation of its
    arguments. *)
Lemma call_wrapper_eq env w st :
  call_wrapper env w st =
  match wrapper_params w (now (world st)) with
  | Return params => fetch_or env (wrapper_endpoint w) params (empty_default w) st
  | Raise e => (Raise e, st)
  end.
Proof.
  destruct w; try reflexivity.
  cbn [call_wrapper wrapper_params wrapper_endpoint empty_default].
  rewrite get_visitor_trend_eq.
  destruct (time_window (now (world st)) hours); reflexivity.
Qed.

(** C2, as the code has it.  With [max_retries >= 1] and every attempt
    failing, no wrapper returns its default: the terminal [Exception] of
    [_make_request] leaves the wrapper after exactly [max_retries]
    attempts.  ([get_visitor_trend] can fail earlier, with the
    [OverflowError] of a window that is out of range, before anything is
    sent.) *)
Theorem wrappers_let_terminal_error_escape env w st :
  1 <= max_retries (api_client st) ->
  always_fails env ->
  exists e st',
    call_wrapper env w st = (Raise e, st')
    /\ ((exc_class e = E_Exception
         /\ Z.of_nat (attempts st')
            = Z.of_nat (attempts st) + max_retries (api_client st))
        \/ (exc_class e = E_OverflowError /\ st' = st
            /\ exists hours, w = W_visitor_trend hours)).
Proof.
  intros Hn Hfail. rewrite call_wrapper_eq.
  destruct (wrapper_params w (now (world st))) as [params|e] eqn:Ep.
  - destruct (fetch_or_always_fails env (wrapper_endpoint w) params
                (empty_default w) st Hn Hfail) as (e & st' & He & Hc & Ha).
    exists e, st'. split; [exact He|]. left. split; assumption.
  - exists e, st. split; [reflexivity|]. right.
    destruct w; try discriminate. cbn [wrapper_params] in Ep.
    destruct (time_window (now (world st)) hours) as [s|e'] eqn:Ew;
      cbn [res_bind] in Ep; [discriminate|].
    inversion Ep; subst e'. split; [|split; [reflexivity|eauto]].
    eapply time_window_raises; eassumption.
Qed.

Lemma wrappers_let_terminal_error_escape_witness :
  exists e st',
    call_wrapper (env_of timeout_transport) W_section_traffic
      (state_of default_settings test_now) = (Raise e, st')
    /\ ((exc_class e = E_Exception
         /\ Z.of_nat (attempts st')
            = Z.of_nat (attempts (state_of default_settings test_now))
              + max_retries (api_client (state_of default_settings test_now)))
        \/ (exc_class e = E_OverflowError
            /\ st' = state_of default_settings test_now
            /\ exists hours, W_section_traffic = W_visitor_trend hours)).
Proof.
  apply (wrappers_let_terminal_error_escape (env_of timeout_transport)
           W_section_traffic (state_of default_settings test_now)).
  - simpl. lia.
  - intros k req. reflexivity.
Defined.

(** C2 as stated fails: on a backend that times out every time, with the
    default three retries, [get_current_visitors] raises and
    [get_section_traffic] raises; neither returns its default. *)
Lemma wrappers_raise_on_dead_backend :
  always_fails (env_of timeout_transport)
  /\ fst (get_current_visitors (env_of timeout_transport)
            (state_of default_settings test_now))
     = Raise (mkExc E_Exception
                "Request to /api/visitors/current timed out after 3 attempts")
  /\ fst (get_section_traffic (env_of timeout_transport)
            (state_of default_settings test_now))
     = Raise (mkExc E_Exception
                "Request to /api/visitors/sections timed out after 3 attempts").
Proof.
  split; [intros k req; reflexivity|]. split; vm_compute; reflexivity.
Qed.

(** ** Construction *)

(** C6, as the code has it.  [BackendAPIClient()] copies the three settings
    and checks none of them: it returns a client for every configuration,
    [MAX_RETRIES = 0] and below included, and raises nothing. *)
Theorem client_construction_never_raises settings :
  exists client,
    BackendAPIClient_init settings = Return client
    /\ base_url client = BACKEND_API_URL settings
    /\ timeout client = REQUEST_TIMEOUT settings
    /\ max_retries client = MAX_RETRIES settings
    /\ _session client = None.
Proof.
  unfold BackendAPIClient_init. eexists. split; [reflexivity|].
  repeat split.
Qed.

(** C6 as stated fails: with [MAX_RETRIES=0] in the environment the
    constructor returns a client whose [max_retries] is 0. *)
Lemma client_with_zero_retries_is_constructed :
  MAX_RETRIES zero_retries = 0
  /\ BackendAPIClient_init zero_retries
     = Return {| base_url := "http://localhost:8000"; timeout := 30;
                 max_retries := 0; _session := None |}.
Proof. split; reflexivity. Qed.

(** ** No retries allowed *)

(** C10, as the code has it.  With [max_retries = 0], [_make_request] sends
    nothing, changes nothing and returns [None]; [check_backend_health]
    returns that [None]; every wrapper without a time window returns its
    empty default; [get_visitor_trend] returns [[]] when its window can be
    computed and otherwise raises what the computation raised. *)
Theorem zero_retries_sends_nothing env st :
  max_retries (api_client st) = 0 ->
  (forall endpoint params method,
      _make_request env endpoint params method st = (Return VNone, st))
  /\ check_backend_health env st = (Return VNone, st)
  /\ (forall w, (forall hours, w <> W_visitor_trend hours) ->
                call_wrapper env w st = (Return (empty_default w), st))
  /\ (forall hours,
         get_visitor_trend env hours st
         = match time_window (now (world st)) hours with
           | Return _ => (Return (VList []), st)
           | Raise e => (Raise e, st)
           end).
Proof.
  intros Hn.
  assert (Hreq : forall endpoint params method,
             _make_request env endpoint params method st = (Return VNone, st))
    by (intros; apply make_request_no_attempts; lia).
  assert (Hfetch : forall endpoint params default,
             fetch_or env endpoint params default st = (Return default, st))
    by (intros; unfold fetch_or, bind; rewrite Hreq; reflexivity).
  split; [exact Hreq|]. split; [|split].
  - unfold check_backend_health, try_except, endpoint_of.
    cbn [dict_get API_ENDPOINTS String.eqb Ascii.eqb Bool.eqb].
    unfold bind at 1, ret at 1. rewrite Hreq. reflexivity.
  - intros w Hw. rewrite call_wrapper_eq.
    destruct w; cbn [wrapper_params]; try apply Hfetch.
    exfalso. eapply Hw. reflexivity.
  - intros hours. rewrite get_visitor_trend_eq.
    destruct (time_window (now (world st)) hours); [apply Hfetch|reflexivity].
Qed.

Lemma zero_retries_sends_nothing_witness :
  (forall endpoint params method,
      _make_request (env_of healthy_transport) endpoint params method
        (state_of zero_retries test_now)
      = (Return VNone, state_of zero_retries test_now))
  /\ check_backend_health (env_of healthy_transport)
       (state_of zero_retries test_now)
     = (Return VNone, state_of zero_retries test_now)
  /\ (forall w, (forall hours, w <> W_visitor_trend hours) ->
                call_wrapper (env_of healthy_transport) w
                  (state_of zero_retries test_now)
                = (Return (empty_default w), state_of zero_retries test_now))
  /\ (forall hours,
         get_visitor_trend (env_of healthy_transport) hours
           (state_of zero_retries test_now)
         = match time_window (now (world (state_of zero_retries test_now)))
                   hours with
           | Return _ => (Return (VList []), state_of zero_retries test_now)
           | Raise e => (Raise e, state_of zero_retries test_now)
           end).
Proof.
  apply (zero_retries_sends_nothing (env_of healthy_transport)
           (state_of zero_retries test_now)).
  reflexivity.
Defined.

(** C10 as stated fails for one wrapper: with [max_retries = 0] and a
    window of 100000000 hours, [get_visitor_trend] raises [OverflowError]
    instead of returning [[]]. *)
Lemma zero_retries_visitor_trend_overflows :
  max_retries (api_client (state_of zero_retries test_now)) = 0
  /\ get_visitor_trend (env_of healthy_transport) 100000000
       (state_of zero_retries test_now)
     = (Raise (mkExc E_OverflowError "date value out of range"),
        state_of zero_retries test_now).
Proof. split; vm_compute; reflexivity. Qed.

(** ** The time window of [get_visitor_trend] *)

Lemma snd_fetch_or env endpoint params default st :
  snd (fetch_or env endpoint params default st)
  = snd (_make_request env endpoint params "GET" st).
Proof.
  unfold fetch_or, bind.
  destruct (_make_request env endpoint params "GET" st) as [[v|e] st'];
    reflexivity.
Qed.

(** C8, as the code has it.  For positive [hours] reaching no further back
    than [datetime.min], and [max_retries >= 1]: [get_visitor_trend] sends
    its request (once per attempt) to [/api/visitors/range] with the
    parameters [start_time] and [end_time].  Both are well-formed
    timestamps: they read back as datetimes of the calendar, [end_time] as
    the current time and [start_time] as the instant exactly [hours] hours
    before it. *)
Theorem visitor_trend_window env hours st :
  valid_datetime (now (world st)) ->
  0 < hours ->
  to_microseconds datetime_min
  <= to_microseconds (now (world st)) - hours * 3600000000 ->
  1 <= max_retries (api_client st) ->
  exists start_str end_str start_time new_requests,
    parse_isoformat start_str = Some start_time
    /\ parse_isoformat end_str = Some (now (world st))
    /\ valid_datetime start_time
    /\ to_microseconds start_time
       = to_microseconds (now (world st)) - hours * 3600000000
    /\ to_microseconds start_time < to_microseconds (now (world st))
    /\ sent (world (snd (get_visitor_trend env hours st)))
       = (sent (world st) ++ new_requests)%list
    /\ new_requests <> []
    /\ Forall (fun req =>
                 req_method req = "GET"
                 /\ req_url req
                    = base_url (api_client st) ++ "/api/visitors/range"
                 /\ req_query req
                    = Some [ ("start_time", start_str);
                             ("end_time", end_str) ])
         new_requests.
Proof.
  intros Hv Hh Hmin Hn.
  destruct (window_start (now (world st)) hours Hv Hh Hmin)
    as (start_time & Hw & Hvs & Hus).
  fold (time_window (now (world st)) hours) in Hw.
  rewrite get_visitor_trend_eq, Hw, snd_fetch_or.
  destruct (make_request_frame env "/api/visitors/range"
              (Some [ ("start_time", isoformat start_time);
                      ("end_time", isoformat (now (world st))) ]) "GET" st)
    as (k & _ & Hk & Hs & _).
  exists (isoformat start_time), (isoformat (now (world st))), start_time.
  eexists.
  split; [apply parse_isoformat_isoformat; exact Hvs|].
  split; [apply parse_isoformat_isoformat; exact Hv|].
  split; [exact Hvs|]. split; [exact Hus|].
  split; [lia|]. split; [exact Hs|]. split.
  - specialize (Hk Hn). destruct k; [lia|]. discriminate.
  - apply Forall_forall. intros req Hin. apply repeat_spec in Hin. subst req.
    repeat split.
Qed.

Lemma visitor_trend_window_witness :
  exists start_str end_str start_time new_requests,
    parse_isoformat start_str = Some start_time
    /\ parse_isoformat end_str
       = Some (now (world (state_of default_settings test_now)))
    /\ valid_datetime start_time
    /\ to_microseconds start_time
       = to_microseconds (now (world (state_of default_settings test_now)))
         - 6 * 3600000000
    /\ to_microseconds start_time
       < to_microseconds (now (world (state_of default_settings test_now)))
    /\ sent (world (snd (get_visitor_trend (env_of healthy_transport) 6
                           (state_of default_settings test_now))))
       = (sent (world (state_of default_settings test_now))
          ++ new_requests)%list
    /\ new_requests <> []
    /\ Forall (fun req =>
                 req_method req = "GET"
                 /\ req_url req
                    = base_url (api_client (state_of default_settings test_now))
                      ++ "/api/visitors/range"
                 /\ req_query req
                    = Some [ ("start_time", start_str);
                             ("end_time", end_str) ])
         new_requests.
Proof.
  apply (visitor_trend_window (env_of healthy_transport) 6
           (state_of default_settings test_now)).
  - unfold valid_datetime. vm_compute. repeat split; discriminate.
  - lia.
  - vm_compute. discriminate.
  - simpl. lia.
Defined.

(** The default window on a healthy backend: one request, six hours. *)
Lemma visitor_trend_default_window :
  map req_query
    (sent (world (snd (get_visitor_trend (env_of healthy_transport) 6
                         (state_of default_settings test_now)))))
  = [ Some [ ("start_time", "2026-11-04T06:00:00");
             ("end_time", "2026-11-04T12:00:00") ] ].
Proof. vm_compute. reflexivity. Qed.

(** C8 as stated fails: at noon of 2026-11-04 a window of 100000000 hours
    starts before year 1, the subtraction raises [OverflowError], and no
    request is sent although the backend is healthy and three attempts are
    allowed. *)
Lemma visitor_trend_window_out_of_range :
  0 < 100000000
  /\ get_visitor_trend (env_of healthy_transport) 100000000
       (state_of default_settings test_now)
     = (Raise (mkExc E_OverflowError "date value out of range"),
        state_of default_settings test_now)
  /\ sent (world (state_of default_settings test_now)) = [].
Proof. split; [lia|]. split; vm_compute; reflexivity. Qed.

(** ** The single-attempt path and the batch *)

Lemma make_async_request_eq env endpoint params st :
  _make_async_request env endpoint params st =
  let req := async_request env (api_client st) endpoint params in
  let w := log_request req (world st) in
  match async_attempt (transport env (attempts st) req) with
  | Return v => (Return v, {| api_client := api_client st; world := w |})
  | Raise e =>
      if is_Exception (exc_class e) then
        (Return VNone,
         {| api_client := api_client st;
            world := print_line ("Async request failed: " ++ exc_str e) w |})
      else (Raise e, {| api_client := api_client st; world := w |})
  end.
Proof.
  unfold _make_async_request, bind, get_self, try_except, httpx_get, send,
    async_request, attempts.
  cbv zeta. cbn [req_url api_client world].
  destruct (transport env _ _) as [e|r]; cbn [async_attempt].
  - destruct (is_Exception (exc_class e)); reflexivity.
  - unfold httpx_raise_for_status.
    destruct ((200 <=? status_code r) && (status_code r <=? 299)).
    + unfold ret at 1. unfold response_json.
      destruct (json r) as [v|e]; [reflexivity|].
      unfold raise. destruct (is_Exception (exc_class e)); reflexivity.
    + unfold raise at 1. cbn [is_Exception exc_class]. reflexivity.
Qed.

Lemma async_succeeds_attempt o v :
  async_succeeds o v -> async_attempt o = Return v.
Proof.
  intros (r & -> & Hs & Hj). cbn [async_attempt].
  replace ((200 <=? status_code r) && (status_code r <=? 299)) with true
    by (symmetry; apply andb_true_iff; split; apply Z.leb_le; lia).
  exact Hj.
Qed.

Lemma async_fails_attempt o :
  async_fails o = true ->
  exists e, async_attempt o = Raise e /\ is_Exception (exc_class e) = true.
Proof.
  destruct o as [e|r]; cbn [async_fails async_attempt].
  - intros H. exists e. split; [reflexivity|exact H].
  - destruct ((200 <=? status_code r) && (status_code r <=? 299)).
    + destruct (json r) as [v|e]; [discriminate|].
      intros H. exists e. split; [reflexivity|exact H].
    + intros _. eexists. split; reflexivity.
Qed.

Lemma set_nth_length {A : Type} (l : list A) i a :
  List.length (set_nth l i a) = List.length l.
Proof.
  revert i. induction l as [|x l IH]; intros [|i]; cbn; try reflexivity.
  rewrite IH. reflexivity.
Qed.

Lemma nth_error_set_nth_eq {A : Type} (l : list A) i a :
  (i < List.length l)%nat -> nth_error (set_nth l i a) i = Some a.
Proof.
  revert i. induction l as [|x l IH]; intros [|i] H; cbn in *; try lia.
  - reflexivity.
  - apply IH. lia.
Qed.

Lemma nth_error_set_nth_neq {A : Type} (l : list A) i j a :
  i <> j -> nth_error (set_nth l i a) j = nth_error l j.
Proof.
  revert i j. induction l as [|x l IH]; intros [|i] [|j] H; cbn;
    try reflexivity; try congruence.
  apply IH. congruence.
Qed.

Lemma Forall2_nth_error {A B : Type} (R : A -> B -> Prop) l1 l2 i a :
  Forall2 R l1 l2 -> nth_error l1 i = Some a ->
  exists b, nth_error l2 i = Some b /\ R a b.
Proof.
  intros H. revert i. induction H as [|x y l1 l2 Hxy _ IH]; intros [|i] Hi;
    cbn in *; try discriminate.
  - inversion Hi; subst. eauto.
  - apply IH. exact Hi.
Qed.

Section Gather.

(** Tasks that each return a value fixed in advance, whatever the state
    they start in, and keep an invariant of the state. *)
Variable P : State -> Prop.
Variable tasks : list (Py Value).
Variable vals : list Value.
Hypothesis tasks_return :
  Forall2 (fun task v =>
             forall st, P st -> exists st', task st = (Return v, st') /\ P st')
    tasks vals.

Lemma run_tasks_agree :
  forall order results st,
    P st -> agree tasks vals results ->
    exists results' st',
      run_tasks tasks order results st = (Return results', st')
      /\ P st' /\ agree tasks vals results'
      /\ (forall i, In i order -> (i < List.length tasks)%nat ->
                    is_pending results' i = false)
      /\ (forall i, (i < List.length tasks)%nat ->
                    is_pending results i = false ->
                    is_pending results' i = false).
Proof.
  induction order as [|i rest IH]; intros results st HP Hag.
  - exists results, st. cbn [run_tasks]. unfold ret.
    split; [reflexivity|]. split; [exact HP|]. split; [exact Hag|].
    split; [intros i []|auto].
  - cbn [run_tasks].
    assert (Hskip :
      (forall j, j = i -> (j < List.length tasks)%nat ->
                 is_pending results j = false) ->
      exists results' st',
        run_tasks tasks rest results st = (Return results', st')
        /\ P st' /\ agree tasks vals results'
        /\ (forall j, In j (i :: rest) -> (j < List.length tasks)%nat ->
                      is_pending results' j = false)
        /\ (forall j, (j < List.length tasks)%nat ->
                      is_pending results j = false ->
                      is_pending results' j = false)).
    { intros Hi.
      destruct (IH results st HP Hag) as (r' & st' & Hr & HP' & Hag' & Hin & Hmono).
      exists r', st'. split; [exact Hr|]. split; [exact HP'|].
      split; [exact Hag'|]. split; [|exact Hmono].
      intros j [Hj|Hj] Hlt; [symmetry in Hj; auto|auto]. }
    destruct (nth_error tasks i) as [task|] eqn:Ht.
    + destruct (is_pending results i) eqn:Hp.
      * destruct (Forall2_nth_error _ _ _ _ _ tasks_return Ht)
          as (v & Hv & Hrun).
        destruct (Hrun st HP) as (st1 & Hst1 & HP1).
        unfold bind. rewrite Hst1.
        assert (Hlt : (i < List.length results)%nat).
        { destruct Hag as [Hlen _]. rewrite Hlen.
          apply nth_error_Some. congruence. }
        assert (Hag1 : agree tasks vals (set_nth results i (Some v))).
        { destruct Hag as [Hlen Hval]. split.
          - rewrite set_nth_length. exact Hlen.
          - intros j x Hj. destruct (Nat.eq_dec i j) as [<-|Hne].
            + rewrite nth_error_set_nth_eq in Hj by exact Hlt.
              inversion Hj; subst. exact Hv.
            + rewrite nth_error_set_nth_neq in Hj by exact Hne. eauto. }
        destruct (IH (set_nth results i (Some v)) st1 HP1 Hag1)
          as (r' & st' & Hr & HP' & Hag' & Hin & Hmono).
        exists r', st'. split; [exact Hr|]. split; [exact HP'|].
        split; [exact Hag'|]. split.
        -- intros j [Hj|Hj] Hjlt; [|auto]. subst j. apply Hmono; [exact Hjlt|].
           unfold is_pending. rewrite nth_error_set_nth_eq by exact Hlt.
           reflexivity.
        -- intros j Hjlt Hj. apply Hmono; [exact Hjlt|].
           unfold is_pending in *.
           destruct (Nat.eq_dec i j) as [<-|Hne].
           ++ rewrite Hp in Hj. discriminate.
           ++ rewrite nth_error_set_nth_neq by exact Hne. exact Hj.
      * apply Hskip. intros j -> _. exact Hp.
    + apply Hskip. intros j -> Hlt. apply nth_error_None in Ht. lia.
Qed.

(** [gather] hands back [vals], in the order of the tasks, whatever the
    order they ran in. *)
Lemma gather_returns order st :
  P st ->
  exists st', gather order tasks st = (Return vals, st') /\ P st'.
Proof.
  intros HP. unfold gather, bind.
  assert (Hag0 : agree tasks vals (repeat None (List.length tasks))).
  { split; [apply repeat_length|].
    intros i x Hi. apply nth_error_In, repeat_spec in Hi. discriminate. }
  destruct (run_tasks_agree (order ++ seq 0 (List.length tasks))%list
              (repeat None (List.length tasks)) st HP Hag0)
    as (r' & st' & Hr & HP' & [Hlen Hval] & Hin & _).
  rewrite Hr. unfold ret. exists st'. split; [|exact HP'].
  f_equal. f_equal.
  pose proof (Forall2_length tasks_return) as Hlv.
  apply nth_error_ext. intros i. rewrite nth_error_map.
  destruct (Nat.lt_ge_cases i (List.length tasks)) as [Hlt|Hge].
  - assert (Hnp : is_pending r' i = false).
    { apply Hin; [|exact Hlt]. apply in_or_app. right. apply in_seq. lia. }
    unfold is_pending in Hnp.
    destruct (nth_error r' i) as [[x|]|] eqn:Hi.
    + cbn. symmetry. apply Hval. exact Hi.
    + discriminate.
    + apply nth_error_None in Hi. lia.
  - replace (nth_error r' i) with (@None (option Value))
      by (symmetry; apply nth_error_None; lia).
    cbn. symmetry. apply nth_error_None. rewrite <- Hlv. exact Hge.
Qed.

End Gather.

Lemma make_async_request_resolves env endpoint st0 x :
  slot_resolves env (api_client st0) endpoint x ->
  forall st, api_client st = api_client st0 ->
    exists st', _make_async_request env endpoint None st = (Return x, st')
                /\ api_client st' = api_client st0.
Proof.
  intros Hslot st Hc. rewrite make_async_request_eq. cbv zeta. rewrite Hc.
  destruct Hslot as [Hok|[-> Hbad]].
  - rewrite (async_succeeds_attempt _ _ (Hok (attempts st))).
    eexists. split; reflexivity.
  - destruct (async_fails_attempt _ (Hbad (attempts st))) as (e & He & Hx).
    rewrite He, Hx. eexists. split; reflexivity.
Qed.

(** Each slot of the batch gets what its own fetch resolves to, in any
    order of execution. *)
Lemma get_multiple_metrics_slots env order st x0 x1 x2 :
  slot_resolves env (api_client st) "/api/visitors/current" x0 ->
  slot_resolves env (api_client st) "/api/cashier/current" x1 ->
  slot_resolves env (api_client st) "/api/heatmap/" x2 ->
  fst (get_multiple_metrics env order st)
  = Return (VDict [("visitors", x0); ("cashier", x1); ("heatmap", x2)]).
Proof.
  intros H0 H1 H2. unfold get_multiple_metrics, endpoint_of.
  cbn [dict_get API_ENDPOINTS String.eqb Ascii.eqb Bool.eqb].
  unfold bind at 1, ret at 1. unfold bind at 1, ret at 1.
  unfold bind at 1, ret at 1. cbv zeta. cbn [map].
  destruct (gather_returns (fun s => api_client s = api_client st)
              [ _make_async_request env "/api/visitors/current" None;
                _make_async_request env "/api/cashier/current" None;
                _make_async_request env "/api/heatmap/" None ]
              [x0; x1; x2]) with (order := order) (st := st)
    as (st' & Hg & _).
  - repeat constructor; intros s Hs;
      eapply make_async_request_resolves; eassumption.
  - reflexivity.
  - unfold bind at 1. rewrite Hg. reflexivity.
Qed.

(** C4.  When the heatmap fetch fails and the two other fetches succeed
    with the decoded values [v] and [c], [get_multiple_metrics] returns
    [{"visitors": v, "cashier": c, "heatmap": None}], in whatever order the
    three fetches run. *)
Theorem get_multiple_metrics_isolates_heatmap_failure env order st v c :
  (forall k, async_succeeds
               (transport env k
                  (async_request env (api_client st)
                     "/api/visitors/current" None)) v) ->
  (forall k, async_succeeds
               (transport env k
                  (async_request env (api_client st)
                     "/api/cashier/current" None)) c) ->
  (forall k, async_fails
               (transport env k
                  (async_request env (api_client st) "/api/heatmap/" None))
             = true) ->
  fst (get_multiple_metrics env order st)
  = Return (VDict [("visitors", v); ("cashier", c); ("heatmap", VNone)]).
Proof.
  intros Hv Hc Hh. apply get_multiple_metrics_slots.
  - left. exact Hv.
  - left. exact Hc.
  - right. split; [reflexivity|exact Hh].
Qed.

Lemma get_multiple_metrics_isolates_heatmap_failure_witness :
  fst (get_multiple_metrics (env_of heatmap_down_transport) [2; 0; 1]%nat
         (state_of default_settings test_now))
  = Return (VDict [ ("visitors", sample_payload); ("cashier", sample_cashier);
                    ("heatmap", VNone) ]).
Proof.
  apply (get_multiple_metrics_isolates_heatmap_failure
           (env_of heatmap_down_transport) [2; 0; 1]%nat
           (state_of default_settings test_now) sample_payload sample_cashier).
  - intros k. eexists. split; [reflexivity|].
    split; [simpl; lia|reflexivity].
  - intros k. eexists. split; [reflexivity|].
    split; [simpl; lia|reflexivity].
  - intros k. reflexivity.
Defined.

(** ** Request headers *)

(** A request of the retry path carries the two headers the [session]
    property sets. *)
Lemma session_headers_on_sync_requests env self url params method :
  _session self = None ->
  let req := built_request env self url params method in
  dict_get (req_headers req) "User-Agent" = Some "Retail-Chatbot/1.0"
  /\ dict_get (req_headers req) "Accept" = Some "application/json".
Proof.
  intros Hs. unfold built_request, ensure_session. rewrite Hs.
  destruct (String.eqb method "GET"); split; reflexivity.
Qed.

(** C9 fails on the single-attempt path.  The request of
    [_make_async_request], hence each of the three of the batch, goes
    through a fresh [httpx.AsyncClient] that was given a timeout and no
    headers: it carries the library's own [User-Agent] and [Accept: */*],
    not the session's [Accept: application/json]. *)
Theorem async_requests_lack_session_headers env endpoint params st :
  exists req,
    sent (world (snd (_make_async_request env endpoint params st)))
    = (sent (world st) ++ [req])%list
    /\ req_url req = base_url (api_client st) ++ endpoint
    /\ dict_get (req_headers req) "Accept" = Some "*/*"
    /\ dict_get (req_headers req) "Accept" <> Some "application/json"
    /\ dict_get (req_headers req) "User-Agent"
       = Some ("python-httpx/" ++ httpx_version env).
Proof.
  exists (async_request env (api_client st) endpoint params).
  rewrite make_async_request_eq. cbv zeta. split.
  - destruct (async_attempt _) as [v|e]; [reflexivity|].
    destruct (is_Exception (exc_class e)); reflexivity.
  - repeat split. discriminate.
Qed.

(** The batch on a healthy backend: three requests, none with the
    session's headers. *)
Lemma batch_requests_headers :
  map (fun req => (req_url req, dict_get (req_headers req) "User-Agent",
                   dict_get (req_headers req) "Accept"))
    (sent (world (snd (get_multiple_metrics (env_of healthy_transport)
                         [0; 1; 2]%nat
                         (state_of default_settings test_now)))))
  = [ ("http://localhost:8000/api/visitors/current",
       Some "python-httpx/0.27.0", Some "*/*");
      ("http://localhost:8000/api/cashier/current",
       Some "python-httpx/0.27.0", Some "*/*");
      ("http://localhost:8000/api/heatmap/",
       Some "python-httpx/0.27.0", Some "*/*") ].
Proof. vm_compute. reflexivity. Qed.

(** * Further properties of the client *)

(** [k] retried failures and then an attempt the loop does not retry. *)
Lemma retry_loop_ends env endpoint url params method r :
  forall k m a st,
    (k < m)%nat ->
    max_retries (api_client st) = Z.of_nat (a + m) ->
    let req := built_request env (api_client st) url params method in
    (forall j, (j < k)%nat ->
               fails (transport env (attempts st + j)%nat req) = true) ->
    result_of (transport env (attempts st + k)%nat req) = r ->
    ends_loop r = true ->
    retry_loop env endpoint url params method (map Z.of_nat (seq a m)) st =
    (r,
     {| api_client := with_session env (api_client st);
        world := {| now := now (world st);
                    sent := sent (world st) ++ repeat req (S k);
                    slept := slept (world st);
                    coroutines := coroutines (world st)
                                  ++ backoff_coroutines a k;
                    stdout := stdout (world st) |} |}).
Proof.
  induction k as [|k IH]; intros m a st Hkm Hn req Hfail Hok Hend.
  - destruct m as [|m]; [lia|]. cbn [seq map]. rewrite retry_loop_cons.
    cbv zeta. fold req. rewrite Nat.add_0_r in Hok. rewrite Hok.
    unfold after_attempt, log_request, backoff_coroutines. fold req.
    cbn [seq map repeat]. rewrite app_nil_r.
    destruct r as [v|e]; [reflexivity|]. cbn [ends_loop] in Hend.
    apply negb_true_iff in Hend. rewrite Hend. reflexivity.
  - destruct m as [|m]; [lia|]. cbn [seq map]. rewrite retry_loop_cons.
    cbv zeta. fold req.
    pose proof (Hfail 0%nat ltac:(lia)) as H0. rewrite Nat.add_0_r in H0.
    destruct (fails_result_of _ H0) as [e [He Hc]]. rewrite He, Hc.
    replace (Z.of_nat a =? max_retries (api_client st) - 1) with false
      by (symmetry; apply Z.eqb_neq; lia).
    set (st2 := add_coroutine (CoSleep (1 * (Z.of_nat a + 1)))
                  (after_attempt env url params method st)).
    assert (Ec : api_client st2 = with_session env (api_client st))
      by reflexivity.
    assert (Hat : attempts st2 = S (attempts st)).
    { unfold attempts, st2, add_coroutine, after_attempt, log_request.
      cbn [world sent]. rewrite length_app. cbn [List.length]. lia. }
    specialize (IH m (S a) st2). cbv zeta in IH.
    rewrite Ec, built_request_with_session, Hat in IH. fold req in IH.
    rewrite IH; clear IH.
    + rewrite with_session_idem. f_equal. f_equal.
      change (sent (world st2)) with (sent (world st) ++ [req])%list.
      change (coroutines (world st2))
        with (coroutines (world st) ++ [CoSleep (1 * (Z.of_nat a + 1))])%list.
      unfold backoff_coroutines. cbn [seq map repeat].
      f_equal; try reflexivity; rewrite <- app_assoc; reflexivity.
    + lia.
    + cbn [with_session max_retries]. lia.
    + intros j Hj.
      replace (S (attempts st) + j)%nat with (attempts st + S j)%nat by lia.
      apply Hfail. lia.
    + replace (S (attempts st) + k)%nat with (attempts st + S k)%nat by lia.
      exact Hok.
    + exact Hend.
Qed.

Lemma make_request_ends env endpoint params method st r (k : nat) :
  Z.of_nat k < max_retries (api_client st) ->
  let req := built_request env (api_client st)
               (base_url (api_client st) ++ endpoint) params method in
  (forall j, (j < k)%nat ->
             fails (transport env (attempts st + j)%nat req) = true) ->
  result_of (transport env (attempts st + k)%nat req) = r ->
  ends_loop r = true ->
  _make_request env endpoint params method st =
  (r,
   {| api_client := with_session env (api_client st);
      world := {| now := now (world st);
                  sent := sent (world st) ++ repeat req (S k);
                  slept := slept (world st);
                  coroutines := coroutines (world st)
                                ++ backoff_coroutines 0 k;
                  stdout := stdout (world st) |} |}).
Proof.
  intros Hk req Hfail Hok Hend. unfold _make_request, bind, get_self, range.
  apply (retry_loop_ends env endpoint _ params method r k
           (Z.to_nat (max_retries (api_client st))) 0 st); try assumption; lia.
Qed.


(** The client a run of the loop leaves behind. *)
Lemma retry_loop_client env endpoint url params method :
  forall attempts_left st,
    api_client (snd (retry_loop env endpoint url params method attempts_left st))
    = match attempts_left with
      | [] => api_client st
      | _ :: _ => with_session env (api_client st)
      end.
Proof.
  induction attempts_left as [|attempt rest IH]; intros st; [reflexivity|].
  rewrite retry_loop_cons. cbv zeta.
  destruct (result_of _) as [v|e]; [reflexivity|].
  destruct (is_RequestException (exc_class e)); [|reflexivity].
  destruct (attempt =? max_retries (api_client st) - 1); [reflexivity|].
  rewrite IH. destruct rest; reflexivity.
Qed.

Lemma make_request_client env endpoint params method st :
  api_client (snd (_make_request env endpoint params method st))
  = if 1 <=? max_retries (api_client st)
    then with_session env (api_client st) else api_client st.
Proof.
  unfold _make_request, bind, get_self. rewrite retry_loop_client.
  unfold range.
  destruct (Z.leb_spec 1 (max_retries (api_client st))) as [H|H].
  - destruct (Z.to_nat (max_retries (api_client st))) eqn:E; [lia|reflexivity].
  - replace (Z.to_nat (max_retries (api_client st))) with 0%nat by lia.
    reflexivity.
Qed.




Section GatherInvariant.

(** Tasks that return whenever they are run and carry an invariant of the
    results gathered so far and the state from one step to the next. *)
Variable tasks : list (Py Value).
Variable Inv : list (option Value) -> State -> Prop.
Hypothesis step :
  forall i task results st,
    nth_error tasks i = Some task ->
    is_pending results i = true ->
    List.length results = List.length tasks ->
    Inv results st ->
    exists v st', task st = (Return v, st')
                  /\ Inv (set_nth results i (Some v)) st'.

Lemma run_tasks_invariant :
  forall order results st,
    List.length results = List.length tasks ->
    Inv results st ->
    exists results' st',
      run_tasks tasks order results st = (Return results', st')
      /\ List.length results' = List.length tasks
      /\ Inv results' st'
      /\ (forall i, In i order -> (i < List.length tasks)%nat ->
                    is_pending results' i = false)
      /\ (forall i, (i < List.length tasks)%nat ->
                    is_pending results i = false ->
                    is_pending results' i = false).
Proof.
  induction order as [|i rest IH]; intros results st Hlen HI.
  - exists results, st. cbn [run_tasks]. unfold ret.
    split; [reflexivity|]. split; [exact Hlen|]. split; [exact HI|].
    split; [intros i []|auto].
  - cbn [run_tasks].
    assert (Hskip :
      (forall j, j = i -> (j < List.length tasks)%nat ->
                 is_pending results j = false) ->
      exists results' st',
        run_tasks tasks rest results st = (Return results', st')
        /\ List.length results' = List.length tasks
        /\ Inv results' st'
        /\ (forall j, In j (i :: rest) -> (j < List.length tasks)%nat ->
                      is_pending results' j = false)
        /\ (forall j, (j < List.length tasks)%nat ->
                      is_pending results j = false ->
                      is_pending results' j = false)).
    { intros Hi.
      destruct (IH results st Hlen HI) as (r' & st' & Hr & Hl' & HI' & Hin & Hmono).
      exists r', st'. split; [exact Hr|]. split; [exact Hl'|].
      split; [exact HI'|]. split; [|exact Hmono].
      intros j [Hj|Hj] Hlt; [symmetry in Hj; auto|auto]. }
    destruct (nth_error tasks i) as [task|] eqn:Ht.
    + destruct (is_pending results i) eqn:Hp.
      * destruct (step i task results st Ht Hp Hlen HI) as (v & st1 & Hst1 & HI1).
        unfold bind. rewrite Hst1.
        assert (Hlt : (i < List.length results)%nat).
        { rewrite Hlen. apply nth_error_Some. congruence. }
        assert (Hlen1 : List.length (set_nth results i (Some v))
                        = List.length tasks)
          by (rewrite set_nth_length; exact Hlen).
        destruct (IH (set_nth results i (Some v)) st1 Hlen1 HI1)
          as (r' & st' & Hr & Hl' & HI' & Hin & Hmono).
        exists r', st'. split; [exact Hr|]. split; [exact Hl'|].
        split; [exact HI'|]. split.
        -- intros j [Hj|Hj] Hjlt; [|auto]. subst j. apply Hmono; [exact Hjlt|].
           unfold is_pending. rewrite nth_error_set_nth_eq by exact Hlt.
           reflexivity.
        -- intros j Hjlt Hj. apply Hmono; [exact Hjlt|].
           unfold is_pending in *.
           destruct (Nat.eq_dec i j) as [<-|Hne].
           ++ rewrite Hp in Hj. discriminate.
           ++ rewrite nth_error_set_nth_neq by exact Hne. exact Hj.
      * apply Hskip. intros j -> _. exact Hp.
    + apply Hskip. intros j -> Hlt. apply nth_error_None in Ht. lia.
Qed.

(** At the end of [gather] every task has delivered. *)
Lemma gather_invariant order st :
  Inv (repeat None (List.length tasks)) st ->
  exists results st',
    gather order tasks st
    = (Return (map (fun r => match r with Some v => v | None => VNone end)
                 results), st')
    /\ List.length results = List.length tasks
    /\ Inv results st'
    /\ (forall i, (i < List.length tasks)%nat -> is_pending results i = false).
Proof.
  intros HI. unfold gather, bind.
  destruct (run_tasks_invariant (order ++ seq 0 (List.length tasks))%list
              (repeat None (List.length tasks)) st (repeat_length _ _) HI)
    as (r' & st' & Hr & Hl & HI' & Hin & _).
  rewrite Hr. unfold ret. exists r', st'.
  split; [reflexivity|]. split; [exact Hl|]. split; [exact HI'|].
  intros i Hi. apply Hin; [|exact Hi].
  apply in_or_app. right. apply in_seq. lia.
Qed.

End GatherInvariant.

Lemma count_done_set_nth results i v :
  is_pending results i = true ->
  count_done (set_nth results i (Some v)) = S (count_done results).
Proof.
  unfold count_done, is_pending. revert i.
  induction results as [|r results IH]; intros [|i] H; cbn in *;
    try discriminate.
  - destruct r; [discriminate|]. reflexivity.
  - destruct r; cbn; rewrite (IH i H); reflexivity.
Qed.

Lemma count_done_all results :
  (forall i, (i < List.length results)%nat -> is_pending results i = false) ->
  count_done results = List.length results.
Proof.
  unfold count_done, is_pending.
  induction results as [|r results IH]; intros H; [reflexivity|].
  pose proof (H 0%nat ltac:(cbn; lia)) as H0. cbn in H0.
  destruct r; [|discriminate]. cbn. f_equal. apply IH.
  intros i Hi. apply (H (S i)). cbn. lia.
Qed.

Lemma count_done_repeat n : count_done (repeat None n) = 0%nat.
Proof. unfold count_done. induction n; cbn; auto. Qed.

(** One fetch of the batch on a well-behaved backend: it returns, keeps the
    client and logs its one request. *)
Lemma make_async_request_step env endpoint st :
  async_well_behaved env ->
  exists v st',
    _make_async_request env endpoint None st = (Return v, st')
    /\ api_client st' = api_client st
    /\ sent (world st')
       = (sent (world st)
          ++ [async_request env (api_client st) endpoint None])%list.
Proof.
  intros Hwb. rewrite make_async_request_eq. cbv zeta.
  specialize (Hwb (attempts st)
                (async_request env (api_client st) endpoint None)).
  destruct (async_attempt _) as [v|e].
  - eexists. eexists. split; [reflexivity|]. split; reflexivity.
  - rewrite Hwb. eexists. eexists. split; [reflexivity|]. split; reflexivity.
Qed.

(** X7.  The batch makes one attempt per endpoint and pays no attention to
    [max_retries].  On a backend whose failures are all [Exception]s,
    [get_multiple_metrics] returns a dict with the keys [visitors],
    [cashier] and [heatmap], having sent exactly three requests, one to
    each of the three endpoints, in whatever order they ran. *)
Theorem get_multiple_metrics_sends_three_requests env order st :
  async_well_behaved env ->
  exists x0 x1 x2 new st',
    get_multiple_metrics env order st
    = (Return (VDict [("visitors", x0); ("cashier", x1); ("heatmap", x2)]), st')
    /\ sent (world st') = (sent (world st) ++ new)%list
    /\ List.length new = 3%nat
    /\ (forall req, In req (batch_requests env (api_client st)) -> In req new).
Proof.
  intros Hwb. unfold get_multiple_metrics, endpoint_of.
  cbn [dict_get API_ENDPOINTS String.eqb Ascii.eqb Bool.eqb].
  unfold bind at 1, ret at 1. unfold bind at 1, ret at 1.
  unfold bind at 1, ret at 1. cbv zeta. cbn [map].
  set (tasks := [ _make_async_request env "/api/visitors/current" None;
                  _make_async_request env "/api/cashier/current" None;
                  _make_async_request env "/api/heatmap/" None ]).
  set (reqs := batch_requests env (api_client st)).
  set (Inv := fun (results : list (option Value)) (s : State) =>
    api_client s = api_client st
    /\ exists new, sent (world s) = (sent (world st) ++ new)%list
                   /\ List.length new = count_done results
                   /\ forall i req, nth_error reqs i = Some req ->
                                    is_pending results i = false ->
                                    In req new).
  destruct (gather_invariant tasks Inv) with (order := order) (st := st)
    as (results & st' & Hg & Hlen & (Hc & new & Hs & Hn & Hin) & Hall).
  - (* one step *)
    intros i task results s Ht Hp Hlen (Hc & new & Hs & Hn & Hin).
    assert (Hreq : exists endpoint,
               task = _make_async_request env endpoint None
               /\ nth_error reqs i
                  = Some (async_request env (api_client st) endpoint None)).
    { destruct i as [|[|[|i]]]; cbn in Ht;
        try (injection Ht as <-; eexists; split; reflexivity).
      destruct i; discriminate. }
    destruct Hreq as (endpoint & -> & Hri).
    destruct (make_async_request_step env endpoint s Hwb)
      as (v & s' & Hrun & Hc' & Hs').
    exists v, s'. split; [exact Hrun|]. split; [congruence|].
    exists (new ++ [async_request env (api_client st) endpoint None])%list.
    split; [rewrite Hs', Hs, Hc, app_assoc; reflexivity|].
    split; [rewrite length_app, count_done_set_nth by exact Hp; cbn; lia|].
    intros j req Hj Hpj. apply in_or_app.
    destruct (Nat.eq_dec i j) as [<-|Hne].
    + right. left. congruence.
    + left. apply (Hin j req Hj). unfold is_pending in *.
      rewrite nth_error_set_nth_neq in Hpj by exact Hne. exact Hpj.
  - (* start *)
    split; [reflexivity|]. exists []. rewrite app_nil_r.
    split; [reflexivity|]. split; [rewrite count_done_repeat; reflexivity|].
    intros i req Hi Hp. exfalso. unfold is_pending in Hp.
    destruct i as [|[|[|i]]]; cbn in Hp, Hi; try discriminate.
    destruct i; discriminate.
  - unfold bind at 1. rewrite Hg.
    destruct results as [|r0 [|r1 [|r2 [|r3 results]]]]; try discriminate.
    cbn [map getitem nth_error]. unfold bind, ret.
    exists (match r0 with Some v => v | None => VNone end),
           (match r1 with Some v => v | None => VNone end),
           (match r2 with Some v => v | None => VNone end), new, st'.
    split; [reflexivity|]. split; [exact Hs|]. split.
    + rewrite Hn. apply (count_done_all [r0; r1; r2]). exact Hall.
    + intros req Hreq. apply In_nth_error in Hreq. destruct Hreq as [i Hi].
      apply (Hin i req Hi). apply Hall.
      assert (Hne : nth_error reqs i <> None) by congruence.
      apply nth_error_Some in Hne. exact Hne.
Qed.

Lemma fresh_session_headers_eq env :
  dict_update (requests_default_headers env) session_headers
  = fresh_session_headers env.
Proof. reflexivity. Qed.

(** X4.  The session is made by the first request and reused after.  For
    a client fresh from its constructor and [max_retries >= 1]: after one
    call of [_make_request] the client holds the session with the two
    headers of the [session] property, a second call leaves that session
    in place, and every request of both calls carries
    [User-Agent: Retail-Chatbot/1.0] and [Accept: application/json]. *)
Theorem session_is_created_once_and_reused
  env endpoint1 params1 method1 endpoint2 params2 method2 st :
  _session (api_client st) = None ->
  1 <= max_retries (api_client st) ->
  let st1 := snd (_make_request env endpoint1 params1 method1 st) in
  let st2 := snd (_make_request env endpoint2 params2 method2 st1) in
  _session (api_client st1) = Some {| headers := fresh_session_headers env |}
  /\ _session (api_client st2) = _session (api_client st1)
  /\ exists new,
       sent (world st2) = (sent (world st) ++ new)%list
       /\ (2 <= List.length new)%nat
       /\ Forall (fun req =>
                    dict_get (req_headers req) "User-Agent"
                    = Some "Retail-Chatbot/1.0"
                    /\ dict_get (req_headers req) "Accept"
                       = Some "application/json")
            new.
Proof.
  intros Hs Hn st1 st2.
  assert (Hn1 : max_retries (api_client st1) = max_retries (api_client st)).
  { destruct (make_request_frame env endpoint1 params1 method1 st)
      as (k & _ & _ & _ & _ & _ & _ & Hm). exact Hm. }
  assert (Hc1 : api_client st1 = with_session env (api_client st)).
  { unfold st1. rewrite make_request_client.
    destruct (Z.leb_spec 1 (max_retries (api_client st))); [reflexivity|lia]. }
  assert (Hc2 : api_client st2 = with_session env (api_client st1)).
  { unfold st2. rewrite make_request_client.
    destruct (Z.leb_spec 1 (max_retries (api_client st1))); [reflexivity|lia]. }
  assert (Hs1 : _session (api_client st1)
                = Some {| headers := fresh_session_headers env |}).
  { rewrite Hc1. unfold with_session, ensure_session. rewrite Hs. reflexivity. }
  split; [exact Hs1|]. split.
  { rewrite Hc2. unfold with_session at 1. cbn [_session].
    unfold ensure_session. rewrite Hs1. reflexivity. }
  destruct (make_request_frame env endpoint1 params1 method1 st)
    as (k1 & _ & Hk1 & Hsent1 & _).
  destruct (make_request_frame env endpoint2 params2 method2 st1)
    as (k2 & _ & Hk2 & Hsent2 & _).
  fold st1 in Hsent1. fold st2 in Hsent2.
  eexists. split; [rewrite Hsent2, Hsent1, <- app_assoc; reflexivity|].
  split.
  - rewrite length_app, !repeat_length. specialize (Hk1 Hn).
    specialize (Hk2 ltac:(lia)). lia.
  - apply Forall_app. split; apply Forall_forall; intros req Hin;
      apply repeat_spec in Hin; subst req; unfold built_request.
    + unfold ensure_session. rewrite Hs.
      destruct (String.eqb method1 "GET"); split; reflexivity.
    + unfold ensure_session. rewrite Hs1.
      destruct (String.eqb method2 "GET"); split; reflexivity.
Qed.

(** X5.  A wrapper cannot tell an empty answer from no answer.  When the
    first attempt succeeds with the value [v], the wrapper returns [v] if
    [v] is truthy and its own default otherwise: [null], [false], [0],
    [""], [[]] and [{}] from the backend all come out as the wrapper's [{}]
    or [[]]. *)
Theorem wrapper_replaces_falsy_payload_by_default env w st params v :
  1 <= max_retries (api_client st) ->
  wrapper_params w (now (world st)) = Return params ->
  result_of (transport env (attempts st)
               (built_request env (api_client st)
                  (base_url (api_client st) ++ wrapper_endpoint w)
                  params "GET")) = Return v ->
  fst (call_wrapper env w st)
  = Return (if truthy v then v else empty_default w).
Proof.
  intros Hn Hp Hr. rewrite call_wrapper_eq, Hp. unfold fetch_or, bind.
  rewrite (make_request_ends env (wrapper_endpoint w) params "GET" st
             (Return v) 0).
  - reflexivity.
  - simpl. lia.
  - intros j Hj. lia.
  - rewrite Nat.add_0_r. exact Hr.
  - reflexivity.
Qed.

(** X6.  [check_backend_health] has no [or]: when [_make_request]
    succeeds within the budget, the health check returns the decoded body
    as it is, falsy values included. *)
Theorem check_backend_health_returns_payload_as_is env st v (k : nat) :
  Z.of_nat k < max_retries (api_client st) ->
  let req := built_request env (api_client st)
               (base_url (api_client st) ++ "/health") None "GET" in
  (forall j, (j < k)%nat ->
             fails (transport env (attempts st + j)%nat req) = true) ->
  result_of (transport env (attempts st + k)%nat req) = Return v ->
  fst (check_backend_health env st) = Return v.
Proof.
  intros Hk req Hfail Hr. unfold check_backend_health, try_except, endpoint_of.
  cbn [dict_get API_ENDPOINTS String.eqb Ascii.eqb Bool.eqb].
  unfold bind at 1, ret at 1.
  rewrite (make_request_ends env "/health" None "GET" st (Return v) k Hk Hfail Hr).
  - reflexivity.
  - reflexivity.
Qed.

(** X8.  The terminal error speaks of the last attempt only.  When all
    [max_retries >= 1] attempts fail, the message is
    ["Request to <endpoint> timed out after <max_retries> attempts"] if
    the last attempt timed out, and ["Failed to call <endpoint>: <cause>"]
    with the text of the last attempt's exception otherwise; what the
    earlier attempts failed with is not reported. *)
Theorem terminal_error_reports_last_failure
  env endpoint params method st cause :
  1 <= max_retries (api_client st) ->
  always_fails env ->
  result_of (transport env
               (attempts st + (Z.to_nat (max_retries (api_client st)) - 1))%nat
               (built_request env (api_client st)
                  (base_url (api_client st) ++ endpoint) params method))
  = Raise cause ->
  fst (_make_request env endpoint params method st)
  = Raise (mkExc E_Exception
             (if is_Timeout (exc_class cause) then
                "Request to " ++ endpoint ++ " timed out after "
                ++ str_of_int (max_retries (api_client st)) ++ " attempts"
              else "Failed to call " ++ endpoint ++ ": " ++ exc_str cause)).
Proof.
  intros Hn Hfail Hc.
  rewrite (make_request_always_fails env endpoint params method st Hn Hfail).
  cbn [fst]. unfold cause_at. rewrite Hc. unfold terminal_error.
  destruct (is_Timeout (exc_class cause)); reflexivity.
Qed.

Lemma timedelta_returns d h m s us t :
  timedelta d h m s us = Return t ->
  td_total t = (((d * 24 + h) * 60 + m) * 60 + s) * 1000000 + us
  /\ 0 <= td_seconds t < 86400 /\ 0 <= td_microseconds t < 1000000.
Proof.
  unfold timedelta. destruct (999999999 <? _); [discriminate|].
  intros H. inversion H; subst t. unfold td_total.
  cbn [td_days td_seconds td_microseconds].
  Z.div_mod_to_equations. lia.
Qed.

(** What [time_window] returns is a date of the calendar, [hours] hours
    away from its end. *)
Lemma time_window_returns end_time hours start_time :
  valid_datetime end_time ->
  time_window end_time hours = Return start_time ->
  valid_datetime start_time
  /\ to_microseconds start_time
     = to_microseconds end_time - hours * 3600000000.
Proof.
  intros Hv. unfold time_window, datetime_sub, timedelta_neg, datetime_add,
    timedelta_add.
  destruct (timedelta 0 hours 0 0 0) as [t1|] eqn:E1; [|discriminate].
  cbn [res_bind].
  destruct (timedelta (- td_days t1) 0 0 _ _) as [t2|] eqn:E2; [|discriminate].
  cbn [res_bind].
  destruct (timedelta (toordinal end_time) _ _ _ _) as [t3|] eqn:E3;
    [|discriminate].
  cbn [res_bind].
  destruct (timedelta (td_days t3 + td_days t2) _ _ _ _) as [t4|] eqn:E4;
    [|discriminate].
  cbn [res_bind].
  destruct (timedelta_returns _ _ _ _ _ _ E1) as (T1 & S1 & U1).
  destruct (timedelta_returns _ _ _ _ _ _ E2) as (T2 & S2 & U2).
  destruct (timedelta_returns _ _ _ _ _ _ E3) as (T3 & S3 & U3).
  destruct (timedelta_returns _ _ _ _ _ _ E4) as (T4 & S4 & U4).
  destruct ((0 <? td_days t4) && (td_days t4 <=? _MAXORDINAL)) eqn:Hc;
    [|discriminate].
  apply andb_true_iff in Hc. destruct Hc as [Hlo Hhi].
  apply Z.ltb_lt in Hlo. apply Z.leb_le in Hhi.
  pose proof (ord2ymd_spec (td_days t4) ltac:(lia)) as Hord.
  destruct (_ord2ymd (td_days t4)) as [[y m] d].
  destruct Hord as (Hy & Hm & Hd & Hinv).
  intros H. inversion H; subst start_time. clear H. split.
  - unfold valid_datetime.
    cbn [year month day hour minute second microsecond].
    repeat split; try tauto; try lia; Z.div_mod_to_equations; lia.
  - unfold to_microseconds at 1, toordinal.
    cbn [year month day hour minute second microsecond].
    rewrite Hinv.
    assert (HT : td_total t4 = to_microseconds end_time - hours * 3600000000)
      by (unfold td_total, to_microseconds in *; lia).
    rewrite <- HT. unfold td_total. Z.div_mod_to_equations. lia.
Qed.

(** The ordinal of a datetime in terms of its place on the time line. *)
Lemma to_microseconds_ordinal d :
  valid_datetime d ->
  toordinal d * 86400000000 <= to_microseconds d
  < (toordinal d + 1) * 86400000000.
Proof.
  intros (_ & _ & _ & Hh & Hm & Hs & Hus). unfold to_microseconds. lia.
Qed.

(** X9.  When the start of the window falls outside the calendar (before
    [datetime.min] or after [datetime.max]), [get_visitor_trend] raises
    [OverflowError] and leaves the state as it was: nothing is sent. *)
Theorem visitor_trend_raises_outside_calendar env hours st :
  valid_datetime (now (world st)) ->
  to_microseconds (now (world st)) - hours * 3600000000
  < to_microseconds datetime_min
  \/ end_of_time <= to_microseconds (now (world st)) - hours * 3600000000 ->
  exists e,
    get_visitor_trend env hours st = (Raise e, st)
    /\ exc_class e = E_OverflowError.
Proof.
  intros Hv Hout. rewrite get_visitor_trend_eq.
  destruct (time_window (now (world st)) hours) as [start_time|e] eqn:Ew.
  - exfalso.
    destruct (time_window_returns _ _ _ Hv Ew) as (Hvs & Hus).
    pose proof (to_microseconds_bounds start_time Hvs) as [Hlo Hhi].
    unfold end_of_time in Hout. lia.
  - exists e. split; [reflexivity|]. eapply time_window_raises. exact Ew.
Qed.

(** Within the calendar the window is computed, whatever the sign of
    [hours]. *)
Lemma time_window_in_range end_time hours :
  valid_datetime end_time ->
  to_microseconds datetime_min
  <= to_microseconds end_time - hours * 3600000000 < end_of_time ->
  exists start_time, time_window end_time hours = Return start_time.
Proof.
  intros Hv Hin.
  pose proof (to_microseconds_bounds end_time Hv) as [Hlo Hhi].
  pose proof (toordinal_bounds end_time Hv) as Ho.
  change (to_microseconds datetime_min) with 86400000000 in *.
  unfold end_of_time, _MAXORDINAL in *.
  unfold time_window.
  destruct (timedelta_spec 0 hours 0 0 0) as (t1 & E1 & T1 & S1 & U1);
    [lia|].
  rewrite E1. cbn [res_bind]. unfold datetime_sub, timedelta_neg.
  destruct (timedelta_spec (- td_days t1) 0 0 (- td_seconds t1)
              (- td_microseconds t1)) as (t2 & E2 & T2 & S2 & U2);
    [unfold td_total in T1; lia|].
  rewrite E2. cbn [res_bind]. unfold datetime_add.
  destruct (timedelta_spec (toordinal end_time) (hour end_time)
              (minute end_time) (second end_time) (microsecond end_time))
    as (t3 & E3 & T3 & S3 & U3);
    [unfold to_microseconds in *; lia|].
  rewrite E3. cbn [res_bind]. unfold timedelta_add.
  destruct (timedelta_spec (td_days t3 + td_days t2) 0 0
              (td_seconds t3 + td_seconds t2)
              (td_microseconds t3 + td_microseconds t2))
    as (t4 & E4 & T4 & S4 & U4);
    [unfold td_total, to_microseconds in *; lia|].
  rewrite E4. cbn [res_bind].
  assert (HD : 1 <= td_days t4 <= 3652059)
    by (unfold td_total, to_microseconds in *; lia).
  replace ((0 <? td_days t4) && (td_days t4 <=? _MAXORDINAL)) with true
    by (symmetry; apply andb_true_iff; split;
        [apply Z.ltb_lt|apply Z.leb_le]; unfold _MAXORDINAL; lia).
  destruct (_ord2ymd (td_days t4)) as [[y m] d].
  eexists. reflexivity.
Qed.

(** X10.  [get_visitor_trend] does not check the sign of [hours].  For
    [hours <= 0] within the calendar and [max_retries >= 1] the request
    goes out all the same, with a [start_time] that is not before
    [end_time]. *)
Theorem visitor_trend_does_not_validate_hours env hours st :
  valid_datetime (now (world st)) ->
  hours <= 0 ->
  to_microseconds (now (world st)) - hours * 3600000000 < end_of_time ->
  1 <= max_retries (api_client st) ->
  exists start_time new_requests,
    valid_datetime start_time
    /\ to_microseconds start_time
       = to_microseconds (now (world st)) - hours * 3600000000
    /\ to_microseconds (now (world st)) <= to_microseconds start_time
    /\ sent (world (snd (get_visitor_trend env hours st)))
       = (sent (world st) ++ new_requests)%list
    /\ new_requests <> []
    /\ Forall (fun req =>
                 req_query req
                 = Some [ ("start_time", isoformat start_time);
                          ("end_time", isoformat (now (world st))) ])
         new_requests.
Proof.
  intros Hv Hh Hmax Hn.
  pose proof (to_microseconds_bounds (now (world st)) Hv) as [Hlo Hhi].
  destruct (time_window_in_range (now (world st)) hours Hv ltac:(lia))
    as (start_time & Ew).
  destruct (time_window_returns _ _ _ Hv Ew) as (Hvs & Hus).
  rewrite get_visitor_trend_eq, Ew, snd_fetch_or.
  destruct (make_request_frame env "/api/visitors/range"
              (Some [ ("start_time", isoformat start_time);
                      ("end_time", isoformat (now (world st))) ]) "GET" st)
    as (k & _ & Hk & Hs & _).
  exists start_time. eexists. split; [exact Hvs|]. split; [exact Hus|].
  split; [lia|]. split; [exact Hs|]. split.
  - specialize (Hk Hn). destruct k; [lia|]. discriminate.
  - apply Forall_forall. intros req Hin. apply repeat_spec in Hin. subst req.
    reflexivity.
Qed.



Lemma session_is_created_once_and_reused_witness :
  let st := state_of default_settings test_now in
  let st1 := snd (_make_request (env_of healthy_transport) "/health" None "GET"
                    st) in
  let st2 := snd (_make_request (env_of healthy_transport)
                    "/api/visitors/current" None "GET" st1) in
  _session (api_client st1)
  = Some {| headers := fresh_session_headers (env_of healthy_transport) |}
  /\ _session (api_client st2) = _session (api_client st1)
  /\ exists new,
       sent (world st2) = (sent (world st) ++ new)%list
       /\ (2 <= List.length new)%nat
       /\ Forall (fun req =>
                    dict_get (req_headers req) "User-Agent"
                    = Some "Retail-Chatbot/1.0"
                    /\ dict_get (req_headers req) "Accept"
                       = Some "application/json")
            new.
Proof.
  apply (session_is_created_once_and_reused (env_of healthy_transport)
           "/health" None "GET" "/api/visitors/current" None "GET"
           (state_of default_settings test_now)).
  - reflexivity.
  - simpl. lia.
Defined.

Lemma wrapper_replaces_falsy_payload_by_default_witness :
  fst (call_wrapper (env_of (constant_transport (VList []))) W_current_visitors
         (state_of default_settings test_now))
  = Return (VDict []).
Proof.
  apply (wrapper_replaces_falsy_payload_by_default
           (env_of (constant_transport (VList []))) W_current_visitors
           (state_of default_settings test_now) None (VList [])).
  - simpl. lia.
  - reflexivity.
  - reflexivity.
Defined.

Lemma check_backend_health_returns_payload_as_is_witness :
  fst (check_backend_health (env_of (constant_transport (VDict [])))
         (state_of default_settings test_now))
  = Return (VDict []).
Proof.
  apply (check_backend_health_returns_payload_as_is
           (env_of (constant_transport (VDict [])))
           (state_of default_settings test_now) (VDict []) 0).
  - simpl. lia.
  - intros j Hj. lia.
  - reflexivity.
Defined.

Lemma terminal_error_reports_last_failure_witness :
  fst (_make_request (env_of refuse_then_timeout_transport)
         "/api/heatmap/" None "GET" (state_of default_settings test_now))
  = Raise (mkExc E_Exception
             "Request to /api/heatmap/ timed out after 3 attempts").
Proof.
  apply (terminal_error_reports_last_failure
           (env_of refuse_then_timeout_transport) "/api/heatmap/" None "GET"
           (state_of default_settings test_now)
           (mkExc E_ReadTimeout "Read timed out. (read timeout=30)")).
  - simpl. lia.
  - intros k req. destruct k as [|[|k]]; reflexivity.
  - reflexivity.
Defined.

Lemma get_multiple_metrics_sends_three_requests_witness :
  exists x0 x1 x2 new st',
    get_multiple_metrics (env_of heatmap_down_transport) [1; 2; 0]%nat
      (state_of zero_retries test_now)
    = (Return (VDict [("visitors", x0); ("cashier", x1); ("heatmap", x2)]), st')
    /\ sent (world st')
       = (sent (world (state_of zero_retries test_now)) ++ new)%list
    /\ List.length new = 3%nat
    /\ (forall req,
          In req (batch_requests (env_of heatmap_down_transport)
                    (api_client (state_of zero_retries test_now))) ->
          In req new).
Proof.
  apply (get_multiple_metrics_sends_three_requests
           (env_of heatmap_down_transport) [1; 2; 0]%nat
           (state_of zero_retries test_now)).
  intros k req. unfold env_of, heatmap_down_transport. cbn [transport].
  destruct (String.eqb (req_url req) "http://localhost:8000/api/heatmap/");
    [reflexivity|].
  destruct (String.eqb (req_url req)
              "http://localhost:8000/api/cashier/current"); exact I.
Defined.

Lemma visitor_trend_raises_outside_calendar_witness :
  exists e,
    get_visitor_trend (env_of healthy_transport) 100000000
      (state_of default_settings test_now)
    = (Raise e, state_of default_settings test_now)
    /\ exc_class e = E_OverflowError.
Proof.
  apply (visitor_trend_raises_outside_calendar (env_of healthy_transport)
           100000000 (state_of default_settings test_now)).
  - unfold valid_datetime. vm_compute. repeat split; discriminate.
  - left. vm_compute. reflexivity.
Defined.

Lemma visitor_trend_does_not_validate_hours_witness :
  exists start_time new_requests,
    valid_datetime start_time
    /\ to_microseconds start_time
       = to_microseconds (now (world (state_of default_settings test_now)))
         - (-6) * 3600000000
    /\ to_microseconds (now (world (state_of default_settings test_now)))
       <= to_microseconds start_time
    /\ sent (world (snd (get_visitor_trend (env_of healthy_transport) (-6)
                           (state_of default_settings test_now))))
       = (sent (world (state_of default_settings test_now))
          ++ new_requests)%list
    /\ new_requests <> []
    /\ Forall (fun req =>
                 req_query req
                 = Some [ ("start_time", isoformat start_time);
                          ("end_time",
                           isoformat
                             (now (world (state_of default_settings
                                            test_now)))) ])
         new_requests.
Proof.
  apply (visitor_trend_does_not_validate_hours (env_of healthy_transport) (-6)
           (state_of default_settings test_now)).
  - unfold valid_datetime. vm_compute. repeat split; discriminate.
  - lia.
  - vm_compute. reflexivity.
  - simpl. lia.
Defined.

(** * The Streamlit front end *)

Lemma dict_get_set_same {A : Type} (d : list (string * A)) k v :
  dict_get (dict_set d k v) k = Some v.
Proof.
  induction d as [|[k' v'] d IH]; cbn.
  - rewrite String.eqb_refl. reflexivity.
  - destruct (String.eqb k' k) eqn:E; cbn; rewrite E; [reflexivity|exact IH].
Qed.

Lemma dict_get_set_other {A : Type} (d : list (string * A)) k k' v :
  k <> k' -> dict_get (dict_set d k v) k' = dict_get d k'.
Proof.
  intros Hne. induction d as [|[k0 v0] d IH]; cbn.
  - destruct (String.eqb_spec k k'); [contradiction|reflexivity].
  - destruct (String.eqb_spec k0 k) as [->|Hk]; cbn.
    + destruct (String.eqb_spec k k'); [contradiction|reflexivity].
    + destruct (String.eqb k0 k'); [reflexivity|exact IH].
Qed.

Lemma session_default_spec key v s :
  exists ss,
    app.session_default key v s
    = (Return tt, {| process := process s; session_state := ss;
                     page := page s |})
    /\ (exists x, dict_get ss key = Some x)
    /\ (forall k x, dict_get (session_state s) k = Some x ->
                    dict_get ss k = Some x)
    /\ ((exists x, dict_get (session_state s) key = Some x) ->
        ss = session_state s).
Proof.
  unfold app.session_default, app.session_set.
  destruct (dict_get (session_state s) key) as [x|] eqn:E.
  - exists (session_state s). destruct s; cbn in *.
    split; [reflexivity|]. split; [eauto|]. split; auto.
  - exists (dict_set (session_state s) key v). split; [reflexivity|].
    split; [rewrite dict_get_set_same; eauto|]. split.
    + intros k x Hk. destruct (String.eqb_spec key k) as [<-|Hne].
      * congruence.
      * rewrite dict_get_set_other by exact Hne. exact Hk.
    + intros [x Hx]. discriminate.
Qed.

(** X11.  [initialize_session_state] fills in what is missing and touches
    nothing else: it raises nothing, leaves the client and the page alone,
    keeps every entry the session already has, leaves the four entries
    [messages], [agent_initialized], [conversation_started] and
    [backend_status] present, and a second run changes nothing. *)
Theorem initialize_session_state_fills_in_once s :
  exists s',
    app.initialize_session_state s = (Return tt, s')
    /\ process s' = process s
    /\ page s' = page s
    /\ (forall k x, dict_get (session_state s) k = Some x ->
                    dict_get (session_state s') k = Some x)
    /\ (forall k, In k ["messages"; "agent_initialized";
                        "conversation_started"; "backend_status"] ->
                  exists x, dict_get (session_state s') k = Some x)
    /\ app.initialize_session_state s' = (Return tt, s').
Proof.
  unfold app.initialize_session_state.
  destruct (session_default_spec "messages" (VList []) s)
    as (ss1 & E1 & H1 & K1 & _).
  set (s1 := {| process := process s; session_state := ss1; page := page s |})
    in *.
  destruct (session_default_spec "agent_initialized" (VBool false) s1)
    as (ss2 & E2 & H2 & K2 & _).
  set (s2 := {| process := process s1; session_state := ss2; page := page s1 |})
    in *.
  destruct (session_default_spec "conversation_started" (VBool false) s2)
    as (ss3 & E3 & H3 & K3 & _).
  set (s3 := {| process := process s2; session_state := ss3; page := page s2 |})
    in *.
  destruct (session_default_spec "backend_status" (VStr "unknown") s3)
    as (ss4 & E4 & H4 & K4 & _).
  set (s4 := {| process := process s3; session_state := ss4; page := page s3 |})
    in *.
  assert (P1 : exists x, dict_get ss4 "messages" = Some x).
  { destruct H1 as [x Hx]. exists x. apply K4, K3, K2. exact Hx. }
  assert (P2 : exists x, dict_get ss4 "agent_initialized" = Some x).
  { destruct H2 as [x Hx]. exists x. apply K4, K3. exact Hx. }
  assert (P3 : exists x, dict_get ss4 "conversation_started" = Some x).
  { destruct H3 as [x Hx]. exists x. apply K4. exact Hx. }
  exists s4. unfold app.bind. rewrite E1, E2, E3, E4.
  split; [reflexivity|]. split; [reflexivity|]. split; [reflexivity|].
  split; [intros k x Hk; apply K4, K3, K2, K1; exact Hk|].
  split.
  - intros k [<-|[<-|[<-|[<-|[]]]]]; assumption.
  - (* a second run finds all four *)
    destruct (session_default_spec "messages" (VList []) s4)
      as (t1 & F1 & _ & _ & I1).
    rewrite (I1 P1) in F1. rewrite F1.
    change {| process := process s4; session_state := session_state s4;
              page := page s4 |} with s4.
    destruct (session_default_spec "agent_initialized" (VBool false) s4)
      as (t2 & F2 & _ & _ & I2).
    rewrite (I2 P2) in F2. rewrite F2.
    change {| process := process s4; session_state := session_state s4;
              page := page s4 |} with s4.
    destruct (session_default_spec "conversation_started" (VBool false) s4)
      as (t3 & F3 & _ & _ & I3).
    rewrite (I3 P3) in F3. rewrite F3.
    change {| process := process s4; session_state := session_state s4;
              page := page s4 |} with s4.
    destruct (session_default_spec "backend_status" (VStr "unknown") s4)
      as (t4 & F4 & _ & _ & I4).
    rewrite (I4 H4) in F4. rewrite F4. reflexivity.
Qed.

(** The page and the session after the health check of the app, given what
    the health check of the client returned. *)
Lemma app_check_backend_health_eq env s :
  app.check_backend_health env s =
  let '(r, st') := check_backend_health env (process s) in
  let shown := (page s ++ [st_spinner "🔍 Checking backend connection..."])%list in
  let error_of e :=
    (Return (VDict [("status", VStr "error"); ("error", VStr (exc_str e))]),
     {| process := st';
        session_state := dict_set (session_state s) "backend_status"
                           (VStr "error");
        page := shown |}) in
  match r with
  | Return health =>
      match value_get health "status" (VStr "unknown") with
      | Return status =>
          (Return health,
           {| process := st';
              session_state := dict_set (session_state s) "backend_status"
                                 status;
              page := shown |})
      | Raise e => error_of e
      end
  | Raise e =>
      if is_Exception (exc_class e) then error_of e
      else (Raise e, {| process := st'; session_state := session_state s;
                        page := shown |})
  end.
Proof.
  unfold app.check_backend_health, app.bind, app.show,
    app.try_except_Exception, app.call, app.lift_res, app.session_set, app.ret.
  cbn [process session_state page].
  destruct (check_backend_health env (process s)) as [[health|e] st'].
  - destruct health; cbn [value_get is_Exception exc_class]; reflexivity.
  - destruct (is_Exception (exc_class e)); reflexivity.
Qed.

(** X12.  With no retries allowed the app reports an error of its own.
    For [max_retries <= 0] the client's health check returns [None], on
    which [.get] raises [AttributeError]; the app catches it, sets
    [backend_status] to ["error"] and returns the status object with the
    message of the [AttributeError].  Nothing is sent. *)
Theorem app_health_check_without_retries env s :
  max_retries (api_client (process s)) <= 0 ->
  app.check_backend_health env s
  = (Return (VDict [ ("status", VStr "error");
                     ("error",
                      VStr "'NoneType' object has no attribute 'get'") ]),
     {| process := process s;
        session_state := dict_set (session_state s) "backend_status"
                           (VStr "error");
        page := page s ++ [st_spinner "🔍 Checking backend connection..."] |}).
Proof.
  intros Hn. rewrite app_check_backend_health_eq.
  assert (Hh : check_backend_health env (process s)
               = (Return VNone, process s)).
  { unfold check_backend_health, try_except, endpoint_of.
    cbn [dict_get API_ENDPOINTS String.eqb Ascii.eqb Bool.eqb].
    unfold bind at 1, ret at 1.
    rewrite make_request_no_attempts by exact Hn. reflexivity. }
  rewrite Hh. reflexivity.
Qed.

Lemma app_health_check_without_retries_witness :
  app.check_backend_health (env_of healthy_transport)
    (fresh_app (state_of zero_retries test_now))
  = (Return (VDict [ ("status", VStr "error");
                     ("error",
                      VStr "'NoneType' object has no attribute 'get'") ]),
     {| process := state_of zero_retries test_now;
        session_state := [("backend_status", VStr "error")];
        page := [st_spinner "🔍 Checking backend connection..."] |}).
Proof.
  apply (app_health_check_without_retries (env_of healthy_transport)
           (fresh_app (state_of zero_retries test_now))).
  simpl. lia.
Defined.

(** X13.  When the backend answers the health check, the app takes the
    status from the answer if it is a dict and reports an error of its own
    if it is not.  For an answer [v] within the retry budget: a dict is
    returned unchanged and [backend_status] is its ["status"] entry, or
    ["unknown"] if it has none; on anything else, falsy values included,
    [.get] raises, [backend_status] becomes ["error"] and the app returns
    the status object with the [AttributeError]'s message. *)
Theorem app_health_check_on_answer env s v (k : nat) :
  Z.of_nat k < max_retries (api_client (process s)) ->
  let req := built_request env (api_client (process s))
               (base_url (api_client (process s)) ++ "/health") None "GET" in
  (forall j, (j < k)%nat ->
             fails (transport env (attempts (process s) + j)%nat req) = true) ->
  result_of (transport env (attempts (process s) + k)%nat req) = Return v ->
  exists s',
    app.check_backend_health env s
    = (Return (match v with
               | VDict _ => v
               | _ => VDict [ ("status", VStr "error");
                              ("error",
                               VStr ("'" ++ type_name v
                                     ++ "' object has no attribute 'get'")) ]
               end),
       s')
    /\ dict_get (session_state s') "backend_status"
       = Some (match v with
               | VDict entries =>
                   match dict_get entries "status" with
                   | Some status => status
                   | None => VStr "unknown"
                   end
               | _ => VStr "error"
               end)
    /\ page s' = (page s ++ [st_spinner "🔍 Checking backend connection..."])%list.
Proof.
  intros Hk req Hfail Hr. rewrite app_check_backend_health_eq.
  unfold check_backend_health, try_except, endpoint_of.
  cbn [dict_get API_ENDPOINTS String.eqb Ascii.eqb Bool.eqb].
  unfold bind at 1, ret at 1.
  rewrite (make_request_succeeds env "/health" None "GET" (process s) v k
             Hk Hfail Hr).
  cbv zeta.
  destruct v; cbn [value_get type_name]; eexists;
    (split; [reflexivity|]); cbn [session_state page];
    (split; [apply dict_get_set_same|reflexivity]).
Qed.

Lemma app_health_check_on_answer_witness :
  exists s',
    app.check_backend_health (env_of (constant_transport (VStr "OK")))
      (fresh_app (state_of default_settings test_now))
    = (Return (VDict [ ("status", VStr "error");
                       ("error",
                        VStr "'str' object has no attribute 'get'") ]),
       s')
    /\ dict_get (session_state s') "backend_status" = Some (VStr "error")
    /\ page s' = [st_spinner "🔍 Checking backend connection..."].
Proof.
  apply (app_health_check_on_answer (env_of (constant_transport (VStr "OK")))
           (fresh_app (state_of default_settings test_now)) (VStr "OK") 0).
  - simpl. lia.
  - intros j Hj. lia.
  - reflexivity.
Defined.

(** X14.  A dead backend shows as ["unhealthy"].  With [max_retries >= 1]
    and every attempt failing, the app sets [backend_status] to
    ["unhealthy"] and returns the degraded status object, after exactly
    [max_retries] requests. *)
Theorem app_health_check_on_dead_backend env s :
  1 <= max_retries (api_client (process s)) ->
  always_fails env ->
  exists msg s',
    app.check_backend_health env s
    = (Return (VDict [("status", VStr "unhealthy"); ("error", VStr msg)]), s')
    /\ msg <> ""
    /\ dict_get (session_state s') "backend_status" = Some (VStr "unhealthy")
    /\ Z.of_nat (attempts (process s'))
       = Z.of_nat (attempts (process s)) + max_retries (api_client (process s)).
Proof.
  intros Hn Hfail. rewrite app_check_backend_health_eq.
  unfold check_backend_health, try_except, endpoint_of.
  cbn [dict_get API_ENDPOINTS String.eqb Ascii.eqb Bool.eqb].
  unfold bind at 1, ret at 1.
  rewrite (make_request_always_fails env "/health" None "GET" (process s)
             Hn Hfail).
  rewrite terminal_error_class. cbn [is_Exception]. unfold ret.
  cbn [value_get dict_get String.eqb Ascii.eqb Bool.eqb].
  eexists. eexists. split; [reflexivity|].
  split; [apply terminal_error_str|]. split.
  - cbn [session_state]. apply dict_get_set_same.
  - cbn [process]. unfold attempts. cbn [world sent].
    rewrite length_app, repeat_length. lia.
Qed.

Lemma app_health_check_on_dead_backend_witness :
  exists msg s',
    app.check_backend_health (env_of timeout_transport)
      (fresh_app (state_of default_settings test_now))
    = (Return (VDict [("status", VStr "unhealthy"); ("error", VStr msg)]), s')
    /\ msg <> ""
    /\ dict_get (session_state s') "backend_status" = Some (VStr "unhealthy")
    /\ Z.of_nat (attempts (process s')) = 0 + 3.
Proof.
  apply (app_health_check_on_dead_backend (env_of timeout_transport)
           (fresh_app (state_of default_settings test_now))).
  - simpl. lia.
  - intros k req. reflexivity.
Defined.

(** On a well-behaved backend [_make_request] raises [Exception]s only. *)
Lemma retry_loop_raises_exceptions env endpoint url params method :
  sync_well_behaved env ->
  forall attempts_left st,
    match fst (retry_loop env endpoint url params method attempts_left st) with
    | Return _ => True
    | Raise e => is_Exception (exc_class e) = true
    end.
Proof.
  intros Hwb. induction attempts_left as [|attempt rest IH]; intros st.
  - exact I.
  - rewrite retry_loop_cons. cbv zeta.
    specialize (Hwb (attempts st)
                  (built_request env (api_client st) url params method)).
    destruct (result_of _) as [v|e]; [exact I|].
    destruct (is_RequestException (exc_class e)); [|exact Hwb].
    destruct (attempt =? max_retries (api_client st) - 1).
    + cbn [fst]. rewrite terminal_error_class. reflexivity.
    + apply IH.
Qed.

Lemma make_request_raises_exceptions env endpoint params method st :
  sync_well_behaved env ->
  match fst (_make_request env endpoint params method st) with
  | Return _ => True
  | Raise e => is_Exception (exc_class e) = true
  end.
Proof.
  intros Hwb. unfold _make_request, bind, get_self.
  apply retry_loop_raises_exceptions. exact Hwb.
Qed.

Lemma substring_length_le n s :
  (String.length (substring 0 n s) <= n)%nat.
Proof.
  revert s. induction n as [|n IH]; intros [|c s]; cbn; try lia.
  specialize (IH s). lia.
Qed.

(** One probe on a well-behaved backend: a verdict, and only the client's
    state moves. *)
Lemma probe_verdict env endpoint s :
  sync_well_behaved env ->
  exists r,
    app.probe env endpoint s
    = (Return r,
       {| process := snd (_make_request env endpoint None "GET" (process s));
          session_state := session_state s; page := page s |})
    /\ is_verdict r.
Proof.
  intros Hwb. unfold app.probe, app.try_except_Exception, app.bind, app.call,
    app.ret.
  pose proof (make_request_raises_exceptions env endpoint None "GET"
                (process s) Hwb) as He.
  destruct (_make_request env endpoint None "GET" (process s)) as [[v|e] st'].
  - cbn [fst snd] in *. eexists. split; [reflexivity|].
    destruct (truthy v); [left|right; left]; reflexivity.
  - cbn [fst snd] in *. rewrite He. eexists. split; [reflexivity|].
    right. right. eexists. split; [reflexivity|]. apply substring_length_le.
Qed.

(** X15.  The connection test always ends with four verdicts.  On a
    backend whose failures are all [Exception]s, [test_connection] raises
    nothing, leaves the session alone and adds to the page its spinner,
    the heading and one line each for Health, Visitors, Cashier and
    Heatmap, in this order; each line says success, no data, or error with
    at most 50 characters of the exception's text. *)
Theorem test_connection_gives_four_verdicts env s :
  sync_well_behaved env ->
  exists r1 r2 r3 r4 s',
    app.test_connection env s = (Return tt, s')
    /\ session_state s' = session_state s
    /\ page s'
       = (page s
          ++ [ st_spinner "Running connection tests...";
               st_info "### Connection Test Results";
               st_write ("**Health**: " ++ r1);
               st_write ("**Visitors**: " ++ r2);
               st_write ("**Cashier**: " ++ r3);
               st_write ("**Heatmap**: " ++ r4) ])%list
    /\ is_verdict r1 /\ is_verdict r2 /\ is_verdict r3 /\ is_verdict r4.
Proof.
  intros Hwb. unfold app.test_connection.
  unfold app.bind at 1. unfold app.show at 1.
  set (s0 := {| process := process s; session_state := session_state s;
                page := page s ++ [st_spinner "Running connection tests..."] |}).
  cbn [app.probe_all].
  destruct (probe_verdict env "/health" s0 Hwb) as (r1 & E1 & V1).
  set (s1 := {| process := snd (_make_request env "/health" None "GET"
                                  (process s0));
                session_state := session_state s0; page := page s0 |}) in *.
  destruct (probe_verdict env "/api/visitors/current" s1 Hwb) as (r2 & E2 & V2).
  set (s2 := {| process := snd (_make_request env "/api/visitors/current"
                                  None "GET" (process s1));
                session_state := session_state s1; page := page s1 |}) in *.
  destruct (probe_verdict env "/api/cashier/current" s2 Hwb) as (r3 & E3 & V3).
  set (s3 := {| process := snd (_make_request env "/api/cashier/current"
                                  None "GET" (process s2));
                session_state := session_state s2; page := page s2 |}) in *.
  destruct (probe_verdict env "/api/heatmap/" s3 Hwb) as (r4 & E4 & V4).
  exists r1, r2, r3, r4.
  unfold app.bind. rewrite E1, E2, E3, E4.
  cbn [dict_set String.eqb Ascii.eqb Bool.eqb app.ret app.write_results
       app.show app.bind].
  unfold app.bind, app.show, app.ret. cbn [process session_state page].
  eexists. split; [reflexivity|]. split; [reflexivity|].
  split; [|tauto].
  subst s3 s2 s1 s0. cbn [page]. rewrite <- !app_assoc. reflexivity.
Qed.

Lemma test_connection_gives_four_verdicts_witness :
  exists r1 r2 r3 r4 s',
    app.test_connection (env_of flaky_transport)
      (fresh_app (state_of default_settings test_now)) = (Return tt, s')
    /\ session_state s' = []
    /\ page s'
       = [ st_spinner "Running connection tests...";
           st_info "### Connection Test Results";
           st_write ("**Health**: " ++ r1);
           st_write ("**Visitors**: " ++ r2);
           st_write ("**Cashier**: " ++ r3);
           st_write ("**Heatmap**: " ++ r4) ]
    /\ is_verdict r1 /\ is_verdict r2 /\ is_verdict r3 /\ is_verdict r4.
Proof.
  apply (test_connection_gives_four_verdicts (env_of flaky_transport)
           (fresh_app (state_of default_settings test_now))).
  intros [|k] req; reflexivity.
Defined.

(** X16.  With no retries allowed the connection test reports "No data"
    four times.  For [max_retries <= 0] every probe gets [None] back
    without a request being sent, so the test shows the four endpoints as
    reachable but empty, whatever the backend does. *)
Theorem test_connection_without_retries env s :
  max_retries (api_client (process s)) <= 0 ->
  app.test_connection env s
  = (Return tt,
     {| process := process s;
        session_state := session_state s;
        page := page s
                ++ [ st_spinner "Running connection tests...";
                     st_info "### Connection Test Results";
                     st_write "**Health**: ❌ No data";
                     st_write "**Visitors**: ❌ No data";
                     st_write "**Cashier**: ❌ No data";
                     st_write "**Heatmap**: ❌ No data" ] |}).
Proof.
  intros Hn.
  assert (Hp : forall endpoint sess pg,
             app.probe env endpoint
               {| process := process s; session_state := sess; page := pg |}
             = (Return "❌ No data",
                {| process := process s; session_state := sess;
                   page := pg |})).
  { intros endpoint sess pg.
    unfold app.probe, app.try_except_Exception, app.bind, app.call, app.ret.
    cbn [process session_state page].
    rewrite make_request_no_attempts by exact Hn. reflexivity. }
  unfold app.test_connection.
  unfold app.bind at 1. unfold app.show at 1.
  cbn [app.probe_all]. unfold app.bind. rewrite !Hp.
  cbn [dict_set String.eqb Ascii.eqb Bool.eqb app.ret app.write_results
       app.show app.bind].
  unfold app.bind, app.show, app.ret. cbn [process session_state page].
  rewrite <- !app_assoc. reflexivity.
Qed.

Lemma test_connection_without_retries_witness :
  app.test_connection (env_of healthy_transport)
    (fresh_app (state_of zero_retries test_now))
  = (Return tt,
     {| process := state_of zero_retries test_now;
        session_state := [];
        page := [ st_spinner "Running connection tests...";
                  st_info "### Connection Test Results";
                  st_write "**Health**: ❌ No data";
                  st_write "**Visitors**: ❌ No data";
                  st_write "**Cashier**: ❌ No data";
                  st_write "**Heatmap**: ❌ No data" ] |}).
Proof.
  apply (test_connection_without_retries (env_of healthy_transport)
           (fresh_app (state_of zero_retries test_now))).
  simpl. lia.
Defined.




(** * The formatters and the tools *)

(** The loop over the areas, on dicts: every area lands in exactly one of
    the three lists. *)
Lemma categorize_counts :
  forall areas high_traffic medium_traffic low_traffic,
    Forall (fun area => is_dict area = true) areas ->
    exists high medium low,
      categorize areas high_traffic medium_traffic low_traffic
      = Return ((high_traffic ++ high)%list, (medium_traffic ++ medium)%list,
                (low_traffic ++ low)%list)
      /\ len high = count_density "high" areas
      /\ len medium = count_density "medium" areas
      /\ len high + len medium + len low = len areas.
Proof.
  induction areas as [|area rest IH]; intros h m l Hd.
  - exists [], [], []. rewrite !app_nil_r. repeat split; reflexivity.
  - inversion Hd as [|? ? Ha Hrest]; subst.
    destruct area as [| | | | | |entries]; try discriminate Ha.
    cbn [categorize value_get res_bind].
    unfold count_density. cbn [filter].
    fold (count_density "high" rest). fold (count_density "medium" rest).
    set (section := match dict_get entries "section" with
                    | Some x => x | None => VStr "Unknown" end).
    destruct (dict_get entries "density_level") as [density|] eqn:Ed.
    + destruct (eq_str density "high") eqn:Eh.
      * assert (Em : eq_str density "medium" = false).
        { destruct density; try reflexivity. cbn in Eh |- *.
          apply String.eqb_eq in Eh. subst s. reflexivity. }
        rewrite Em.
        destruct (IH (h ++ [section])%list m l Hrest)
          as (h' & m' & l' & E & Hh & Hm & Ht).
        exists (section :: h'), m', l'. rewrite E, <- !app_assoc.
        split; [reflexivity|]. unfold len in *. cbn [List.length].
        fold (count_density "high" rest). fold (count_density "medium" rest).
        unfold count_density, len in *. lia.
      * destruct (eq_str density "medium") eqn:Em.
        -- destruct (IH h (m ++ [section])%list l Hrest)
             as (h' & m' & l' & E & Hh & Hm & Ht).
           exists h', (section :: m'), l'. rewrite E, <- !app_assoc.
           split; [reflexivity|]. unfold count_density, len in *.
           cbn [List.length]. lia.
        -- destruct (IH h m (l ++ [section])%list Hrest)
             as (h' & m' & l' & E & Hh & Hm & Ht).
           exists h', m', (section :: l'). rewrite E, <- !app_assoc.
           split; [reflexivity|]. unfold count_density, len in *.
           cbn [List.length]. lia.
    + cbn [eq_str String.eqb Ascii.eqb Bool.eqb].
      destruct (IH h m (l ++ [section])%list Hrest)
        as (h' & m' & l' & E & Hh & Hm & Ht).
      exists h', m', (section :: l'). rewrite E, <- !app_assoc.
      split; [reflexivity|]. unfold count_density, len in *.
      cbn [List.length]. lia.
Qed.

Lemma append_assoc (a b c : string) : (a ++ b) ++ c = a ++ b ++ c.
Proof.
  induction a as [|x a IH]; [reflexivity|]. cbn. rewrite IH. reflexivity.
Qed.

(** On a list of dicts the formatter gets through. *)
Lemma heatmap_response_returns py areas :
  Forall (fun area => is_dict area = true) areas ->
  exists text, format_heatmap_response py (VList areas) = Return text.
Proof.
  intros Hd. unfold format_heatmap_response.
  destruct areas as [|area rest]; [eexists; reflexivity|].
  cbn [truthy negb iter res_bind].
  destruct (categorize_counts (area :: rest) [] [] [] Hd)
    as (h & m & l & E & _).
  rewrite E. cbn [app res_bind]. eexists. reflexivity.
Qed.

(** X18.  The summary of the heatmap counts every area exactly once.  On
    a non-empty list of dicts [format_heatmap_response] ends with the
    summary block in which the total is the number of areas given, "high"
    and "medium" are the numbers of areas whose [density_level] is exactly
    that str, and every other area, with no level or with any other value,
    counts as low traffic. *)
Theorem format_heatmap_response_counts_every_area py areas :
  areas <> [] ->
  Forall (fun area => is_dict area = true) areas ->
  let high := count_density "high" areas in
  let medium := count_density "medium" areas in
  exists listing,
    format_heatmap_response py (VList areas)
    = Return ("## 🗺️ Store Heatmap Analysis" ++ nl ++ nl ++ listing
              ++ heatmap_summary (len areas) high medium
                   (len areas - high - medium)).
Proof.
  intros Hne Hd high medium. unfold format_heatmap_response.
  destruct areas as [|area rest]; [contradiction|].
  cbn [truthy negb iter res_bind].
  destruct (categorize_counts (area :: rest) [] [] [] Hd)
    as (h & m & l & E & Hh & Hm & Ht).
  rewrite E. cbn [app res_bind]. fold high in Hh. fold medium in Hm.
  replace (len (area :: rest) - high - medium) with (len l) by lia.
  rewrite Ht, <- Hh, <- Hm.
  set (summary := heatmap_summary _ _ _ _).
  set (title := "## 🗺️ Store Heatmap Analysis" ++ nl ++ nl).
  change ("## 🗺️ Store Heatmap Analysis" ++ nl ++ nl ++ ?x)
    with (title ++ x).
  exists ((if truthy (VList h) then
             "### 🔥 High Traffic Areas" ++ nl
             ++ "Consider adding staff or optimizing layout:" ++ nl
             ++ bullets py "" h ++ nl
           else "")
          ++ (if truthy (VList m) then
                "### ⚠️ Medium Traffic Areas" ++ nl
                ++ "Normal operations, monitor for changes:" ++ nl
                ++ bullets py "" m ++ nl
              else "")
          ++ (if truthy (VList l) then
                "### ✅ Low Traffic Areas" ++ nl
                ++ "Opportunities for improvement:" ++ nl
                ++ bullets py " (consider promotions or relocation)" l ++ nl
              else "")).
  destruct h, m, l; cbn [truthy]; rewrite ?append_assoc; reflexivity.
Qed.

Lemma format_heatmap_response_counts_every_area_witness :
  exists listing,
    format_heatmap_response some_builtins (VList sample_heatmap)
    = Return ("## 🗺️ Store Heatmap Analysis" ++ nl ++ nl ++ listing
              ++ heatmap_summary 4 1 1 2).
Proof.
  apply (format_heatmap_response_counts_every_area some_builtins
           sample_heatmap).
  - discriminate.
  - repeat constructor.
Defined.

(** The loop over the areas gets through on dicts only. *)
Lemma categorize_returns :
  forall areas high_traffic medium_traffic low_traffic r,
    categorize areas high_traffic medium_traffic low_traffic = Return r ->
    Forall (fun area => is_dict area = true) areas.
Proof.
  induction areas as [|area rest IH]; intros h m l r E; [constructor|].
  destruct area as [| | | | | |entries]; try discriminate E.
  constructor; [reflexivity|].
  cbn [categorize value_get res_bind] in E.
  destruct (eq_str _ "high"); [eapply IH; exact E|].
  destruct (eq_str _ "medium"); eapply IH; exact E.
Qed.

(** X19.  [format_heatmap_response] gets through on an empty payload and
    on a list of dicts, and on nothing else: a number, a non-empty str or
    dict, or a list with anything but dicts in it makes it raise. *)
Theorem format_heatmap_response_needs_a_list_of_dicts py data :
  (exists text, format_heatmap_response py data = Return text)
  <-> (truthy data = false
       \/ exists areas, data = VList areas
                        /\ Forall (fun area => is_dict area = true) areas).
Proof.
  split.
  - intros [text E]. unfold format_heatmap_response in E.
    destruct (truthy data) eqn:Et; [right|left; reflexivity].
    cbn [negb] in E.
    destruct data as [|b|z|bits|s|items|entries];
      try discriminate E; try discriminate Et.
    + destruct s as [|c s]; [discriminate Et|discriminate E].
    + exists items. split; [reflexivity|].
      cbn [iter res_bind] in E.
      destruct (categorize items [] [] []) as [r|e] eqn:Ec;
        [|discriminate E].
      eapply categorize_returns. exact Ec.
    + destruct entries as [|[k x] entries]; [discriminate Et|discriminate E].
  - intros [Et|(areas & -> & Hd)].
    + unfold format_heatmap_response. rewrite Et. eexists. reflexivity.
    + apply heatmap_response_returns. exact Hd.
Qed.

Lemma format_heatmap_response_needs_a_list_of_dicts_witness :
  ~ (exists text,
       format_heatmap_response some_builtins
         (VDict [("areas", VList sample_heatmap)]) = Return text).
Proof.
  intros H.
  destruct (proj1 (format_heatmap_response_needs_a_list_of_dicts
                     some_builtins (VDict [("areas", VList sample_heatmap)]))
              H) as [Et|(areas & E & _)]; discriminate.
Defined.

(** X20.  On a dict, [format_visitor_response] gets through exactly when
    [current_visitors] is missing or a number.  A count that is a str,
    [None], a list or a dict makes the comparison with 10 raise; whatever
    happens, the formatter changes nothing. *)
Theorem format_visitor_response_needs_a_number py entries st :
  snd (format_visitor_response py (VDict entries) st) = st
  /\ ((exists text,
         fst (format_visitor_response py (VDict entries) st) = Return text)
      <-> match dict_get entries "current_visitors" with
          | Some count => is_number count = true
          | None => True
          end).
Proof.
  unfold format_visitor_response, bind, ret, lift, datetime_now.
  destruct entries as [|entry entries].
  { cbn. split; [reflexivity|]. split; [trivial|]. intros _.
    eexists. reflexivity. }
  cbn [truthy negb contains value_get].
  destruct (dict_get (entry :: entries) "current_visitors") as [count|];
    cbn [negb].
  2:{ split; [reflexivity|]. split; [trivial|]. intros _.
      eexists. reflexivity. }
  destruct count as [|b|z|bits|s|items|es]; cbn [eq_int lt_int is_number];
    try (split; [reflexivity|];
         split; [intros [text E]; discriminate E|discriminate]).
  - destruct (_ =? 0); [|destruct (_ <? 10); [|destruct (_ <? 30);
      [|destruct (_ <? 50)]]];
      (split; [reflexivity|]; split; [reflexivity|]; intros _;
       eexists; reflexivity).
  - destruct (_ =? 0); [|destruct (_ <? 10); [|destruct (_ <? 30);
      [|destruct (_ <? 50)]]];
      (split; [reflexivity|]; split; [reflexivity|]; intros _;
       eexists; reflexivity).
  - destruct (float_compare_int bits 0) as [[| |]|];
      repeat match goal with
             | |- context [float_compare_int bits ?k] =>
                 destruct (float_compare_int bits k) as [[| |]|]
             end;
      (split; [reflexivity|]; split; [reflexivity|]; intros _;
       eexists; reflexivity).
Qed.

Lemma format_visitor_response_needs_a_number_witness :
  ~ (exists text,
       fst (format_visitor_response some_builtins
              (VDict [("current_visitors", VStr "42")])
              (state_of default_settings test_now)) = Return text).
Proof.
  intros H.
  pose proof (proj1 (proj2 (format_visitor_response_needs_a_number
                              some_builtins
                              [("current_visitors", VStr "42")]
                              (state_of default_settings test_now))) H)
    as Hn.
  discriminate Hn.
Defined.

(** What the formatters raise is caught by [except Exception]. *)
Lemma caught_bind {A B : Type} (m : Py A) (k : A -> Py B) st :
  caught (fst (m st)) ->
  (forall a st', caught (fst (k a st'))) ->
  caught (fst (bind m k st)).
Proof.
  intros Hm Hk. unfold bind. destruct (m st) as [[a|e] st'].
  - apply Hk.
  - exact Hm.
Qed.

Lemma caught_value_get v key default : caught (value_get v key default).
Proof. destruct v; cbn; trivial. Qed.

Lemma caught_lt_int v k : caught (lt_int v k).
Proof. destruct v; cbn; trivial. Qed.

Lemma caught_contains py key data : caught (contains py key data).
Proof. destruct data; cbn; trivial. Qed.

Lemma caught_iter data : caught (iter data).
Proof. destruct data; cbn; trivial. Qed.

Lemma caught_categorize :
  forall areas high_traffic medium_traffic low_traffic,
    caught (categorize areas high_traffic medium_traffic low_traffic).
Proof.
  induction areas as [|area rest IH]; intros h m l; [exact I|].
  cbn [categorize].
  pose proof (caught_value_get area "section" (VStr "Unknown")) as Hs.
  destruct (value_get area "section" (VStr "Unknown")) as [section|e];
    [|exact Hs].
  pose proof (caught_value_get area "density_level" (VStr "low")) as Hl.
  destruct (value_get area "density_level" (VStr "low")) as [density|e];
    [|exact Hl].
  cbn [res_bind].
  destruct (eq_str density "high"); [apply IH|].
  destruct (eq_str density "medium"); apply IH.
Qed.

Lemma caught_format_heatmap_response py data :
  caught (format_heatmap_response py data).
Proof.
  unfold format_heatmap_response.
  destruct (negb (truthy data)); [exact I|].
  pose proof (caught_iter data) as Hi.
  destruct (iter data) as [areas|e]; [|exact Hi]. cbn [res_bind].
  pose proof (caught_categorize areas [] [] []) as Hc.
  destruct (categorize areas [] [] []) as [[[h m] l]|e]; [|exact Hc].
  exact I.
Qed.

Lemma caught_format_visitor_response py data st :
  caught (fst (format_visitor_response py data st)).
Proof.
  unfold format_visitor_response.
  apply caught_bind.
  - destruct (negb (truthy data)); [exact I|].
    apply caught_bind; [apply caught_contains|]. intros; exact I.
  - intros [|] st1; [exact I|].
    apply caught_bind; [apply caught_value_get|]. intros count st2.
    apply caught_bind; [exact I|]. intros clock st3.
    apply caught_bind; [apply caught_value_get|]. intros timestamp st4.
    apply caught_bind.
    + destruct (eq_int count 0); [exact I|].
      apply caught_bind; [apply caught_lt_int|]. intros [|] st5; [exact I|].
      apply caught_bind; [apply caught_lt_int|]. intros [|] st6; [exact I|].
      apply caught_bind; [apply caught_lt_int|]. intros [|] st7; exact I.
    + intros [context emoji] st5. exact I.
Qed.

(** A fetch on a backend that fails with [Exception]s only. *)
Lemma caught_fetch_or env endpoint params default st :
  sync_well_behaved env ->
  caught (fst (fetch_or env endpoint params default st)).
Proof.
  intros Hwb. unfold fetch_or.
  apply caught_bind.
  - apply make_request_raises_exceptions. exact Hwb.
  - intros; exact I.
Qed.

(** [try: body  except Exception as e: return ...] around a body that
    raises [Exception]s only. *)
Lemma try_except_returns {A : Type} (body : Py A) (h : PyExc -> A) st :
  caught (fst (body st)) ->
  exists a,
    try_except body
      (fun e => if is_Exception (exc_class e) then ret (h e) else raise e) st
    = (Return a, snd (body st)).
Proof.
  intros Hc. unfold try_except. destruct (body st) as [[a|e] st'].
  - exists a. reflexivity.
  - cbn in Hc. rewrite Hc. exists (h e). reflexivity.
Qed.

(** X21.  The two tools built on the formatters always answer with text.
    On a backend whose failures are all [Exception]s, whatever it answers
    and however the answer is shaped, [get_current_visitors] and
    [get_heatmap_data] of [tools.py] return a str and raise nothing. *)
Theorem tools_always_answer py env query st :
  sync_well_behaved env ->
  (exists text st',
     tools.get_current_visitors py env query st = (Return text, st'))
  /\ (exists text st',
        tools.get_heatmap_data py env query st = (Return text, st')).
Proof.
  intros Hwb. split.
  - unfold tools.get_current_visitors.
    edestruct (try_except_returns
                 (data <- get_current_visitors env ;;
                  format_visitor_response py data)
                 (fun e => "❌ Error fetching visitor count: " ++ exc_str e)
                 st) as [text E].
    + apply caught_bind.
      * apply caught_fetch_or. exact Hwb.
      * intros. apply caught_format_visitor_response.
    + exists text. eexists. exact E.
  - unfold tools.get_heatmap_data.
    edestruct (try_except_returns
                 (heatmap_data <- get_heatmap_data env ;;
                  lift (format_heatmap_response py heatmap_data))
                 (fun e => "❌ Error fetching heatmap data: " ++ exc_str e)
                 st) as [text E].
    + apply caught_bind.
      * apply caught_fetch_or. exact Hwb.
      * intros. apply caught_format_heatmap_response.
    + exists text. eexists. exact E.
Qed.

Lemma tools_always_answer_witness :
  (exists text st',
     tools.get_current_visitors some_builtins (env_of flaky_transport) None
       (state_of default_settings test_now) = (Return text, st'))
  /\ (exists text st',
        tools.get_heatmap_data some_builtins (env_of flaky_transport) None
          (state_of default_settings test_now) = (Return text, st')).
Proof.
  apply (tools_always_answer some_builtins (env_of flaky_transport) None
           (state_of default_settings test_now)).
  intros [|k] req; reflexivity.
Defined.



(** X23.  With no retries allowed the tools report missing data.  For
    [max_retries <= 0] the client hands its empty defaults to the
    formatters without sending anything, and the tools answer that the
    data is unavailable, whatever the backend holds. *)
Theorem tools_without_retries_report_no_data py env query st :
  max_retries (api_client st) <= 0 ->
  tools.get_current_visitors py env query st
  = (Return "📭 Current visitor data is unavailable.", st)
  /\ tools.get_heatmap_data py env query st
     = (Return "🌡️ No heatmap data available at the moment.", st).
Proof.
  intros Hn. split.
  - unfold tools.get_current_visitors, try_except, get_current_visitors,
      endpoint_of.
    cbn [dict_get API_ENDPOINTS String.eqb Ascii.eqb Bool.eqb].
    unfold bind at 1 2, ret at 1, fetch_or. unfold bind at 1.
    rewrite make_request_no_attempts by exact Hn. reflexivity.
  - unfold tools.get_heatmap_data, try_except, get_heatmap_data, endpoint_of.
    cbn [dict_get API_ENDPOINTS String.eqb Ascii.eqb Bool.eqb].
    unfold bind at 1 2, ret at 1, fetch_or. unfold bind at 1.
    rewrite make_request_no_attempts by exact Hn. reflexivity.
Qed.

Lemma tools_without_retries_report_no_data_witness :
  tools.get_current_visitors some_builtins (env_of healthy_transport) None
    (state_of zero_retries test_now)
  = (Return "📭 Current visitor data is unavailable.",
     state_of zero_retries test_now)
  /\ tools.get_heatmap_data some_builtins (env_of healthy_transport) None
       (state_of zero_retries test_now)
     = (Return "🌡️ No heatmap data available at the moment.",
        state_of zero_retries test_now).
Proof.
  apply (tools_without_retries_report_no_data some_builtins
           (env_of healthy_transport) None (state_of zero_retries test_now)).
  simpl. lia.
Defined.
